(** * HMC5983 magnetometer driver (flight/PiOS/Common/pios_hmc5983_i2c.c)

    A shallow embedding of the I2C driver of the HMC5983 three-axis
    magnetometer: register configuration, conversion of the burst-read
    bytes to milligauss, the orientation switch, the identification
    self-test, the interrupt handler and the acquisition task.

    C integers are modelled as [Z] with the conversions written out;
    the hosting kernel and the I2C master are consumed through an
    interface ([Services]) over an abstract environment. *)

From Stdlib Require Import ZArith List Bool Lia String Ascii.
From Stdlib Require Import QArith Qround.
From Stdlib Require Import Floats.SpecFloat.
Import ListNotations.
Local Open Scope Z_scope.

(** ** C integer types *)

Module CInt.

Definition INT16_MIN : Z := -32768.
Definition INT16_MAX : Z := 32767.
Definition INT32_MIN : Z := -2147483648.
Definition INT32_MAX : Z := 2147483647.

Definition is_uint8 (v : Z) : Prop := 0 <= v < 256.
Definition is_int16 (v : Z) : Prop := INT16_MIN <= v <= INT16_MAX.
Definition is_int32 (v : Z) : Prop := INT32_MIN <= v <= INT32_MAX.

Definition in_int32 (v : Z) : bool := (INT32_MIN <=? v) && (v <=? INT32_MAX).

(** Conversions to the narrow types: modulo 2^w, and for the signed
    one the representative in [-2^15, 2^15) (what the compilers of the
    supported targets do for an out-of-range value). *)
Definition to_uint8 (v : Z) : Z := v mod 256.
Definition to_uint16 (v : Z) : Z := v mod 65536.
Definition to_int16 (v : Z) : Z := (v + 32768) mod 65536 - 32768.

(** Undefined behaviour and fatal stops a run of the driver can reach. *)
Inductive fault : Type :=
  | DivisionByZero
  | SignedOverflow
  | FloatOutOfRange
  | NullDereference
  | AssertFailed.

(** Value of a C expression: [Ok v], or undefined. *)
Inductive result (A : Type) : Type :=
  | Ok (a : A)
  | Undefined (f : fault).
Arguments Ok {A} a.
Arguments Undefined {A} f.

(** Arithmetic in [int] (32 bits): a result out of range, or a zero
    divisor, is undefined behaviour. *)
Definition int_mul (a b : Z) : result Z :=
  if in_int32 (a * b) then Ok (a * b) else Undefined SignedOverflow.

Definition int_div (a b : Z) : result Z :=
  if b =? 0 then Undefined DivisionByZero
  else if in_int32 (Z.quot a b) then Ok (Z.quot a b)
  else Undefined SignedOverflow.

End CInt.
Import CInt.

(** ** pios_hmc5983.h: register map and field encodings

    The header is not part of the files covered here.  The register
    addresses are those of the register map of the specification; the
    field encodings follow the bit tables of the comment above
    [PIOS_HMC5983_Config]. *)

(** Modelled from the spec: pios_hmc5983.h is missing; register map
    0x00 Control-A, 0x01 Control-B, 0x02 Mode, 0x03 X MSB, 0x0A ID-A. *)
Definition PIOS_HMC5983_CONFIG_REG_A : Z := 0x00.
Definition PIOS_HMC5983_CONFIG_REG_B : Z := 0x01.
Definition PIOS_HMC5983_MODE_REG : Z := 0x02.
Definition PIOS_HMC5983_DATAOUT_XMSB_REG : Z := 0x03.
Definition PIOS_HMC5983_DATAOUT_IDA_REG : Z := 0x0A.

(** Modelled from the spec: pios_hmc5983.h is missing; the output data
    rate is an enumerated code stored in bits 4:2 of Control-Register-A
    (DO2-DO0 of the bit table: 000 = 0.75 Hz ... 111 = 220 Hz). *)
Definition odr_code (do : Z) : Z := Z.shiftl do 2.
Definition PIOS_HMC5983_ODR_0_75 : Z := odr_code 0.
Definition PIOS_HMC5983_ODR_1_5 : Z := odr_code 1.
Definition PIOS_HMC5983_ODR_3 : Z := odr_code 2.
Definition PIOS_HMC5983_ODR_7_5 : Z := odr_code 3.
Definition PIOS_HMC5983_ODR_15 : Z := odr_code 4.
Definition PIOS_HMC5983_ODR_30 : Z := odr_code 5.
Definition PIOS_HMC5983_ODR_75 : Z := odr_code 6.
Definition PIOS_HMC5983_ODR_220 : Z := odr_code 7.

(** Modelled from the spec: pios_hmc5983.h is missing; the measurement
    configuration is bits 1:0 of Control-Register-A. *)
Definition PIOS_HMC5983_MEASCONF_NORMAL : Z := 0.
Definition PIOS_HMC5983_MEASCONF_BIAS_POS : Z := 1.
Definition PIOS_HMC5983_MEASCONF_BIAS_NEG : Z := 2.
Definition PIOS_HMC5983_MEASCONF_TEMP_ONLY : Z := 3.

(** Modelled from the spec: pios_hmc5983.h is missing; the gain code is
    bits 7:5 of Control-Register-B (GN2-GN0 of the bit table), so the
    constant of gain number [gn] is [gn << 5]. *)
Definition gain_code (gn : Z) : Z := Z.shiftl gn 5.
Definition PIOS_HMC5983_GAIN_0_88 : Z := gain_code 0.
Definition PIOS_HMC5983_GAIN_1_3 : Z := gain_code 1.
Definition PIOS_HMC5983_GAIN_1_9 : Z := gain_code 2.
Definition PIOS_HMC5983_GAIN_2_5 : Z := gain_code 3.
Definition PIOS_HMC5983_GAIN_4_0 : Z := gain_code 4.
Definition PIOS_HMC5983_GAIN_4_7 : Z := gain_code 5.
Definition PIOS_HMC5983_GAIN_5_6 : Z := gain_code 6.
Definition PIOS_HMC5983_GAIN_8_1 : Z := gain_code 7.

(** Modelled from the spec: pios_hmc5983.h is missing; mode select bits
    1:0 of the Mode-Register (00 continuous, 01 single, 11 sleep). *)
Definition PIOS_HMC5983_MODE_CONTINUOUS : Z := 0.
Definition PIOS_HMC5983_MODE_SINGLE : Z := 1.
Definition PIOS_HMC5983_MODE_SLEEP : Z := 3.

(** Modelled from the spec: pios_hmc5983.h is missing; the fixed
    gain-to-sensitivity table (LSB per gauss), which is also the gain
    column of the bit table in the source. *)
Definition PIOS_HMC5983_Sensitivity_0_88Ga : Z := 1370.
Definition PIOS_HMC5983_Sensitivity_1_3Ga : Z := 1090.
Definition PIOS_HMC5983_Sensitivity_1_9Ga : Z := 820.
Definition PIOS_HMC5983_Sensitivity_2_5Ga : Z := 660.
Definition PIOS_HMC5983_Sensitivity_4_0Ga : Z := 440.
Definition PIOS_HMC5983_Sensitivity_4_7Ga : Z := 390.
Definition PIOS_HMC5983_Sensitivity_5_6Ga : Z := 330.
Definition PIOS_HMC5983_Sensitivity_8_1Ga : Z := 230.

(** The eight gain codes with the sensitivity the table pairs them with. *)
Definition gain_table : list (Z * Z) :=
  [ (PIOS_HMC5983_GAIN_0_88, 1370); (PIOS_HMC5983_GAIN_1_3, 1090);
    (PIOS_HMC5983_GAIN_1_9, 820);   (PIOS_HMC5983_GAIN_2_5, 660);
    (PIOS_HMC5983_GAIN_4_0, 440);   (PIOS_HMC5983_GAIN_4_7, 390);
    (PIOS_HMC5983_GAIN_5_6, 330);   (PIOS_HMC5983_GAIN_8_1, 230) ].

Definition gain_enumerated (g : Z) : Prop := In g (map fst gain_table).

Inductive pios_hmc5983_orientation : Type :=
  | PIOS_HMC5983_TOP_0DEG
  | PIOS_HMC5983_TOP_90DEG
  | PIOS_HMC5983_TOP_180DEG
  | PIOS_HMC5983_TOP_270DEG
  | PIOS_HMC5983_BOTTOM_0DEG
  | PIOS_HMC5983_BOTTOM_90DEG
  | PIOS_HMC5983_BOTTOM_180DEG
  | PIOS_HMC5983_BOTTOM_270DEG.

(** [struct pios_hmc5983_cfg]: the fields the driver reads.  [exti_cfg]
    is a nullable pointer to the interrupt wiring. *)
Record pios_hmc5983_cfg : Type := {
  exti_cfg : option Z;
  M_ODR : Z;
  Meas_Conf : Z;
  Gain : Z;
  Mode : Z;
  Orientation : pios_hmc5983_orientation
}.

(** ** Conversion of the burst-read bytes *)

(** The switch of [PIOS_HMC5983_Config_GetSensitivity] on the Gain
    field; the statement after the switch returns 0. *)
Definition sensitivity_of_gain (gain : Z) : Z :=
  if gain =? PIOS_HMC5983_GAIN_0_88 then PIOS_HMC5983_Sensitivity_0_88Ga
  else if gain =? PIOS_HMC5983_GAIN_1_3 then PIOS_HMC5983_Sensitivity_1_3Ga
  else if gain =? PIOS_HMC5983_GAIN_1_9 then PIOS_HMC5983_Sensitivity_1_9Ga
  else if gain =? PIOS_HMC5983_GAIN_2_5 then PIOS_HMC5983_Sensitivity_2_5Ga
  else if gain =? PIOS_HMC5983_GAIN_4_0 then PIOS_HMC5983_Sensitivity_4_0Ga
  else if gain =? PIOS_HMC5983_GAIN_4_7 then PIOS_HMC5983_Sensitivity_4_7Ga
  else if gain =? PIOS_HMC5983_GAIN_5_6 then PIOS_HMC5983_Sensitivity_5_6Ga
  else if gain =? PIOS_HMC5983_GAIN_8_1 then PIOS_HMC5983_Sensitivity_8_1Ga
  else 0.

(** [(int16_t) ((uint16_t)buffer_read[i] << 8) + buffer_read[i+1]]: the
    cast binds tighter than the sum, which is computed in [int]. *)
Definition raw_axis (msb lsb : Z) : Z :=
  to_int16 (Z.shiftl (to_uint16 msb) 8) + lsb.

(** [raw * 1000 / sensitivity] in [int], then the store to an
    [int16_t] local ([mag_x], [mag_y], [mag_z]). *)
Definition mag_convert (raw sensitivity : Z) : result Z :=
  match int_mul raw 1000 with
  | Undefined f => Undefined f
  | Ok p =>
      match int_div p sensitivity with
      | Undefined f => Undefined f
      | Ok q => Ok (to_int16 q)
      end
  end.

Definition axis_mG (sensitivity msb lsb : Z) : result Z :=
  mag_convert (raw_axis msb lsb) sensitivity.

(** The big-endian byte pair as a two's-complement int16, in the words
    of the byte-order property: [(MSB << 8) | LSB], sign-extended. *)
Definition sign_extend16 (v : Z) : Z :=
  if Z.testbit v 15 then v - 65536 else v.

Definition big_endian_int16 (msb lsb : Z) : Z :=
  sign_extend16 (Z.lor (Z.shiftl msb 8) lsb).

(** ** The sample record and the orientation switch *)

(** [struct pios_sensor_mag_data] is declared in pios_sensors.h, which
    is not part of the files covered here.  A field holds the value of the
    expression assigned to it: the operand [mag_x], [mag_y] or [mag_z]
    is an [int16_t], promoted to [int] before the unary minus, so the
    negation itself is exact. *)
Record pios_sensor_mag_data : Type := {
  x : Z;
  y : Z;
  z : Z
}.

(** Modelled from the spec: pios_sensors.h is missing; the data model
    gives the fields of the sample record as int16, and a store to such
    a field wraps (negating INT16_MIN gives INT16_MIN back). *)
Definition sample_as_int16 (d : pios_sensor_mag_data) : pios_sensor_mag_data :=
  {| x := to_int16 (x d); y := to_int16 (y d); z := to_int16 (z d) |}.

(** The [switch (dev->orientation)] of [PIOS_HMC5983_ReadMag]. *)
Definition orientation_transform (o : pios_hmc5983_orientation)
    (mag_x mag_y mag_z : Z) : pios_sensor_mag_data :=
  match o with
  | PIOS_HMC5983_TOP_0DEG => {| x := - mag_x; y := mag_y; z := - mag_z |}
  | PIOS_HMC5983_TOP_90DEG => {| x := - mag_y; y := - mag_x; z := - mag_z |}
  | PIOS_HMC5983_TOP_180DEG => {| x := mag_x; y := - mag_y; z := - mag_z |}
  | PIOS_HMC5983_TOP_270DEG => {| x := mag_y; y := mag_x; z := - mag_z |}
  | PIOS_HMC5983_BOTTOM_0DEG => {| x := - mag_x; y := - mag_y; z := mag_z |}
  | PIOS_HMC5983_BOTTOM_90DEG => {| x := - mag_y; y := mag_x; z := mag_z |}
  | PIOS_HMC5983_BOTTOM_180DEG => {| x := mag_x; y := mag_y; z := mag_z |}
  | PIOS_HMC5983_BOTTOM_270DEG => {| x := mag_y; y := - mag_x; z := mag_z |}
  end.

(** The orientation table of the component design, row by row, over the
    device-axis triple in wire order [(rx, rz, ry)]. *)
Definition orientation_table (o : pios_hmc5983_orientation)
    (rx rz ry : Z) : Z * Z * Z :=
  match o with
  | PIOS_HMC5983_TOP_0DEG => (- rx, ry, - rz)
  | PIOS_HMC5983_TOP_90DEG => (- ry, - rx, - rz)
  | PIOS_HMC5983_TOP_180DEG => (rx, - ry, - rz)
  | PIOS_HMC5983_TOP_270DEG => (ry, rx, - rz)
  | PIOS_HMC5983_BOTTOM_0DEG => (- rx, - ry, rz)
  | PIOS_HMC5983_BOTTOM_90DEG => (- ry, rx, rz)
  | PIOS_HMC5983_BOTTOM_180DEG => (rx, ry, rz)
  | PIOS_HMC5983_BOTTOM_270DEG => (ry, - rx, rz)
  end.

Definition board_triple (d : pios_sensor_mag_data) : Z * Z * Z :=
  (x d, y d, z d).

(** The magnitudes of the components of a sample. *)
Definition abs_triple (d : pios_sensor_mag_data) : Z * Z * Z :=
  (Z.abs (x d), Z.abs (y d), Z.abs (z d)).

(** Applying a transform to a board-frame sample again. *)
Definition reorient (o : pios_hmc5983_orientation)
    (d : pios_sensor_mag_data) : pios_sensor_mag_data :=
  orientation_transform o (x d) (y d) (z d).

(** The conversion of [PIOS_HMC5983_ReadMag]: the three axis values in
    buffer order X, Z, Y, then the orientation switch. *)
Definition convert_burst (sensitivity : Z) (o : pios_hmc5983_orientation)
    (buffer_read : list Z) : result pios_sensor_mag_data :=
  let b i := nth i buffer_read 0 in
  match axis_mG sensitivity (b 0%nat) (b 1%nat) with
  | Undefined f => Undefined f
  | Ok mag_x =>
      match axis_mG sensitivity (b 2%nat) (b 3%nat) with
      | Undefined f => Undefined f
      | Ok mag_z =>
          match axis_mG sensitivity (b 4%nat) (b 5%nat) with
          | Undefined f => Undefined f
          | Ok mag_y => Ok (orientation_transform o mag_x mag_y mag_z)
          end
      end
  end.

(** ** Single-precision arithmetic

    [float] is IEEE binary32 with round-to-nearest-even, taken from the
    executable specification of the standard library. *)

Definition f32_prec : Z := 24.
Definition f32_emax : Z := 128.

Definition f32_of_int (n : Z) : spec_float :=
  binary_normalize f32_prec f32_emax n 0 false.

Definition f32_div : spec_float -> spec_float -> spec_float :=
  SFdiv f32_prec f32_emax.

Definition f32_add : spec_float -> spec_float -> spec_float :=
  SFadd f32_prec f32_emax.

(** The literal [num/den] written in decimal with the suffix [f]: the
    binary32 nearest to the quotient.  Numerator and denominator are
    below 2^24, hence exact, and the division rounds once. *)
Definition f32_literal (num den : Z) : spec_float :=
  f32_div (f32_of_int num) (f32_of_int den).

(** Conversion of a [float] to [uint32_t]: the fraction is discarded;
    an integral part that does not fit is undefined behaviour. *)
Definition f32_to_uint32 (f : spec_float) : result Z :=
  match f with
  | S754_zero _ => Ok 0
  | S754_finite s m e =>
      let t := if 0 <=? e then Zpos m * 2 ^ e else Zpos m / 2 ^ (- e) in
      let v := if s then - t else t in
      if (0 <=? v) && (v <? 2 ^ 32) then Ok v else Undefined FloatOutOfRange
  | S754_infinity _ => Undefined FloatOutOfRange
  | S754_nan => Undefined FloatOutOfRange
  end.

(** [1000 / hz + 0.99999f] converted to [uint32_t]. *)
Definition period_ms (hz : spec_float) : result Z :=
  f32_to_uint32
    (f32_add (f32_div (f32_of_int 1000) hz) (f32_literal 99999 100000)).

(** The [switch (dev->cfg->M_ODR)] of [PIOS_HMC5983_Task]: seven cases,
    the last one sharing its body with [default]. *)
Definition sample_delay_of_odr (odr : Z) : result Z :=
  if odr =? PIOS_HMC5983_ODR_0_75 then period_ms (f32_literal 75 100)
  else if odr =? PIOS_HMC5983_ODR_1_5 then period_ms (f32_literal 15 10)
  else if odr =? PIOS_HMC5983_ODR_3 then period_ms (f32_literal 30 10)
  else if odr =? PIOS_HMC5983_ODR_7_5 then period_ms (f32_literal 75 10)
  else if odr =? PIOS_HMC5983_ODR_15 then period_ms (f32_literal 150 10)
  else if odr =? PIOS_HMC5983_ODR_30 then period_ms (f32_literal 300 10)
  else period_ms (f32_literal 750 10).

(** Modelled from the spec: the rates of the data model, as exact
    rationals, paired with their codes, and the period the acquisition
    loop is said to use, [ceil(1000 / odr_hz)] milliseconds. *)
Definition odr_table : list (Z * Q) :=
  [ (PIOS_HMC5983_ODR_0_75, 3 # 4); (PIOS_HMC5983_ODR_1_5, 3 # 2);
    (PIOS_HMC5983_ODR_3, 3 # 1);    (PIOS_HMC5983_ODR_7_5, 15 # 2);
    (PIOS_HMC5983_ODR_15, 15 # 1);  (PIOS_HMC5983_ODR_30, 30 # 1);
    (PIOS_HMC5983_ODR_75, 75 # 1);  (PIOS_HMC5983_ODR_220, 220 # 1) ]%Q.

Definition ceil_period_ms (hz : Q) : Z := Qceiling ((1000 # 1) / hz).

(** Temperature of the 8-byte burst:
    [(float)(((uint16_t)b6 << 8) + b7) / 128.f + 25.f]. *)
Definition temperature_of (b6 b7 : Z) : spec_float :=
  f32_add
    (f32_div (f32_of_int (Z.shiftl (to_uint16 b6) 8 + b7)) (f32_literal 128 1))
    (f32_literal 25 1).

(** ** Consumed services: I2C master and kernel *)

Inductive pios_i2c_txn_direction : Type :=
  | PIOS_I2C_TXN_READ
  | PIOS_I2C_TXN_WRITE.

(** [struct pios_i2c_txn].  [buf] is the payload of a write segment and
    the current content of the destination of a read segment. *)
Record pios_i2c_txn : Type := {
  info : string;
  addr : Z;
  rw : pios_i2c_txn_direction;
  len : Z;
  buf : list Z
}.

(** Calls to the consumed services, in the order they are made. *)
Inductive event : Type :=
  | EvI2CTransfer (i2c_id : Z) (txn_list : list pios_i2c_txn)
  | EvSemaphoreGiveFromISR (sema : option Z)
  | EvSemaphoreTake (sema : option Z) (timeout : Z)
  | EvThreadSleep (ms : Z)
  | EvThreadSleepUntil (previous increment : Z)
  | EvQueueSend (queue : Z) (item : pios_sensor_mag_data) (timeout : Z)
  | EvMalloc
  | EvFree
  | EvQueueCreate (capacity : nat)
  | EvSemaphoreCreate
  | EvExtiInit (exti : Z)
  | EvSensorsRegister (queue : Z)
  | EvThreadCreate (name : string).

(** ** Device state *)

Definition PIOS_HMC5983_DEV_MAGIC : Z := 0x3d8efeed.
Definition HMC5983_TASK_STACK_BYTES : Z := 512.
Definition PIOS_HMC5983_MAX_DOWNSAMPLE : nat := 1.

(** [struct hmc5983_dev]; handles are numbers, [None] a null pointer. *)
Record hmc5983_dev : Type := {
  i2c_id : Z;
  cfg : pios_hmc5983_cfg;
  queue : Z;
  task : option Z;
  data_ready_sema : option Z;
  magic : Z;
  orientation : pios_hmc5983_orientation
}.

(** The services the driver calls, as functions of the state [Env] of
    their providers.  [i2c_transfer] answers a transaction list with its
    status and the bytes it stored through the read segment;
    [indeterminate_byte] and [indeterminate_mag_data] give the content
    of an automatic object that was never assigned, [indeterminate_dev]
    that of a fresh heap block.  The interface also fixes the constants
    whose headers are not covered here and whose value the specification
    does not give (the bus address of the sensor, the longest semaphore
    timeout) and the build option
    [PIOS_HMC5983_HAS_GPIOS]. *)
Class Services (Env : Type) : Type := {
  PIOS_HMC5983_I2C_ADDR : Z;
  PIOS_SEMAPHORE_TIMEOUT_MAX : Z;
  PIOS_HMC5983_HAS_GPIOS : bool;
  i2c_transfer : Env -> Z -> list pios_i2c_txn -> Z * list Z * Env;
  semaphore_take : Env -> option Z -> Z -> bool * Env;
  semaphore_give_fromISR : Env -> option Z -> bool -> bool * Env;
  thread_sleep : Env -> Z -> Env;
  thread_sleep_until : Env -> Z -> Z -> Z * Env;
  thread_systime : Env -> Z;
  indeterminate_byte : Env -> nat -> Z;
  indeterminate_mag_data : Env -> pios_sensor_mag_data;
  indeterminate_dev : Env -> hmc5983_dev;
  malloc_dev : Env -> bool * Env;
  queue_create : Env -> option Z * Env;
  semaphore_create : Env -> option Z * Env;
  exti_init : Env -> Z -> Env;
  sensors_register : Env -> Z -> Env;
  thread_create : Env -> option Z * Env
}.

(** ** Driver state *)

(** The driver's view of the machine: the global [dev] pointer, the
    state of the services, the content of the output queue, and the
    service calls made so far (oldest first). *)
Record world (Env : Type) : Type := {
  dev : option hmc5983_dev;
  env : Env;
  queue_items : list pios_sensor_mag_data;
  trace : list event
}.
Arguments dev {Env} w.
Arguments env {Env} w.
Arguments queue_items {Env} w.
Arguments trace {Env} w.
Arguments Build_world {Env} dev env queue_items trace.

(** A run ends with a value and a world, or in a fault. *)
Inductive outcome (Env A : Type) : Type :=
  | Ret (a : A) (w : world Env)
  | Fault (f : fault).
Arguments Ret {Env A} a w.
Arguments Fault {Env A} f.

Definition M (Env A : Type) : Type := world Env -> outcome Env A.

Definition ret {Env A} (a : A) : M Env A := fun w => Ret a w.

Definition bind {Env A B} (c : M Env A) (k : A -> M Env B) : M Env B :=
  fun w =>
    match c w with
    | Ret a w' => k a w'
    | Fault f => Fault f
    end.

Definition fail {Env A} (f : fault) : M Env A := fun _ => Fault f.

Definition lift {Env A} (r : result A) : M Env A :=
  match r with
  | Ok a => ret a
  | Undefined f => fail f
  end.

Declare Scope driver_scope.
Delimit Scope driver_scope with driver.
Notation "v <- c ;; k" := (bind c (fun v => k))
  (at level 61, c at next level, right associativity) : driver_scope.
Notation "c ;; k" := (bind c (fun _ => k))
  (at level 61, right associativity) : driver_scope.
Local Open Scope driver_scope.

(** Bytes stored by the bus through a read segment of [n] bytes: as many
    as it delivered, at most [n], over the destination's content. *)
Fixpoint store_bytes (n : nat) (rx old : list Z) : list Z :=
  match n, rx, old with
  | S n', r :: rx', _ :: old' => to_uint8 r :: store_bytes n' rx' old'
  | _, _, _ => old
  end.

(** [a[i] = v]. *)
Fixpoint set_nth (i : nat) (v : Z) (a : list Z) : list Z :=
  match i, a with
  | O, _ :: a' => v :: a'
  | S i', h :: a' => h :: set_nth i' v a'
  | _, [] => []
  end.

Definition char_code (c : ascii) : Z := Z.of_nat (nat_of_ascii c).

(** A scripted environment, for concrete runs: the bus answers the
    transfers from [i2c_script] in turn and fails when the script is
    used up; semaphore takes are answered from [take_script]; the clock
    advances by the time slept. *)
Record mock_env : Type := {
  i2c_script : list (Z * list Z);
  take_script : list bool;
  give_wakes : bool;
  clock : Z
}.

Definition mock_i2c_transfer (e : mock_env) (id : Z) (l : list pios_i2c_txn)
    : Z * list Z * mock_env :=
  match i2c_script e with
  | [] => (-1, [], e)
  | (st, rx) :: rest =>
      (st, rx, {| i2c_script := rest; take_script := take_script e;
                  give_wakes := give_wakes e; clock := clock e |})
  end.

Definition mock_semaphore_take (e : mock_env) (s : option Z) (t : Z)
    : bool * mock_env :=
  match take_script e with
  | [] => (false, e)
  | b :: rest =>
      (b, {| i2c_script := i2c_script e; take_script := rest;
             give_wakes := give_wakes e; clock := clock e |})
  end.

Definition mock_advance (e : mock_env) (t : Z) : mock_env :=
  {| i2c_script := i2c_script e; take_script := take_script e;
     give_wakes := give_wakes e; clock := t |}.

#[global] Instance mock_services : Services mock_env := {
  PIOS_HMC5983_I2C_ADDR := 0x1E;
  PIOS_SEMAPHORE_TIMEOUT_MAX := 0xFFFF;
  PIOS_HMC5983_HAS_GPIOS := true;
  i2c_transfer := mock_i2c_transfer;
  semaphore_take := mock_semaphore_take;
  semaphore_give_fromISR := fun e _ woken => (woken || give_wakes e, e);
  thread_sleep := fun e ms => mock_advance e (clock e + ms);
  thread_sleep_until := fun e prev inc => (prev + inc, mock_advance e (prev + inc));
  thread_systime := clock;
  indeterminate_byte := fun _ _ => 0xAA;
  indeterminate_mag_data := fun _ => {| x := 0x5555; y := 0x5555; z := 0x5555 |};
  indeterminate_dev := fun _ =>
    {| i2c_id := 0; queue := 0; task := None; data_ready_sema := None;
       magic := 0; orientation := PIOS_HMC5983_TOP_0DEG;
       cfg := {| exti_cfg := None; M_ODR := 0; Meas_Conf := 0; Gain := 0;
                 Mode := 0; Orientation := PIOS_HMC5983_TOP_0DEG |} |};
  malloc_dev := fun e => (true, e);
  queue_create := fun e => (Some 1, e);
  semaphore_create := fun e => (Some 2, e);
  exti_init := fun e _ => e;
  sensors_register := fun e _ => e;
  thread_create := fun e => (Some 3, e)
}.

(** A configuration as a board would give it, a device record as
    [PIOS_HMC5983_Init] leaves it, and a world around it whose bus
    follows a script. *)
Definition mock_cfg (odr gain : Z) (o : pios_hmc5983_orientation)
    : pios_hmc5983_cfg :=
  {| exti_cfg := None; M_ODR := odr;
     Meas_Conf := PIOS_HMC5983_MEASCONF_NORMAL; Gain := gain;
     Mode := PIOS_HMC5983_MODE_SINGLE; Orientation := o |}.

Definition mock_dev (c : pios_hmc5983_cfg) : hmc5983_dev :=
  {| i2c_id := 1; cfg := c; queue := 1; task := Some 3;
     data_ready_sema := None; magic := PIOS_HMC5983_DEV_MAGIC;
     orientation := Orientation c |}.

Definition mock_world (d : option hmc5983_dev) (script : list (Z * list Z))
    : world mock_env :=
  {| dev := d;
     env := {| i2c_script := script; take_script := []; give_wakes := true;
               clock := 0 |};
     queue_items := []; trace := [] |}.

Definition default_cfg : pios_hmc5983_cfg :=
  mock_cfg PIOS_HMC5983_ODR_15 PIOS_HMC5983_GAIN_1_3 PIOS_HMC5983_TOP_0DEG.

(** The scripted environment with a heap or a kernel that can refuse:
    the services of [mock_services] except for the allocation of the
    record and the creation of the queue. *)
Definition mock_services_with (heap_ok queue_ok : bool) : Services mock_env :=
  {| PIOS_HMC5983_I2C_ADDR := 0x1E;
     PIOS_SEMAPHORE_TIMEOUT_MAX := 0xFFFF;
     PIOS_HMC5983_HAS_GPIOS := true;
     i2c_transfer := mock_i2c_transfer;
     semaphore_take := mock_semaphore_take;
     semaphore_give_fromISR := fun e _ woken => (woken || give_wakes e, e);
     thread_sleep := fun e ms => mock_advance e (clock e + ms);
     thread_sleep_until :=
       fun e prev inc => (prev + inc, mock_advance e (prev + inc));
     thread_systime := clock;
     indeterminate_byte := fun _ _ => 0xAA;
     indeterminate_mag_data :=
       fun _ => {| x := 0x5555; y := 0x5555; z := 0x5555 |};
     indeterminate_dev := fun _ => mock_dev default_cfg;
     malloc_dev := fun e => (heap_ok, e);
     queue_create := fun e => (if queue_ok then Some 1 else None, e);
     semaphore_create := fun e => (Some 2, e);
     exti_init := fun e _ => e;
     sensors_register := fun e _ => e;
     thread_create := fun e => (Some 3, e) |}.

(** The scripted environment on a stack that was used before: an
    automatic array finds the bytes [residue] where it is placed (and
    0xAA beyond them).  The other services are those of
    [mock_services]. *)
Definition mock_services_on_stack (residue : list Z) : Services mock_env :=
  {| PIOS_HMC5983_I2C_ADDR := 0x1E;
     PIOS_SEMAPHORE_TIMEOUT_MAX := 0xFFFF;
     PIOS_HMC5983_HAS_GPIOS := true;
     i2c_transfer := mock_i2c_transfer;
     semaphore_take := mock_semaphore_take;
     semaphore_give_fromISR := fun e _ woken => (woken || give_wakes e, e);
     thread_sleep := fun e ms => mock_advance e (clock e + ms);
     thread_sleep_until :=
       fun e prev inc => (prev + inc, mock_advance e (prev + inc));
     thread_systime := clock;
     indeterminate_byte := fun _ i => nth i residue 0xAA;
     indeterminate_mag_data :=
       fun _ => {| x := 0x5555; y := 0x5555; z := 0x5555 |};
     indeterminate_dev := fun _ => mock_dev default_cfg;
     malloc_dev := fun e => (true, e);
     queue_create := fun e => (Some 1, e);
     semaphore_create := fun e => (Some 2, e);
     exti_init := fun e _ => e;
     sensors_register := fun e _ => e;
     thread_create := fun e => (Some 3, e) |}.

(** A device wired to the data-ready line and set to the continuous
    mode. *)
Definition interrupt_dev : hmc5983_dev :=
  {| i2c_id := 1;
     cfg := {| exti_cfg := Some 7; M_ODR := PIOS_HMC5983_ODR_75;
               Meas_Conf := PIOS_HMC5983_MEASCONF_NORMAL;
               Gain := PIOS_HMC5983_GAIN_1_3;
               Mode := PIOS_HMC5983_MODE_CONTINUOUS;
               Orientation := PIOS_HMC5983_TOP_0DEG |};
     queue := 1; task := Some 3; data_ready_sema := Some 2;
     magic := PIOS_HMC5983_DEV_MAGIC;
     orientation := PIOS_HMC5983_TOP_0DEG |}.

(** ** Reading the record of calls *)

(** The register writes among the recorded calls: address and value of
    every one-segment write transfer of two bytes. *)
Fixpoint register_writes (t : list event) : list (Z * Z) :=
  match t with
  | [] => []
  | EvI2CTransfer _ [ {| rw := PIOS_I2C_TXN_WRITE; buf := [a; v] |} ] :: t' =>
      (a, v) :: register_writes t'
  | _ :: t' => register_writes t'
  end.

Fixpoint queue_sends (t : list event) : list pios_sensor_mag_data :=
  match t with
  | [] => []
  | EvQueueSend _ item _ :: t' => item :: queue_sends t'
  | _ :: t' => queue_sends t'
  end.

Fixpoint semaphore_gives (t : list event) : list (option Z) :=
  match t with
  | [] => []
  | EvSemaphoreGiveFromISR s :: t' => s :: semaphore_gives t'
  | _ :: t' => semaphore_gives t'
  end.

Fixpoint bus_transfers (t : list event) : list (Z * list pios_i2c_txn) :=
  match t with
  | [] => []
  | EvI2CTransfer id l :: t' => (id, l) :: bus_transfers t'
  | _ :: t' => bus_transfers t'
  end.

Fixpoint thread_creates (t : list event) : list string :=
  match t with
  | [] => []
  | EvThreadCreate name :: t' => name :: thread_creates t'
  | _ :: t' => thread_creates t'
  end.

Fixpoint sensor_registrations (t : list event) : list Z :=
  match t with
  | [] => []
  | EvSensorsRegister q :: t' => q :: sensor_registrations t'
  | _ :: t' => sensor_registrations t'
  end.

(** ** The driver *)

Section Driver.

Context {Env : Type} {svc : Services Env}.

Definition get_dev : M Env (option hmc5983_dev) := fun w => Ret (dev w) w.

Definition set_dev (d : option hmc5983_dev) : M Env unit :=
  fun w => Ret tt (Build_world d (env w) (queue_items w) (trace w)).

(** [dev->field]: the global pointer is dereferenced. *)
Definition deref_dev : M Env hmc5983_dev :=
  fun w =>
    match dev w with
    | Some d => Ret d w
    | None => Fault NullDereference
    end.

(** A call to a service: the provider's state advances and the call is
    recorded. *)
Definition call {A} (f : Env -> A * Env) (e : event) : M Env A :=
  fun w =>
    let (a, env') := f (env w) in
    Ret a (Build_world (dev w) env' (queue_items w) (trace w ++ [e])).

Definition peek {A} (f : Env -> A) : M Env A := fun w => Ret (f (env w)) w.

(** What a transfer started in [w] answers, and the world it leaves. *)
Definition transfer_status (w : world Env) (id : Z) (l : list pios_i2c_txn) : Z :=
  fst (fst (i2c_transfer (env w) id l)).

Definition transfer_data (w : world Env) (id : Z) (l : list pios_i2c_txn)
    : list Z :=
  snd (fst (i2c_transfer (env w) id l)).

Definition after_transfer (w : world Env) (id : Z) (l : list pios_i2c_txn)
    : world Env :=
  Build_world (dev w) (snd (i2c_transfer (env w) id l)) (queue_items w)
              (trace w ++ [EvI2CTransfer id l]).

(** The calls recorded between [w] and a later world [w']. *)
Definition new_events (w w' : world Env) : list event :=
  skipn (List.length (trace w)) (trace w').

(** An automatic [uint8_t] array of [n] elements without initialiser:
    [n] bytes, whatever they are. *)
Definition automatic (e : Env) (n : nat) : list Z :=
  map (fun i => to_uint8 (indeterminate_byte e i)) (seq 0 n).

Definition automatic_bytes (n : nat) : M Env (list Z) :=
  peek (fun e => automatic e n).

Definition PIOS_Assert (b : bool) : M Env unit :=
  if b then ret tt else fail AssertFailed.

Definition is_some {A} (o : option A) : bool :=
  match o with Some _ => true | None => false end.

Definition PIOS_I2C_Transfer (id : Z) (txn_list : list pios_i2c_txn)
    : M Env (Z * list Z) :=
  call (fun e => i2c_transfer e id txn_list) (EvI2CTransfer id txn_list).

Definition PIOS_Semaphore_Take (sema : option Z) (timeout : Z) : M Env bool :=
  call (fun e => semaphore_take e sema timeout) (EvSemaphoreTake sema timeout).

(** [PIOS_Semaphore_Give_FromISR(sema, &woken)]: the result is the
    content of [woken] after the call. *)
Definition PIOS_Semaphore_Give_FromISR (sema : option Z) (woken : bool)
    : M Env bool :=
  call (fun e => semaphore_give_fromISR e sema woken)
       (EvSemaphoreGiveFromISR sema).

Definition PIOS_Thread_Sleep (ms : Z) : M Env unit :=
  call (fun e => (tt, thread_sleep e ms)) (EvThreadSleep ms).

(** [PIOS_Thread_Sleep_Until(&previous, increment)]: the result is the
    content of [previous] after the call. *)
Definition PIOS_Thread_Sleep_Until (previous increment : Z) : M Env Z :=
  call (fun e => thread_sleep_until e previous increment)
       (EvThreadSleepUntil previous increment).

Definition PIOS_Thread_Systime : M Env Z := peek thread_systime.

(** Modelled from the spec: pios_queue.c is missing; the output queue
    has the capacity it was created with, and a send with zero timeout
    drops the item when the queue is full. *)
Definition PIOS_Queue_Send (q : Z) (item : pios_sensor_mag_data) (timeout : Z)
    : M Env bool :=
  fun w =>
    if (List.length (queue_items w) <? PIOS_HMC5983_MAX_DOWNSAMPLE)%nat
    then Ret true (Build_world (dev w) (env w) (queue_items w ++ [item])
                               (trace w ++ [EvQueueSend q item timeout]))
    else Ret false (Build_world (dev w) (env w) (queue_items w)
                                (trace w ++ [EvQueueSend q item timeout])).

(** Modelled from the spec: pios_queue.c is missing; a queue that has
    just been created holds nothing.  [queue_items] is the content of
    the queue the driver sends to, the one behind [dev->queue]: when the
    creation succeeds the driver's queue is the new, empty one (what an
    earlier queue held is out of its reach), and when it fails no queue
    replaces the earlier one. *)
Definition PIOS_Queue_Create (capacity : nat) : M Env (option Z) :=
  fun w =>
    let (q, env') := queue_create (env w) in
    Ret q (Build_world (dev w) env'
             (match q with Some _ => [] | None => queue_items w end)
             (trace w ++ [EvQueueCreate capacity])).

(** [PIOS_HMC5983_Validate]. *)
Definition PIOS_HMC5983_Validate (d : option hmc5983_dev) : Z :=
  match d with
  | None => -1
  | Some dv =>
      if negb (magic dv =? PIOS_HMC5983_DEV_MAGIC) then -2
      else if i2c_id dv =? 0 then -3
      else 0
  end.

(** [PIOS_HMC5983_alloc]: the record comes from the heap with only
    [magic] and [queue] assigned; a null pointer is [None]. *)
Definition PIOS_HMC5983_alloc : M Env (option hmc5983_dev) :=
  ok <- call malloc_dev EvMalloc ;;
  if negb ok then ret None
  else
    blank <- peek indeterminate_dev ;;
    q <- PIOS_Queue_Create PIOS_HMC5983_MAX_DOWNSAMPLE ;;
    match q with
    | None => call (fun e => (tt, e)) EvFree ;; ret None
    | Some qh =>
        ret (Some {| i2c_id := i2c_id blank; cfg := cfg blank; queue := qh;
                     task := task blank;
                     data_ready_sema := data_ready_sema blank;
                     magic := PIOS_HMC5983_DEV_MAGIC;
                     orientation := orientation blank |})
    end.

(** The transaction list of [PIOS_HMC5983_Write]: one write segment
    holding the register address and the value, both [uint8_t]. *)
Definition write_txn_list (address buffer : Z) : list pios_i2c_txn :=
  let data := [to_uint8 address; to_uint8 buffer] in
  [ {| info := "PIOS_HMC5983_Write"; addr := PIOS_HMC5983_I2C_ADDR;
       rw := PIOS_I2C_TXN_WRITE; len := 2; buf := data |} ].

(** [PIOS_HMC5983_Write]. *)
Definition PIOS_HMC5983_Write (address buffer : Z) : M Env Z :=
  d <- get_dev ;;
  if negb (PIOS_HMC5983_Validate d =? 0) then ret (-1)
  else
    dv <- deref_dev ;;
    r <- PIOS_I2C_Transfer (i2c_id dv) (write_txn_list address buffer) ;;
    ret (fst r).

(** The transaction list of [PIOS_HMC5983_Read]: the register address
    is written, then [n] bytes are read. *)
Definition read_txn_list (address : Z) (buffer : list Z) (n : Z)
    : list pios_i2c_txn :=
  let addr_buffer := [to_uint8 address] in
  [ {| info := "PIOS_HMC5983_Read"; addr := PIOS_HMC5983_I2C_ADDR;
       rw := PIOS_I2C_TXN_WRITE; len := 1; buf := addr_buffer |};
    {| info := "PIOS_HMC5983_Read"; addr := PIOS_HMC5983_I2C_ADDR;
       rw := PIOS_I2C_TXN_READ; len := to_uint8 n; buf := buffer |} ].

(** [PIOS_HMC5983_Read]: the result carries the destination buffer
    after the call. *)
Definition PIOS_HMC5983_Read (address : Z) (buffer : list Z) (n : Z)
    : M Env (Z * list Z) :=
  d <- get_dev ;;
  if negb (PIOS_HMC5983_Validate d =? 0) then ret (-1, buffer)
  else
    dv <- deref_dev ;;
    r <- PIOS_I2C_Transfer (i2c_id dv) (read_txn_list address buffer n) ;;
    ret (fst r, store_bytes (Z.to_nat (to_uint8 n)) (snd r) buffer).

(** [PIOS_HMC5983_Config]. *)
Definition PIOS_HMC5983_Config (c : pios_hmc5983_cfg) : M Env Z :=
  ra <- PIOS_HMC5983_Write PIOS_HMC5983_CONFIG_REG_A
          (Z.lor (Z.lor 0x80 (M_ODR c)) (Meas_Conf c)) ;;
  if negb (ra =? 0) then ret (-1)
  else
    rb <- PIOS_HMC5983_Write PIOS_HMC5983_CONFIG_REG_B (Gain c) ;;
    if negb (rb =? 0) then ret (-1)
    else
      rm <- PIOS_HMC5983_Write PIOS_HMC5983_MODE_REG (Mode c) ;;
      if negb (rm =? 0) then ret (-1)
      else ret 0.

(** [PIOS_HMC5983_Config_GetSensitivity]. *)
Definition PIOS_HMC5983_Config_GetSensitivity : M Env Z :=
  dv <- deref_dev ;;
  ret (sensitivity_of_gain (Gain (cfg dv))).

(** The transaction list of [PIOS_HMC5983_ReadMag]: the address of the
    first data register is written, [n_read] bytes are read, and the
    mode register is written again, all in one transfer. *)
Definition readmag_txn_list (mode : Z) (buffer_read : list Z) (n_read : Z)
    : list pios_i2c_txn :=
  let addr_read := PIOS_HMC5983_DATAOUT_XMSB_REG in
  let buffer_write := [PIOS_HMC5983_MODE_REG; to_uint8 mode] in
  [ {| info := "PIOS_HMC5983_ReadMag"; addr := PIOS_HMC5983_I2C_ADDR;
       rw := PIOS_I2C_TXN_WRITE; len := 1; buf := [addr_read] |};
    {| info := "PIOS_HMC5983_ReadMag"; addr := PIOS_HMC5983_I2C_ADDR;
       rw := PIOS_I2C_TXN_READ; len := n_read; buf := buffer_read |};
    {| info := "PIOS_HMC5983_ReadMag"; addr := PIOS_HMC5983_I2C_ADDR;
       rw := PIOS_I2C_TXN_WRITE; len := 2; buf := buffer_write |} ].

(** The burst of a read started in [w]: its transaction list, and the
    read buffer after the transfer. *)
Definition burst_txn_list (w : world Env) (dv : hmc5983_dev)
    (temperature : option spec_float) : list pios_i2c_txn :=
  readmag_txn_list (Mode (cfg dv)) (automatic (env w) 8)
    (match temperature with None => 8 - 2 | Some _ => 8 end).

Definition burst_buffer (w : world Env) (dv : hmc5983_dev)
    (temperature : option spec_float) : list Z :=
  store_bytes
    (Z.to_nat (match temperature with None => 8 - 2 | Some _ => 8 end))
    (transfer_data w (i2c_id dv) (burst_txn_list w dv temperature))
    (automatic (env w) 8).

(** [PIOS_HMC5983_ReadMag(mag_data, temperature)]: [temperature] is
    [None] for a null pointer; the result carries the status and both
    output objects after the call. *)
Definition PIOS_HMC5983_ReadMag (mag_data : pios_sensor_mag_data)
    (temperature : option spec_float)
    : M Env (Z * pios_sensor_mag_data * option spec_float) :=
  d <- get_dev ;;
  if negb (PIOS_HMC5983_Validate d =? 0) then ret (-1, mag_data, temperature)
  else
    dv <- deref_dev ;;
    buffer_read0 <- automatic_bytes 8 ;;
    let n_read := match temperature with None => 8 - 2 | Some _ => 8 end in
    r <- PIOS_I2C_Transfer (i2c_id dv)
           (readmag_txn_list (Mode (cfg dv)) buffer_read0 n_read) ;;
    if negb (fst r =? 0) then ret (-1, mag_data, temperature)
    else
      let buffer_read := store_bytes (Z.to_nat n_read) (snd r) buffer_read0 in
      let b i := nth i buffer_read 0 in
      sensitivity <- PIOS_HMC5983_Config_GetSensitivity ;;
      dv' <- deref_dev ;;
      mag_data' <- lift (convert_burst sensitivity (orientation dv') buffer_read) ;;
      let temperature' :=
        match temperature with
        | None => None
        | Some _ => Some (temperature_of (b 6%nat) (b 7%nat))
        end in
      ret (0, mag_data', temperature').

(** [PIOS_HMC5983_ReadID(out)]: the result carries [out] after the call;
    the status is narrowed to [uint8_t]. *)
Definition PIOS_HMC5983_ReadID (out : list Z) : M Env (Z * list Z) :=
  r <- PIOS_HMC5983_Read PIOS_HMC5983_DATAOUT_IDA_REG out 3 ;;
  ret (to_uint8 (fst r), set_nth 3 0 (snd r)).

(** The transaction list of the identification read started in [w]. *)
Definition id_txn_list (w : world Env) : list pios_i2c_txn :=
  read_txn_list PIOS_HMC5983_DATAOUT_IDA_REG (automatic (env w) 4) 3.

(** [PIOS_HMC5983_Test]: [id] is an automatic array without initialiser;
    the status of [PIOS_HMC5983_ReadID] is not looked at. *)
Definition PIOS_HMC5983_Test : M Env Z :=
  id0 <- automatic_bytes 4 ;;
  r <- PIOS_HMC5983_ReadID id0 ;;
  let id := snd r in
  if negb (nth 0 id 0 =? char_code "H"%char)
     || negb (nth 1 id 0 =? char_code "4"%char)
     || negb (nth 2 id 0 =? char_code "3"%char)
  then ret (-1)
  else ret 0.

(** [PIOS_HMC5983_IRQHandler]. *)
Definition PIOS_HMC5983_IRQHandler : M Env bool :=
  d <- get_dev ;;
  if negb (PIOS_HMC5983_Validate d =? 0) then ret false
  else
    dv <- deref_dev ;;
    let woken := false in
    woken' <- PIOS_Semaphore_Give_FromISR (data_ready_sema dv) woken ;;
    ret woken'.

(** [PIOS_HMC5983_SetOrientation]. *)
Definition PIOS_HMC5983_SetOrientation (o : pios_hmc5983_orientation) : M Env Z :=
  d <- get_dev ;;
  if negb (PIOS_HMC5983_Validate d =? 0) then ret (-1)
  else
    dv <- deref_dev ;;
    set_dev (Some {| i2c_id := i2c_id dv; cfg := cfg dv; queue := queue dv;
                     task := task dv; data_ready_sema := data_ready_sema dv;
                     magic := magic dv; orientation := o |}) ;;
    ret 0.

Definition PIOS_EXTI_Init (exti : Z) : M Env unit :=
  call (fun e => (tt, exti_init e exti)) (EvExtiInit exti).

Definition PIOS_Semaphore_Create : M Env (option Z) :=
  call semaphore_create EvSemaphoreCreate.

Definition PIOS_SENSORS_Register (q : Z) : M Env unit :=
  call (fun e => (tt, sensors_register e q)) (EvSensorsRegister q).

Definition PIOS_Thread_Create (name : string) : M Env (option Z) :=
  call thread_create (EvThreadCreate name).

(** [PIOS_HMC5983_Init].  The worker the last call creates runs
    [PIOS_HMC5983_Task]; here the creation is a recorded call. *)
Definition PIOS_HMC5983_Init (id slave_num : Z) (c : pios_hmc5983_cfg) : M Env Z :=
  a <- PIOS_HMC5983_alloc ;;
  set_dev a ;;
  match a with
  | None => ret (-1)
  | Some d0 =>
      let d1 := {| i2c_id := id; cfg := c; queue := queue d0; task := task d0;
                   data_ready_sema := data_ready_sema d0; magic := magic d0;
                   orientation := Orientation c |} in
      set_dev (Some d1) ;;
      sema <- (if PIOS_HMC5983_HAS_GPIOS
               then match exti_cfg c with
                    | Some exti =>
                        PIOS_EXTI_Init exti ;;
                        s <- PIOS_Semaphore_Create ;;
                        PIOS_Assert (is_some s) ;;
                        ret s
                    | None => ret None
                    end
               else ret None) ;;
      let d2 := {| i2c_id := id; cfg := c; queue := queue d0; task := task d0;
                   data_ready_sema := sema; magic := magic d0;
                   orientation := Orientation c |} in
      set_dev (Some d2) ;;
      r <- PIOS_HMC5983_Config c ;;
      if negb (r =? 0) then ret (-2)
      else
        PIOS_SENSORS_Register (queue d2) ;;
        t <- PIOS_Thread_Create "pios_hmc5983" ;;
        set_dev (Some {| i2c_id := id; cfg := c; queue := queue d0; task := t;
                         data_ready_sema := sema; magic := magic d0;
                         orientation := Orientation c |}) ;;
        PIOS_Assert (is_some t) ;;
        ret 0
  end.

(** ** The acquisition task

    [PIOS_HMC5983_Task] never returns.  Its control state is either the
    first loop, which waits for a valid device, or the second one, which
    holds [sample_delay] and the time base [now]; [task_step] runs the
    body of the current loop once. *)

Inductive task_state : Type :=
  | WAIT_INIT
  | SAMPLING (sample_delay now : Z).

(** The end of the body of the second loop: the sample is read into an
    automatic record and sent when the read succeeded. *)
Definition read_and_publish : M Env unit :=
  mag_data0 <- peek indeterminate_mag_data ;;
  r <- PIOS_HMC5983_ReadMag mag_data0 None ;;
  if fst (fst r) =? 0
  then
    dv <- deref_dev ;;
    PIOS_Queue_Send (queue dv) (snd (fst r)) 0 ;;
    ret tt
  else ret tt.

(** The body of [while (1)]; the result is [now] after the iteration. *)
Definition task_iteration (sample_delay now : Z) : M Env Z :=
  dv <- deref_dev ;;
  if is_some (data_ready_sema dv)
     && (Mode (cfg dv) =? PIOS_HMC5983_MODE_CONTINUOUS)
  then
    taken <- PIOS_Semaphore_Take (data_ready_sema dv) PIOS_SEMAPHORE_TIMEOUT_MAX ;;
    if negb taken
    then PIOS_Thread_Sleep 100 ;; ret now
    else read_and_publish ;; ret now
  else
    now' <- PIOS_Thread_Sleep_Until now sample_delay ;;
    read_and_publish ;;
    ret now'.

Definition task_step (s : task_state) : M Env task_state :=
  match s with
  | WAIT_INIT =>
      d <- get_dev ;;
      if negb (PIOS_HMC5983_Validate d =? 0)
      then PIOS_Thread_Sleep 100 ;; ret WAIT_INIT
      else
        dv <- deref_dev ;;
        sample_delay <- lift (sample_delay_of_odr (M_ODR (cfg dv))) ;;
        now <- PIOS_Thread_Systime ;;
        ret (SAMPLING sample_delay now)
  | SAMPLING sample_delay now =>
      now' <- task_iteration sample_delay now ;;
      ret (SAMPLING sample_delay now')
  end.

(** The world a service call leaves. *)
Definition after_call {A} (f : Env -> A * Env) (e : event) (w : world Env)
    : world Env :=
  Build_world (dev w) (snd (f (env w))) (queue_items w) (trace w ++ [e]).

(** The world [PIOS_Queue_Send(q, &item, 0)] leaves. *)
Definition after_send (q : Z) (item : pios_sensor_mag_data) (w : world Env)
    : world Env :=
  Build_world (dev w) (env w)
    (if (List.length (queue_items w) <? PIOS_HMC5983_MAX_DOWNSAMPLE)%nat
     then queue_items w ++ [item] else queue_items w)
    (trace w ++ [EvQueueSend q item 0]).

(** Where an iteration of the second loop started in [w] reads the
    sensor: the time base and the world after the wait, or nothing when
    the semaphore was not obtained and the iteration starts over. *)
Definition reading_point (sample_delay now : Z) (w : world Env)
    : option (Z * world Env) :=
  match dev w with
  | None => None
  | Some dv =>
      if is_some (data_ready_sema dv)
         && (Mode (cfg dv) =? PIOS_HMC5983_MODE_CONTINUOUS)
      then
        if fst (semaphore_take (env w) (data_ready_sema dv)
                  PIOS_SEMAPHORE_TIMEOUT_MAX)
        then Some (now,
                   after_call (fun e => semaphore_take e (data_ready_sema dv)
                                          PIOS_SEMAPHORE_TIMEOUT_MAX)
                     (EvSemaphoreTake (data_ready_sema dv)
                        PIOS_SEMAPHORE_TIMEOUT_MAX) w)
        else None
      else
        Some (fst (thread_sleep_until (env w) now sample_delay),
              after_call (fun e => thread_sleep_until e now sample_delay)
                (EvThreadSleepUntil now sample_delay) w)
  end.

(** An operation that, whenever it returns, leaves the global [dev]
    pointer and the record behind it as they were. *)
Definition preserves_dev {A} (c : M Env A) : Prop :=
  forall w,
    match c w with
    | Ret _ w' => dev w' = dev w
    | Fault _ => True
    end.

(** The world with another device record behind [dev]. *)
Definition with_dev (d : option hmc5983_dev) (w : world Env) : world Env :=
  Build_world d (env w) (queue_items w) (trace w).

(** The device record with another orientation. *)
Definition with_orientation (dv : hmc5983_dev)
    (o : pios_hmc5983_orientation) : hmc5983_dev :=
  {| i2c_id := i2c_id dv; cfg := cfg dv; queue := queue dv; task := task dv;
     data_ready_sema := data_ready_sema dv; magic := magic dv;
     orientation := o |}.

(** The calls one iteration of the sampling loop may make: a wait (for
    the semaphore or for the next period), then either the retry sleep,
    or the burst transfer alone, or the burst transfer and a send. *)
Definition is_wait (e : event) : Prop :=
  match e with
  | EvSemaphoreTake _ _ => True
  | EvThreadSleepUntil _ _ => True
  | _ => False
  end.

Definition is_burst (dv : hmc5983_dev) (e : event) : Prop :=
  exists buffer,
    e = EvI2CTransfer (i2c_id dv)
          (readmag_txn_list (Mode (cfg dv)) buffer (8 - 2)).

Definition iteration_shape (dv : hmc5983_dev) (l : list event) : Prop :=
  exists wait,
    is_wait wait /\
    (l = [wait; EvThreadSleep 100] \/
     (exists burst, is_burst dv burst /\ l = [wait; burst]) \/
     (exists burst s,
        is_burst dv burst /\ l = [wait; burst; EvQueueSend (queue dv) s 0])).

(** The first [n] loop bodies of the task. *)
Fixpoint PIOS_HMC5983_Task (n : nat) (s : task_state) : M Env task_state :=
  match n with
  | O => ret s
  | S n' => s' <- task_step s ;; PIOS_HMC5983_Task n' s'
  end.

End Driver.

(** * Properties *)

(** Range side conditions on closed numbers, by evaluation. *)
Ltac byte_range :=
  unfold is_uint8; vm_compute; split; [discriminate | reflexivity].

Ltac int16_range :=
  unfold is_int16; vm_compute; split; discriminate.

(** Closes the cases of the proof about the configuration sequence:
    each conjunct either has a contradictory premise or is one of the
    facts [Hbits], [E3], [Hregs] collected before. *)
Ltac settle_config Hbits E3 Hregs :=
  repeat split; try (intros; lia); try tauto;
  try (intros; (discriminate || contradiction || assumption));
  try (rewrite E3; exact Hregs);
  try (edestruct Hbits as [? ?]; eassumption).

(** ** Integer conversions *)

Lemma to_int16_id v : is_int16 v -> to_int16 v = v.
Proof.
  unfold is_int16, INT16_MIN, INT16_MAX, to_int16. intros H.
  rewrite Z.mod_small; lia.
Qed.

Lemma to_int16_range v : is_int16 (to_int16 v).
Proof.
  unfold is_int16, INT16_MIN, INT16_MAX, to_int16.
  pose proof (Z.mod_pos_bound (v + 32768) 65536). lia.
Qed.

Lemma to_int16_opp v :
  is_int16 v ->
  to_int16 (- v) = if v =? INT16_MIN then INT16_MIN else - v.
Proof.
  unfold is_int16, INT16_MIN, INT16_MAX. intros H.
  destruct (Z.eqb_spec v (-32768)) as [-> | Hne]; [reflexivity |].
  apply to_int16_id. unfold is_int16, INT16_MIN, INT16_MAX. lia.
Qed.

Lemma to_int16_opp_abs v : is_int16 v -> Z.abs (to_int16 (- v)) = Z.abs v.
Proof.
  intros H. rewrite to_int16_opp by exact H.
  destruct (Z.eqb_spec v INT16_MIN) as [-> | _]; [reflexivity | apply Z.abs_opp].
Qed.

Lemma to_uint8_range v : is_uint8 (to_uint8 v).
Proof. unfold is_uint8, to_uint8. apply Z.mod_pos_bound. lia. Qed.

Lemma to_uint8_id v : is_uint8 v -> to_uint8 v = v.
Proof. unfold is_uint8, to_uint8. intros H. apply Z.mod_small; lia. Qed.

Lemma to_uint16_byte v : is_uint8 v -> to_uint16 v = v.
Proof. unfold is_uint8, to_uint16. intros H. apply Z.mod_small; lia. Qed.

Lemma in_int32_true v : is_int32 v -> in_int32 v = true.
Proof.
  unfold is_int32, in_int32. intros [H1 H2].
  apply andb_true_intro; split; apply Z.leb_le; assumption.
Qed.

Lemma lor_uint8 a b : is_uint8 a -> is_uint8 b -> is_uint8 (Z.lor a b).
Proof.
  unfold is_uint8. intros Ha Hb.
  assert (E : Z.lor a b = Z.lor a b mod 2 ^ 8).
  { rewrite <- Z.land_ones by lia.
    rewrite Z.land_lor_distr_l, !Z.land_ones by lia.
    change (2 ^ 8) with 256. rewrite !Z.mod_small by lia. reflexivity. }
  rewrite E. change (2 ^ 8) with 256. apply Z.mod_pos_bound. lia.
Qed.

(** ** Byte order of the burst *)

Lemma shiftl8_lor_add msb lsb :
  is_uint8 lsb -> Z.lor (Z.shiftl msb 8) lsb = msb * 256 + lsb.
Proof.
  unfold is_uint8. intros Hl.
  assert (Hland : Z.land (Z.shiftl msb 8) lsb = 0).
  { apply Z.bits_inj'. intros n Hn.
    rewrite Z.land_spec, Z.bits_0.
    destruct (Z_lt_le_dec n 8) as [Hlt | Hge].
    - rewrite Z.shiftl_spec_low by lia. reflexivity.
    - assert (Z.testbit lsb n = false) as ->.
      { destruct (Z.eq_dec lsb 0) as [-> | Hnz]; [apply Z.bits_0 |].
        apply Z.bits_above_log2; [lia |].
        apply Z.log2_lt_pow2; [lia |].
        assert (2 ^ 8 <= 2 ^ n) by (apply Z.pow_le_mono_r; lia).
        change (2 ^ 8) with 256 in *. lia. }
      apply andb_false_r. }
  rewrite <- Z.lxor_lor by exact Hland.
  rewrite <- Z.add_nocarry_lxor by exact Hland.
  rewrite Z.shiftl_mul_pow2 by lia. reflexivity.
Qed.

Lemma testbit15_word v :
  0 <= v < 65536 -> Z.testbit v 15 = (32768 <=? v).
Proof.
  intros Hv.
  pose proof (Z.testbit_spec' v 15 ltac:(lia)) as Hb.
  change (2 ^ 15) with 32768 in Hb.
  destruct (Z.leb_spec 32768 v) as [Hge | Hlt].
  - assert (v / 32768 = 1) as Hq.
    { symmetry. apply (Z.div_unique v 32768 1 (v - 32768)); lia. }
    rewrite Hq in Hb. destruct (Z.testbit v 15); [reflexivity | discriminate].
  - rewrite Z.div_small in Hb by lia.
    destruct (Z.testbit v 15); [discriminate | reflexivity].
Qed.

Lemma raw_axis_value msb lsb :
  is_uint8 msb -> is_uint8 lsb ->
  raw_axis msb lsb =
    if msb <? 128 then msb * 256 + lsb else msb * 256 + lsb - 65536.
Proof.
  unfold raw_axis. intros Hm Hl.
  rewrite (to_uint16_byte _ Hm), Z.shiftl_mul_pow2 by lia.
  change (2 ^ 8) with 256. unfold to_int16, is_uint8 in *.
  destruct (Z.ltb_spec msb 128).
  - rewrite Z.mod_small by lia. lia.
  - replace (msb * 256 + 32768) with (msb * 256 - 32768 + 1 * 65536) by lia.
    rewrite Z.mod_add by lia. rewrite Z.mod_small by lia. lia.
Qed.

Lemma raw_axis_int16 msb lsb :
  is_uint8 msb -> is_uint8 lsb -> is_int16 (raw_axis msb lsb).
Proof.
  intros Hm Hl. rewrite raw_axis_value by assumption.
  unfold is_uint8, is_int16, INT16_MIN, INT16_MAX in *.
  destruct (Z.ltb_spec msb 128); lia.
Qed.

(** C5.  For every byte pair (MSB, LSB) of the burst-read buffer, the
    raw axis value the driver reconstructs is the sign-extended 16-bit
    value [(MSB << 8) | LSB]: the big-endian pair read as a
    two's-complement int16. *)
Theorem C5_raw_axis_big_endian msb lsb :
  is_uint8 msb -> is_uint8 lsb ->
  raw_axis msb lsb = big_endian_int16 msb lsb.
Proof.
  intros Hm Hl. rewrite raw_axis_value by assumption.
  unfold big_endian_int16, sign_extend16.
  rewrite shiftl8_lor_add by exact Hl.
  unfold is_uint8 in *.
  rewrite testbit15_word by lia.
  destruct (Z.ltb_spec msb 128), (Z.leb_spec 32768 (msb * 256 + lsb)); lia.
Qed.

(** ** Sensitivity and conversion to milligauss *)

Lemma gain_table_cases g S :
  In (g, S) gain_table ->
  (g, S) = (0, 1370) \/ (g, S) = (32, 1090) \/ (g, S) = (64, 820) \/
  (g, S) = (96, 660) \/ (g, S) = (128, 440) \/ (g, S) = (160, 390) \/
  (g, S) = (192, 330) \/ (g, S) = (224, 230).
Proof.
  cbn. intros H.
  repeat (destruct H as [H | H]; [symmetry in H; tauto |]).
  contradiction.
Qed.

Lemma sensitivity_of_gain_table g S :
  In (g, S) gain_table -> sensitivity_of_gain g = S.
Proof.
  intros H. apply gain_table_cases in H.
  repeat (destruct H as [H | H]); inversion H; reflexivity.
Qed.

Lemma gain_table_positive g S : In (g, S) gain_table -> 230 <= S <= 1370.
Proof.
  intros H. apply gain_table_cases in H.
  repeat (destruct H as [H | H]); inversion H; lia.
Qed.

Lemma gain_enumerated_table g :
  gain_enumerated g -> In (g, sensitivity_of_gain g) gain_table.
Proof.
  unfold gain_enumerated. cbn. intros H.
  repeat (destruct H as [H | H]; [subst g; cbn; tauto |]).
  contradiction.
Qed.

Lemma sensitivity_of_gain_other g :
  ~ gain_enumerated g -> sensitivity_of_gain g = 0.
Proof.
  unfold gain_enumerated, sensitivity_of_gain. cbn. intros H.
  repeat match goal with
         | |- context [?a =? ?b] =>
             destruct (Z.eqb_spec a b); [exfalso; apply H; subst; tauto |]
         end.
  reflexivity.
Qed.

Lemma quot_bounds a b :
  0 < b -> Z.abs (Z.quot a b) <= Z.abs a.
Proof.
  intros Hb. rewrite <- (Z.abs_eq b) at 1 by lia.
  rewrite <- Z.quot_abs by lia.
  rewrite (Z.abs_eq b) by lia.
  rewrite Z.quot_div_nonneg by lia.
  apply Z.div_le_upper_bound; [lia |].
  pose proof (Z.abs_nonneg a). nia.
Qed.

Lemma int_mul_1000 raw : is_int16 raw -> int_mul raw 1000 = Ok (raw * 1000).
Proof.
  unfold is_int16, INT16_MIN, INT16_MAX, int_mul. intros Hr.
  rewrite in_int32_true by (unfold is_int32, INT32_MIN, INT32_MAX; lia).
  reflexivity.
Qed.

Lemma mag_convert_int16 raw S :
  is_int16 raw -> 0 < S ->
  mag_convert raw S = Ok (to_int16 (Z.quot (raw * 1000) S)).
Proof.
  intros Hr HS. unfold mag_convert. rewrite int_mul_1000 by exact Hr.
  unfold is_int16, INT16_MIN, INT16_MAX in Hr. unfold int_div.
  destruct (Z.eqb_spec S 0); [lia |].
  pose proof (quot_bounds (raw * 1000) S HS).
  rewrite in_int32_true; [reflexivity |].
  unfold is_int32, INT32_MIN, INT32_MAX. lia.
Qed.

Lemma mag_convert_zero raw :
  is_int16 raw -> mag_convert raw 0 = Undefined DivisionByZero.
Proof.
  intros Hr. unfold mag_convert. rewrite int_mul_1000 by exact Hr. reflexivity.
Qed.

Lemma device_range_quot raw S :
  -2048 <= raw <= 2047 -> 230 <= S -> is_int16 (Z.quot (raw * 1000) S).
Proof.
  intros Hr HS. unfold is_int16, INT16_MIN, INT16_MAX.
  assert (Hq : Z.abs (Z.quot (raw * 1000) S) <= 8905).
  { rewrite <- (Z.abs_eq S) at 1 by lia.
    rewrite <- Z.quot_abs by lia. rewrite (Z.abs_eq S) by lia.
    rewrite Z.quot_div_nonneg by lia.
    apply Z.div_le_upper_bound; lia. }
  lia.
Qed.

(** C1 (as amended).  For every gain code of the table, with [S] the
    sensitivity paired with it, and every raw 16-bit signed count: the
    driver looks up [S]; the product [raw * 1000] is computed in 32-bit
    [int] without overflow; the axis value is [raw * 1000 / S]
    truncated toward zero, narrowed to the int16 it is stored in.  The
    narrowing changes nothing whenever the quotient fits 16 bits, which
    it does for every count of the device's output range -2048..2047
    (so for -2048, -1, 0, 1 and 2047). *)
Theorem C1_axis_value_milligauss g S raw :
  In (g, S) gain_table -> is_int16 raw ->
  sensitivity_of_gain g = S /\
  int_mul raw 1000 = Ok (raw * 1000) /\
  mag_convert raw (sensitivity_of_gain g)
    = Ok (to_int16 (Z.quot (raw * 1000) S)) /\
  (is_int16 (Z.quot (raw * 1000) S) ->
   mag_convert raw (sensitivity_of_gain g) = Ok (Z.quot (raw * 1000) S)) /\
  (-2048 <= raw <= 2047 ->
   mag_convert raw (sensitivity_of_gain g) = Ok (Z.quot (raw * 1000) S)).
Proof.
  intros Hg Hr.
  pose proof (sensitivity_of_gain_table g S Hg) as HS.
  pose proof (gain_table_positive g S Hg) as Hpos.
  rewrite HS.
  assert (Hc : mag_convert raw S = Ok (to_int16 (Z.quot (raw * 1000) S)))
    by (apply mag_convert_int16; [exact Hr | lia]).
  split; [reflexivity |].
  split; [apply int_mul_1000; exact Hr |].
  split; [exact Hc |].
  split.
  - intros Hq. rewrite Hc, to_int16_id by exact Hq. reflexivity.
  - intros Hdev. rewrite Hc, to_int16_id; [reflexivity |].
    apply device_range_quot; lia.
Qed.

(** C1, as first stated, fails outside the device's output range: with
    the gain code of 1.9 Ga (820 LSB/Ga) the count 32767 (bytes 0x7F,
    0xFF) gives the quotient 39959, which the int16 store turns into
    -25577. *)
Lemma C1_counterexample_wide_count :
  In (PIOS_HMC5983_GAIN_1_9, 820) gain_table /\
  is_int16 32767 /\
  raw_axis 0x7F 0xFF = 32767 /\
  Z.quot (32767 * 1000) 820 = 39959 /\
  axis_mG (sensitivity_of_gain PIOS_HMC5983_GAIN_1_9) 0x7F 0xFF = Ok (-25577) /\
  ~ (forall g S raw, In (g, S) gain_table -> is_int16 raw ->
       mag_convert raw (sensitivity_of_gain g) = Ok (Z.quot (raw * 1000) S)).
Proof.
  assert (Hin : In (PIOS_HMC5983_GAIN_1_9, 820) gain_table) by (cbn; tauto).
  assert (Hr : is_int16 32767) by (unfold is_int16, INT16_MIN, INT16_MAX; lia).
  split; [exact Hin |]. split; [exact Hr |].
  split; [reflexivity |]. split; [reflexivity |]. split; [reflexivity |].
  intros H. specialize (H _ _ _ Hin Hr). vm_compute in H. discriminate H.
Qed.

(** ** Orientation *)

(** C4.  For each of the eight orientations and every device-axis
    triple in wire order (rx, rz, ry), the switch assigns the board-frame
    triple of the orientation table; for (100, 200, 300) and BOTTOM_270
    it is (300, -100, 200). *)
Theorem C4_orientation_table o rx rz ry :
  board_triple (orientation_transform o rx ry rz) = orientation_table o rx rz ry /\
  board_triple (orientation_transform PIOS_HMC5983_BOTTOM_270DEG 100 300 200)
    = (300, -100, 200).
Proof. split; [destruct o |]; reflexivity. Qed.

(** With int16 fields the stored sample is the assigned one unless a
    component that the orientation negates is INT16_MIN. *)
Lemma sample_as_int16_exact o mx my mz :
  INT16_MIN < mx <= INT16_MAX -> INT16_MIN < my <= INT16_MAX ->
  INT16_MIN < mz <= INT16_MAX ->
  sample_as_int16 (orientation_transform o mx my mz)
    = orientation_transform o mx my mz.
Proof.
  unfold INT16_MIN, INT16_MAX. intros Hx Hy Hz.
  destruct o; unfold sample_as_int16; cbn; f_equal;
    apply to_int16_id; unfold is_int16, INT16_MIN, INT16_MAX; lia.
Qed.

(** C6.  Applying TOP_0 leaves the magnitude of each component equal;
    applying TOP_180 twice gives the input back; and each of the eight
    transforms sends the components to plus or minus the components of
    the input, so the magnitudes are those of the input, with x and y
    exchanged by the quarter turns.  The same holds for the sample as
    stored in int16 fields, where negating INT16_MIN wraps to
    INT16_MIN. *)
Theorem C6_orientation_involution_family o mx my mz :
  abs_triple (orientation_transform PIOS_HMC5983_TOP_0DEG mx my mz)
    = (Z.abs mx, Z.abs my, Z.abs mz) /\
  reorient PIOS_HMC5983_TOP_180DEG
      (orientation_transform PIOS_HMC5983_TOP_180DEG mx my mz)
    = {| x := mx; y := my; z := mz |} /\
  (let d := orientation_transform o mx my mz in
   (x d = mx \/ x d = - mx \/ x d = my \/ x d = - my) /\
   (y d = mx \/ y d = - mx \/ y d = my \/ y d = - my) /\
   (z d = mz \/ z d = - mz) /\
   (abs_triple d = (Z.abs mx, Z.abs my, Z.abs mz) \/
    abs_triple d = (Z.abs my, Z.abs mx, Z.abs mz))) /\
  (is_int16 mx -> is_int16 my -> is_int16 mz ->
   let d := sample_as_int16 (orientation_transform o mx my mz) in
   (abs_triple d = (Z.abs mx, Z.abs my, Z.abs mz) \/
    abs_triple d = (Z.abs my, Z.abs mx, Z.abs mz)) /\
   abs_triple
     (sample_as_int16 (orientation_transform PIOS_HMC5983_TOP_0DEG mx my mz))
     = (Z.abs mx, Z.abs my, Z.abs mz) /\
   sample_as_int16
     (reorient PIOS_HMC5983_TOP_180DEG
        (sample_as_int16
           (orientation_transform PIOS_HMC5983_TOP_180DEG mx my mz)))
     = {| x := mx; y := my; z := mz |}).
Proof.
  split; [| split; [| split]].
  - unfold abs_triple; cbn. rewrite !Z.abs_opp. reflexivity.
  - unfold reorient; cbn. rewrite !Z.opp_involutive. reflexivity.
  - destruct o; unfold abs_triple; cbn; rewrite ?Z.abs_opp; tauto.
  - intros Hx Hy Hz. cbv zeta.
    assert (Hopp : forall v, is_int16 v -> to_int16 (- to_int16 (- v)) = v).
    { intros v Hv. rewrite (to_int16_opp v Hv).
      destruct (Z.eqb_spec v INT16_MIN) as [-> | Hne]; [reflexivity |].
      rewrite Z.opp_involutive. apply to_int16_id. exact Hv. }
    split; [| split].
    + destruct o; unfold abs_triple, sample_as_int16; cbn;
        rewrite ?to_int16_opp_abs, ?to_int16_id by assumption; tauto.
    + unfold abs_triple, sample_as_int16; cbn.
      rewrite !to_int16_opp_abs, to_int16_id by assumption. reflexivity.
    + unfold reorient, sample_as_int16; cbn.
      rewrite !Hopp, !to_int16_id by (assumption || apply to_int16_range).
      reflexivity.
Qed.

(** ** Sample period *)

Lemma sample_delay_table odr hz :
  In (odr, hz) odr_table -> odr <> PIOS_HMC5983_ODR_220 ->
  sample_delay_of_odr odr = Ok (ceil_period_ms hz).
Proof.
  cbn [odr_table In]. intros H Hne.
  repeat (destruct H as [H | H];
          [inversion H; subst; try contradiction; vm_compute; reflexivity |]).
  contradiction.
Qed.

Lemma sample_delay_default odr :
  ~ In odr [ PIOS_HMC5983_ODR_0_75; PIOS_HMC5983_ODR_1_5; PIOS_HMC5983_ODR_3;
             PIOS_HMC5983_ODR_7_5; PIOS_HMC5983_ODR_15; PIOS_HMC5983_ODR_30 ] ->
  sample_delay_of_odr odr = Ok 14.
Proof.
  unfold sample_delay_of_odr. cbn [In]. intros H.
  repeat match goal with
         | |- context [?a =? ?b] =>
             destruct (Z.eqb_spec a b); [exfalso; apply H; subst; tauto |]
         end.
  vm_compute. reflexivity.
Qed.

(** ** The driver on an arbitrary environment *)

Section DriverProperties.

Context {Env : Type} {svc : Services Env}.

Implicit Types (w : world Env) (dv : hmc5983_dev).

Lemma transfer_run w id l :
  PIOS_I2C_Transfer id l w
    = Ret (transfer_status w id l, transfer_data w id l) (after_transfer w id l).
Proof.
  unfold PIOS_I2C_Transfer, call, transfer_status, transfer_data, after_transfer.
  destruct (i2c_transfer (env w) id l) as [[st rx] e']. reflexivity.
Qed.

Lemma validate_zero d :
  PIOS_HMC5983_Validate d = 0 ->
  exists dv, d = Some dv /\ magic dv = PIOS_HMC5983_DEV_MAGIC /\ i2c_id dv <> 0.
Proof.
  destruct d as [dv |]; cbn; [| discriminate].
  destruct (Z.eqb_spec (magic dv) PIOS_HMC5983_DEV_MAGIC); cbn; [| discriminate].
  destruct (Z.eqb_spec (i2c_id dv) 0); [discriminate |].
  intros _. exists dv. auto.
Qed.

Lemma validate_nonzero_cases d :
  PIOS_HMC5983_Validate d <> 0 <->
  (d = None \/
   exists dv, d = Some dv /\
     (magic dv <> PIOS_HMC5983_DEV_MAGIC \/ i2c_id dv = 0)).
Proof.
  destruct d as [dv |]; cbn.
  - destruct (Z.eqb_spec (magic dv) PIOS_HMC5983_DEV_MAGIC); cbn.
    + destruct (Z.eqb_spec (i2c_id dv) 0); split; intros H; try lia.
      * right. exists dv. auto.
      * destruct H as [H | (dv' & E & [H | H])]; [discriminate | |];
          inversion E; subst; contradiction.
    + split; intros H; [| lia]. right. exists dv. auto.
  - split; intros _; [auto | lia].
Qed.

(** The guard [if (PIOS_HMC5983_Validate(dev) != 0)] as a boolean. *)
Lemma guard_valid d :
  PIOS_HMC5983_Validate d = 0 -> negb (PIOS_HMC5983_Validate d =? 0) = false.
Proof. intros ->. reflexivity. Qed.

Lemma guard_invalid d :
  PIOS_HMC5983_Validate d <> 0 -> negb (PIOS_HMC5983_Validate d =? 0) = true.
Proof. intros H. destruct (Z.eqb_spec (PIOS_HMC5983_Validate d) 0); [lia | reflexivity]. Qed.

Lemma after_transfer_dev w id l : dev (after_transfer w id l) = dev w.
Proof. reflexivity. Qed.

Lemma after_transfer_trace w id l :
  trace (after_transfer w id l) = trace w ++ [EvI2CTransfer id l].
Proof. reflexivity. Qed.

Lemma new_events_app w w' l : trace w' = trace w ++ l -> new_events w w' = l.
Proof.
  unfold new_events. intros ->.
  rewrite skipn_app, skipn_all, Nat.sub_diag. reflexivity.
Qed.

Lemma write_invalid w a v :
  PIOS_HMC5983_Validate (dev w) <> 0 -> PIOS_HMC5983_Write a v w = Ret (-1) w.
Proof.
  intros H. unfold PIOS_HMC5983_Write, bind, get_dev.
  rewrite (guard_invalid _ H). reflexivity.
Qed.

Lemma write_valid w dv a v :
  dev w = Some dv -> PIOS_HMC5983_Validate (Some dv) = 0 ->
  PIOS_HMC5983_Write a v w
    = Ret (transfer_status w (i2c_id dv) (write_txn_list a v))
          (after_transfer w (i2c_id dv) (write_txn_list a v)).
Proof.
  intros Hd Hv. unfold PIOS_HMC5983_Write, bind, get_dev, deref_dev.
  rewrite Hd, (guard_valid _ Hv), Hd, transfer_run. reflexivity.
Qed.

(** *** Configuration *)

Lemma config_invalid w c :
  PIOS_HMC5983_Validate (dev w) <> 0 -> PIOS_HMC5983_Config c w = Ret (-1) w.
Proof.
  intros H. unfold PIOS_HMC5983_Config, bind.
  rewrite (write_invalid _ _ _ H). reflexivity.
Qed.

Lemma config_valid w dv c :
  dev w = Some dv -> PIOS_HMC5983_Validate (Some dv) = 0 ->
  let id := i2c_id dv in
  let tA := write_txn_list PIOS_HMC5983_CONFIG_REG_A
              (Z.lor (Z.lor 0x80 (M_ODR c)) (Meas_Conf c)) in
  let tB := write_txn_list PIOS_HMC5983_CONFIG_REG_B (Gain c) in
  let tM := write_txn_list PIOS_HMC5983_MODE_REG (Mode c) in
  let w1 := after_transfer w id tA in
  let w2 := after_transfer w1 id tB in
  let w3 := after_transfer w2 id tM in
  PIOS_HMC5983_Config c w =
    if negb (transfer_status w id tA =? 0) then Ret (-1) w1
    else if negb (transfer_status w1 id tB =? 0) then Ret (-1) w2
    else if negb (transfer_status w2 id tM =? 0) then Ret (-1) w3
    else Ret 0 w3.
Proof.
  intros Hd Hv. cbv zeta. unfold PIOS_HMC5983_Config, bind.
  rewrite (write_valid w dv _ _ Hd Hv).
  destruct (negb (transfer_status w _ _ =? 0)); [reflexivity |].
  set (w1 := after_transfer w _ _).
  rewrite (write_valid w1 dv _ _ Hd Hv).
  destruct (negb (transfer_status w1 _ _ =? 0)); [reflexivity |].
  set (w2 := after_transfer w1 _ _).
  rewrite (write_valid w2 dv _ _ Hd Hv).
  destruct (negb (transfer_status w2 _ _ =? 0)); reflexivity.
Qed.

Lemma gain_code_bits gn :
  0 <= gn < 8 ->
  is_uint8 (gain_code gn) /\
  Z.shiftr (gain_code gn) 5 = gn /\ Z.land (gain_code gn) 0x1F = 0.
Proof.
  intros H.
  assert (gn = 0 \/ gn = 1 \/ gn = 2 \/ gn = 3 \/
          gn = 4 \/ gn = 5 \/ gn = 6 \/ gn = 7) as Hc by lia.
  unfold is_uint8.
  repeat (destruct Hc as [-> | Hc]; [cbn; lia |]). subst gn. cbn. lia.
Qed.

(** C2.  A configure on a valid device issues its register writes in
    the order Control-Register-A, Control-Register-B, Mode-Register,
    with the values [0x80 | M_ODR | Meas_Conf], the gain code (whose
    gain number sits in bits 7:5, the low five bits being clear) and
    the mode code.  It returns 0 exactly when all three writes succeed,
    and then exactly these three writes were issued; otherwise it
    returns -1 and the write that failed is the last one issued.  On an
    invalid device every write fails before reaching the bus. *)
Theorem C2_configure_register_writes w c :
  (PIOS_HMC5983_Validate (dev w) <> 0 ->
   PIOS_HMC5983_Config c w = Ret (-1) w) /\
  (forall dv,
     dev w = Some dv -> PIOS_HMC5983_Validate (Some dv) = 0 ->
     is_uint8 (M_ODR c) -> is_uint8 (Meas_Conf c) ->
     is_uint8 (Gain c) -> is_uint8 (Mode c) ->
     let id := i2c_id dv in
     let tA := write_txn_list PIOS_HMC5983_CONFIG_REG_A
                 (Z.lor (Z.lor 0x80 (M_ODR c)) (Meas_Conf c)) in
     let tB := write_txn_list PIOS_HMC5983_CONFIG_REG_B (Gain c) in
     let tM := write_txn_list PIOS_HMC5983_MODE_REG (Mode c) in
     let sA := transfer_status w id tA in
     let sB := transfer_status (after_transfer w id tA) id tB in
     let sM :=
       transfer_status (after_transfer (after_transfer w id tA) id tB) id tM in
     exists r w',
       PIOS_HMC5983_Config c w = Ret r w' /\
       (r = 0 <-> sA = 0 /\ sB = 0 /\ sM = 0) /\
       (r <> 0 -> r = -1) /\
       (r = 0 ->
        new_events w w'
          = [EvI2CTransfer id tA; EvI2CTransfer id tB; EvI2CTransfer id tM] /\
        register_writes (new_events w w')
          = [ (PIOS_HMC5983_CONFIG_REG_A,
               Z.lor (Z.lor 0x80 (M_ODR c)) (Meas_Conf c));
              (PIOS_HMC5983_CONFIG_REG_B, Gain c);
              (PIOS_HMC5983_MODE_REG, Mode c) ]) /\
       (sA <> 0 -> new_events w w' = [EvI2CTransfer id tA]) /\
       (sA = 0 -> sB <> 0 ->
        new_events w w' = [EvI2CTransfer id tA; EvI2CTransfer id tB]) /\
       (sA = 0 -> sB = 0 ->
        new_events w w'
          = [EvI2CTransfer id tA; EvI2CTransfer id tB; EvI2CTransfer id tM]) /\
       (forall gn, 0 <= gn < 8 -> Gain c = gain_code gn ->
        Z.shiftr (Gain c) 5 = gn /\ Z.land (Gain c) 0x1F = 0)).
Proof.
  split; [apply config_invalid |].
  intros dv Hd Hv Hodr Hmc Hg Hm. cbv zeta.
  rewrite (config_valid w dv c Hd Hv). cbv zeta.
  set (id := i2c_id dv).
  set (tA := write_txn_list PIOS_HMC5983_CONFIG_REG_A _).
  set (tB := write_txn_list PIOS_HMC5983_CONFIG_REG_B _).
  set (tM := write_txn_list PIOS_HMC5983_MODE_REG _).
  set (w1 := after_transfer w id tA).
  set (w2 := after_transfer w1 id tB).
  set (w3 := after_transfer w2 id tM).
  assert (E1 : new_events w w1 = [EvI2CTransfer id tA])
    by (apply new_events_app; reflexivity).
  assert (E2 : new_events w w2 = [EvI2CTransfer id tA; EvI2CTransfer id tB])
    by (apply new_events_app; cbn; rewrite <- app_assoc; reflexivity).
  assert (E3 : new_events w w3
               = [EvI2CTransfer id tA; EvI2CTransfer id tB; EvI2CTransfer id tM])
    by (apply new_events_app; cbn; rewrite <- !app_assoc; reflexivity).
  assert (Hbits : forall gn, 0 <= gn < 8 -> Gain c = gain_code gn ->
                  Z.shiftr (Gain c) 5 = gn /\ Z.land (Gain c) 0x1F = 0).
  { intros gn Hgn ->. apply gain_code_bits. exact Hgn. }
  assert (Hregs : register_writes
                    [EvI2CTransfer id tA; EvI2CTransfer id tB; EvI2CTransfer id tM]
                  = [ (PIOS_HMC5983_CONFIG_REG_A,
                       Z.lor (Z.lor 0x80 (M_ODR c)) (Meas_Conf c));
                      (PIOS_HMC5983_CONFIG_REG_B, Gain c);
                      (PIOS_HMC5983_MODE_REG, Mode c) ]).
  { subst tA tB tM. unfold write_txn_list. cbn [register_writes rw buf].
    rewrite (to_uint8_id (Gain c)), (to_uint8_id (Mode c)) by assumption.
    rewrite (to_uint8_id (Z.lor _ _)).
    - reflexivity.
    - apply lor_uint8; [apply lor_uint8 |]; try assumption.
      unfold is_uint8; lia. }
  destruct (Z.eqb_spec (transfer_status w id tA) 0) as [HA | HA]; cbn [negb];
    [| exists (-1), w1; settle_config Hbits E3 Hregs].
  destruct (Z.eqb_spec (transfer_status w1 id tB) 0) as [HB | HB]; cbn [negb];
    [| exists (-1), w2; settle_config Hbits E3 Hregs].
  destruct (Z.eqb_spec (transfer_status w2 id tM) 0) as [HM | HM]; cbn [negb];
    [| exists (-1), w3; settle_config Hbits E3 Hregs].
  exists 0, w3. settle_config Hbits E3 Hregs.
Qed.

(** *** Reading a sample *)

Lemma automatic_uint8 (e : Env) n : Forall is_uint8 (automatic e n).
Proof.
  unfold automatic. apply Forall_forall. intros b Hb.
  apply in_map_iff in Hb. destruct Hb as (i & <- & _). apply to_uint8_range.
Qed.

Lemma store_bytes_uint8 n : forall rx old,
  Forall is_uint8 old -> Forall is_uint8 (store_bytes n rx old).
Proof.
  induction n as [| n IH]; intros rx old Hold; [exact Hold |].
  destruct rx as [| r rx]; [exact Hold |].
  destruct old as [| o old]; [exact Hold |].
  cbn. inversion Hold; subst. constructor; [apply to_uint8_range | auto].
Qed.

Lemma nth_uint8 l i : Forall is_uint8 l -> is_uint8 (nth i l 0).
Proof.
  intros H. destruct (Nat.lt_ge_cases i (List.length l)) as [Hlt | Hge].
  - rewrite Forall_forall in H. apply H. apply nth_In. exact Hlt.
  - rewrite nth_overflow by exact Hge. unfold is_uint8. lia.
Qed.

Lemma axis_mG_bytes S msb lsb :
  is_uint8 msb -> is_uint8 lsb -> 0 < S ->
  axis_mG S msb lsb = Ok (to_int16 (Z.quot (raw_axis msb lsb * 1000) S)).
Proof.
  intros Hm Hl HS. unfold axis_mG.
  apply mag_convert_int16; [apply raw_axis_int16; assumption | exact HS].
Qed.

Lemma convert_burst_ok S o buffer :
  Forall is_uint8 buffer -> 0 < S ->
  exists s, convert_burst S o buffer = Ok s.
Proof.
  intros Hb HS. unfold convert_burst.
  rewrite !axis_mG_bytes by (try apply nth_uint8; assumption).
  eexists. reflexivity.
Qed.

Lemma convert_burst_zero o buffer :
  Forall is_uint8 buffer ->
  convert_burst 0 o buffer = Undefined DivisionByZero.
Proof.
  intros Hb. unfold convert_burst, axis_mG.
  rewrite mag_convert_zero; [reflexivity |].
  apply raw_axis_int16; apply nth_uint8; exact Hb.
Qed.

Lemma burst_buffer_uint8 w dv t : Forall is_uint8 (burst_buffer w dv t).
Proof. apply store_bytes_uint8, automatic_uint8. Qed.

Lemma readmag_invalid w md t :
  PIOS_HMC5983_Validate (dev w) <> 0 ->
  PIOS_HMC5983_ReadMag md t w = Ret (-1, md, t) w.
Proof.
  intros H. unfold PIOS_HMC5983_ReadMag, bind, get_dev.
  rewrite (guard_invalid _ H). reflexivity.
Qed.

Lemma readmag_run w dv md t :
  dev w = Some dv -> PIOS_HMC5983_Validate (Some dv) = 0 ->
  PIOS_HMC5983_ReadMag md t w =
    let id := i2c_id dv in
    let l := burst_txn_list w dv t in
    if negb (transfer_status w id l =? 0)
    then Ret (-1, md, t) (after_transfer w id l)
    else
      match convert_burst (sensitivity_of_gain (Gain (cfg dv)))
              (orientation dv) (burst_buffer w dv t) with
      | Ok s =>
          Ret (0, s,
               match t with
               | None => None
               | Some _ =>
                   Some (temperature_of (nth 6 (burst_buffer w dv t) 0)
                                        (nth 7 (burst_buffer w dv t) 0))
               end)
              (after_transfer w id l)
      | Undefined f => Fault f
      end.
Proof.
  intros Hd Hv. cbv zeta.
  unfold PIOS_HMC5983_ReadMag, bind, get_dev, deref_dev, automatic_bytes, peek.
  rewrite Hd, (guard_valid _ Hv), Hd, transfer_run.
  fold (burst_txn_list w dv t). cbn [fst snd].
  destruct (negb (transfer_status w (i2c_id dv) (burst_txn_list w dv t) =? 0));
    [reflexivity |].
  unfold PIOS_HMC5983_Config_GetSensitivity, bind, deref_dev, ret.
  rewrite after_transfer_dev, Hd.
  fold (burst_buffer w dv t).
  rewrite after_transfer_dev, Hd. unfold lift.
  destruct (convert_burst _ _ _); reflexivity.
Qed.

Lemma get_sensitivity_run w dv :
  dev w = Some dv ->
  PIOS_HMC5983_Config_GetSensitivity w
    = Ret (sensitivity_of_gain (Gain (cfg dv))) w.
Proof.
  intros Hd. unfold PIOS_HMC5983_Config_GetSensitivity, bind, deref_dev.
  rewrite Hd. reflexivity.
Qed.

(** C10.  When the Gain field is one of the eight enumerated codes,
    [PIOS_HMC5983_Config_GetSensitivity] returns the sensitivity of its
    table entry, which is not zero, and a read whose transfer succeeded
    completes: none of the three divisions has a zero divisor.  For any
    other Gain value it returns 0, and such a read divides by zero, no
    check standing between the lookup and the first division. *)
Theorem C10_sensitivity_divisor w dv md t :
  dev w = Some dv -> PIOS_HMC5983_Validate (Some dv) = 0 ->
  transfer_status w (i2c_id dv) (burst_txn_list w dv t) = 0 ->
  let g := Gain (cfg dv) in
  PIOS_HMC5983_Config_GetSensitivity w = Ret (sensitivity_of_gain g) w /\
  (gain_enumerated g ->
   In (g, sensitivity_of_gain g) gain_table /\
   sensitivity_of_gain g <> 0 /\
   (forall raw, is_int16 raw ->
      mag_convert raw (sensitivity_of_gain g)
        = Ok (to_int16 (Z.quot (raw * 1000) (sensitivity_of_gain g)))) /\
   exists s t',
     PIOS_HMC5983_ReadMag md t w
       = Ret (0, s, t') (after_transfer w (i2c_id dv) (burst_txn_list w dv t))) /\
  (~ gain_enumerated g ->
   sensitivity_of_gain g = 0 /\
   (forall raw, is_int16 raw ->
      mag_convert raw (sensitivity_of_gain g) = Undefined DivisionByZero) /\
   PIOS_HMC5983_ReadMag md t w = Fault DivisionByZero).
Proof.
  intros Hd Hv Hst. cbv zeta.
  split; [apply get_sensitivity_run; exact Hd |].
  rewrite (readmag_run w dv md t Hd Hv). cbv zeta. rewrite Hst. cbn [Z.eqb negb].
  split.
  - intros Hg. pose proof (gain_enumerated_table _ Hg) as Hin.
    pose proof (gain_table_positive _ _ Hin) as Hpos.
    split; [exact Hin |]. split; [lia |].
    split; [intros raw Hr; apply mag_convert_int16; [exact Hr | lia] |].
    destruct (convert_burst_ok (sensitivity_of_gain (Gain (cfg dv)))
                (orientation dv) (burst_buffer w dv t)
                (burst_buffer_uint8 w dv t) ltac:(lia)) as [s Hs].
    rewrite Hs. eexists. eexists. reflexivity.
  - intros Hg. pose proof (sensitivity_of_gain_other _ Hg) as H0.
    rewrite H0. split; [reflexivity |].
    split; [intros raw Hr; apply mag_convert_zero; exact Hr |].
    rewrite convert_burst_zero by apply burst_buffer_uint8. reflexivity.
Qed.

(** *** Identification *)

Lemma read_valid w dv a buffer n :
  dev w = Some dv -> PIOS_HMC5983_Validate (Some dv) = 0 ->
  PIOS_HMC5983_Read a buffer n w
    = Ret (transfer_status w (i2c_id dv) (read_txn_list a buffer n),
           store_bytes (Z.to_nat (to_uint8 n))
             (transfer_data w (i2c_id dv) (read_txn_list a buffer n)) buffer)
          (after_transfer w (i2c_id dv) (read_txn_list a buffer n)).
Proof.
  intros Hd Hv. unfold PIOS_HMC5983_Read, bind, get_dev, deref_dev.
  rewrite Hd, (guard_valid _ Hv), Hd, transfer_run. reflexivity.
Qed.

(** The verdict of the comparison in [PIOS_HMC5983_Test] on a 4-byte
    array, after [PIOS_HMC5983_ReadID] has put the terminator in. *)
Lemma id_verdict (i0 i1 i2 i3 : Z) :
  let id := set_nth 3 0 [i0; i1; i2; i3] in
  let r := if negb (nth 0 id 0 =? char_code "H"%char)
              || negb (nth 1 id 0 =? char_code "4"%char)
              || negb (nth 2 id 0 =? char_code "3"%char)
           then -1 else 0 in
  (r = 0 <->
   i0 = char_code "H"%char /\ i1 = char_code "4"%char /\
   i2 = char_code "3"%char) /\
  (r <> 0 -> r = -1).
Proof.
  cbv zeta. cbn [set_nth nth].
  destruct (Z.eqb_spec i0 (char_code "H")) as [E0 | E0]; cbn [negb orb];
    [| split; [split; [discriminate | intros (? & _); contradiction] | auto]].
  destruct (Z.eqb_spec i1 (char_code "4")) as [E1 | E1]; cbn [negb orb];
    [| split; [split; [discriminate | intros (_ & ? & _); contradiction] | auto]].
  destruct (Z.eqb_spec i2 (char_code "3")) as [E2 | E2]; cbn [negb orb];
    [| split; [split; [discriminate | intros (_ & _ & ?); contradiction] | auto]].
  split; [split; auto | intros H; contradiction].
Qed.

(** C7 (a defect of the code).  On a valid device [PIOS_HMC5983_Test]
    issues the 3-byte read from the ID register (address 0x0A written,
    3 bytes read), drops its status, and compares what its automatic
    array [id] holds after the call: it returns 0 exactly when the
    first three bytes of [id] are 'H', '4', '3' and -1 otherwise,
    whatever the status of the transfer.  When the transfer delivered
    three bytes these are the bytes compared, so 'H','4','3' gives 0
    and 'H','4','2' gives -1.  When it delivered none, as a failed
    transfer does, the bytes compared are those [id] happened to hold
    before the call: the test then returns 0 if they are 'H','4','3',
    although no identification byte was read. *)
Theorem C7_self_test_identification w dv :
  dev w = Some dv -> PIOS_HMC5983_Validate (Some dv) = 0 ->
  let l := id_txn_list w in
  let rx := transfer_data w (i2c_id dv) l in
  let id0 := automatic (env w) 4 in
  let id := store_bytes 3 rx id0 in
  exists r,
    PIOS_HMC5983_Test w = Ret r (after_transfer w (i2c_id dv) l) /\
    (r = 0 <->
     nth 0 id 0 = char_code "H"%char /\ nth 1 id 0 = char_code "4"%char /\
     nth 2 id 0 = char_code "3"%char) /\
    (r <> 0 -> r = -1) /\
    map (fun t => (rw t, len t, match rw t with
                               | PIOS_I2C_TXN_WRITE => buf t
                               | PIOS_I2C_TXN_READ => []
                               end)) l
      = [ (PIOS_I2C_TXN_WRITE, 1, [0x0A]); (PIOS_I2C_TXN_READ, 3, []) ] /\
    (forall b0 b1 b2 rest,
       rx = b0 :: b1 :: b2 :: rest ->
       is_uint8 b0 -> is_uint8 b1 -> is_uint8 b2 ->
       (r = 0 <->
        b0 = char_code "H"%char /\ b1 = char_code "4"%char /\
        b2 = char_code "3"%char) /\
       ([b0; b1; b2] = map char_code ["H"; "4"; "3"]%char -> r = 0) /\
       ([b0; b1; b2] = map char_code ["H"; "4"; "2"]%char -> r = -1)) /\
    (rx = [] ->
     (r = 0 <->
      nth 0 id0 0 = char_code "H"%char /\ nth 1 id0 0 = char_code "4"%char /\
      nth 2 id0 0 = char_code "3"%char)) /\
    (transfer_status w (i2c_id dv) l <> 0 -> rx = [] ->
     firstn 3 id0 = map char_code ["H"; "4"; "3"]%char -> r = 0).
Proof.
  intros Hd Hv. cbv zeta.
  unfold PIOS_HMC5983_Test, PIOS_HMC5983_ReadID, bind, automatic_bytes, peek.
  rewrite (read_valid w dv _ _ _ Hd Hv). fold (id_txn_list w).
  unfold ret. cbn [fst snd].
  change (Z.to_nat (to_uint8 3)) with 3%nat.
  set (rx := transfer_data w (i2c_id dv) (id_txn_list w)).
  unfold automatic. cbn [seq map].
  set (a0 := to_uint8 (indeterminate_byte (env w) 0)).
  set (a1 := to_uint8 (indeterminate_byte (env w) 1)).
  set (a2 := to_uint8 (indeterminate_byte (env w) 2)).
  set (a3 := to_uint8 (indeterminate_byte (env w) 3)).
  assert (Hshape :
            map (fun t => (rw t, len t, match rw t with
                                       | PIOS_I2C_TXN_WRITE => buf t
                                       | PIOS_I2C_TXN_READ => []
                                       end)) (id_txn_list w)
            = [ (PIOS_I2C_TXN_WRITE, 1, [0x0A]); (PIOS_I2C_TXN_READ, 3, []) ])
    by reflexivity.
  assert (Hid : exists i0 i1 i2 i3,
            store_bytes 3 rx [a0; a1; a2; a3] = [i0; i1; i2; i3] /\
            (rx = [] -> i0 = a0 /\ i1 = a1 /\ i2 = a2) /\
            (forall b0 b1 b2 rest, rx = b0 :: b1 :: b2 :: rest ->
               i0 = to_uint8 b0 /\ i1 = to_uint8 b1 /\ i2 = to_uint8 b2)).
  { destruct rx as [| b0 [| b1 [| b2 rest]]]; cbn [store_bytes];
      do 4 eexists; (split; [reflexivity |]);
      (split; [intros E; try discriminate E; auto |]);
      intros c0 c1 c2 crest E; try discriminate E.
    inversion E. auto. }
  destruct Hid as (i0 & i1 & i2 & i3 & -> & Hnone & Hthree).
  destruct (id_verdict i0 i1 i2 i3) as (Hiff & Hneg). cbv zeta in Hiff, Hneg.
  cbn [nth] in Hiff |- *.
  match type of Hneg with
  | (if ?c then _ else _) <> _ -> _ =>
      exists (if c then -1 else 0); split; [destruct c; reflexivity |]
  end.
  split; [exact Hiff |]. split; [exact Hneg |]. split; [exact Hshape |].
  split; [| split].
  - intros b0 b1 b2 rest E H0 H1 H2.
    destruct (Hthree _ _ _ _ E) as (E0 & E1 & E2).
    rewrite (to_uint8_id b0 H0) in E0. rewrite (to_uint8_id b1 H1) in E1.
    rewrite (to_uint8_id b2 H2) in E2. subst i0 i1 i2.
    split; [exact Hiff |]. split.
    + intros Eb. apply Hiff. cbn [map] in Eb. inversion Eb. auto.
    + intros Eb. apply Hneg. intros Hr. apply Hiff in Hr.
      destruct Hr as (_ & _ & Hr3). cbn [map] in Eb.
      assert (Eb2 : b2 = char_code "2"%char) by congruence.
      rewrite Eb2 in Hr3. vm_compute in Hr3. discriminate Hr3.
  - intros E. destruct (Hnone E) as (-> & -> & ->). exact Hiff.
  - intros _ E Hstale. destruct (Hnone E) as (-> & -> & ->).
    apply Hiff. cbn [firstn map] in Hstale. inversion Hstale. auto.
Qed.

(** Without a valid device nothing is read, and the answer depends on
    what the automatic array [id] happened to hold. *)
Lemma test_without_read w :
  PIOS_HMC5983_Validate (dev w) <> 0 ->
  PIOS_HMC5983_Test w =
    Ret (let id := set_nth 3 0 (automatic (env w) 4) in
         if negb (nth 0 id 0 =? char_code "H"%char)
            || negb (nth 1 id 0 =? char_code "4"%char)
            || negb (nth 2 id 0 =? char_code "3"%char)
         then -1 else 0) w.
Proof.
  intros H.
  unfold PIOS_HMC5983_Test, PIOS_HMC5983_ReadID, PIOS_HMC5983_Read, bind,
    automatic_bytes, peek, get_dev.
  rewrite (guard_invalid _ H). unfold ret. cbn [fst snd]. cbv zeta.
  destruct (negb _ || negb _ || negb _); reflexivity.
Qed.

(** *** Interrupt handler *)

(** C9.  When the global device record is null or its magic is not the
    expected value (more generally whenever validation fails),
    [PIOS_HMC5983_IRQHandler] returns false and calls nothing.  For a
    valid device it gives the data-ready semaphore once, through the
    from-ISR give started with [woken = false], and returns the flag as
    that call left it. *)
Theorem C9_irq_handler w :
  ((dev w = None \/
    exists dv, dev w = Some dv /\ magic dv <> PIOS_HMC5983_DEV_MAGIC) ->
   PIOS_HMC5983_IRQHandler w = Ret false w) /\
  (PIOS_HMC5983_Validate (dev w) <> 0 ->
   PIOS_HMC5983_IRQHandler w = Ret false w) /\
  (forall dv,
     dev w = Some dv -> PIOS_HMC5983_Validate (Some dv) = 0 ->
     let give := semaphore_give_fromISR (env w) (data_ready_sema dv) false in
     exists w',
       PIOS_HMC5983_IRQHandler w = Ret (fst give) w' /\
       new_events w w' = [EvSemaphoreGiveFromISR (data_ready_sema dv)] /\
       semaphore_gives (new_events w w') = [data_ready_sema dv] /\
       env w' = snd give /\ dev w' = dev w /\ queue_items w' = queue_items w).
Proof.
  assert (Hinv : PIOS_HMC5983_Validate (dev w) <> 0 ->
                 PIOS_HMC5983_IRQHandler w = Ret false w).
  { intros H. unfold PIOS_HMC5983_IRQHandler, bind, get_dev.
    rewrite (guard_invalid _ H). reflexivity. }
  split; [| split; [exact Hinv |]].
  - intros H. apply Hinv. apply validate_nonzero_cases.
    destruct H as [H | (dv & Hd & Hm)]; [left; exact H |].
    right. exists dv. auto.
  - intros dv Hd Hv. cbv zeta.
    unfold PIOS_HMC5983_IRQHandler, bind, get_dev, deref_dev.
    rewrite Hd, (guard_valid _ Hv), Hd.
    unfold PIOS_Semaphore_Give_FromISR, call, ret.
    destruct (semaphore_give_fromISR (env w) (data_ready_sema dv) false)
      as [woken e'] eqn:Hgive.
    eexists. split; [reflexivity |].
    assert (E : new_events w
                  (Build_world (dev w) e' (queue_items w)
                     (trace w ++ [EvSemaphoreGiveFromISR (data_ready_sema dv)]))
                = [EvSemaphoreGiveFromISR (data_ready_sema dv)])
      by (apply new_events_app; reflexivity).
    rewrite E. cbn. auto.
Qed.

(** *** The acquisition task *)

Lemma queue_send_run q item w :
  exists b, PIOS_Queue_Send q item 0 w = Ret b (after_send q item w).
Proof.
  unfold PIOS_Queue_Send, after_send.
  destruct (List.length (queue_items w) <? PIOS_HMC5983_MAX_DOWNSAMPLE)%nat;
    eexists; reflexivity.
Qed.

Lemma read_and_publish_run w dv :
  dev w = Some dv -> PIOS_HMC5983_Validate (Some dv) = 0 ->
  read_and_publish w =
    let id := i2c_id dv in
    let l := burst_txn_list w dv None in
    if negb (transfer_status w id l =? 0)
    then Ret tt (after_transfer w id l)
    else
      match convert_burst (sensitivity_of_gain (Gain (cfg dv)))
              (orientation dv) (burst_buffer w dv None) with
      | Ok s => Ret tt (after_send (queue dv) s (after_transfer w id l))
      | Undefined f => Fault f
      end.
Proof.
  intros Hd Hv. cbv zeta. unfold read_and_publish, bind, peek.
  rewrite (readmag_run w dv _ None Hd Hv). cbv zeta.
  destruct (negb (transfer_status w (i2c_id dv) (burst_txn_list w dv None) =? 0));
    [reflexivity |].
  destruct (convert_burst _ _ _) as [s | f]; [| reflexivity].
  cbn [fst snd Z.eqb]. unfold deref_dev.
  rewrite after_transfer_dev, Hd.
  destruct (queue_send_run (queue dv) s
              (after_transfer w (i2c_id dv) (burst_txn_list w dv None)))
    as [b ->].
  reflexivity.
Qed.

Lemma task_step_sampling w dv sample_delay now :
  dev w = Some dv ->
  task_step (SAMPLING sample_delay now) w =
    match reading_point sample_delay now w with
    | Some (now', wr) =>
        match read_and_publish wr with
        | Ret _ w' => Ret (SAMPLING sample_delay now') w'
        | Fault f => Fault f
        end
    | None =>
        Ret (SAMPLING sample_delay now)
          (after_call (fun e => (tt, thread_sleep e 100)) (EvThreadSleep 100)
             (after_call
                (fun e => semaphore_take e (data_ready_sema dv)
                            PIOS_SEMAPHORE_TIMEOUT_MAX)
                (EvSemaphoreTake (data_ready_sema dv) PIOS_SEMAPHORE_TIMEOUT_MAX)
                w))
    end.
Proof.
  intros Hd.
  unfold task_step, task_iteration, reading_point, bind, deref_dev.
  rewrite Hd.
  destruct (is_some (data_ready_sema dv)
            && (Mode (cfg dv) =? PIOS_HMC5983_MODE_CONTINUOUS)).
  - unfold PIOS_Semaphore_Take, PIOS_Thread_Sleep, call, after_call, ret.
    destruct (semaphore_take (env w) (data_ready_sema dv)
                PIOS_SEMAPHORE_TIMEOUT_MAX) as [[|] e']; cbn [fst snd negb].
    + destruct (read_and_publish _); reflexivity.
    + reflexivity.
  - unfold PIOS_Thread_Sleep_Until, call, after_call, ret.
    destruct (thread_sleep_until (env w) now sample_delay) as [now' e'].
    cbn [fst snd]. destruct (read_and_publish _); reflexivity.
Qed.

Lemma reading_point_dev w sample_delay now now' wr :
  reading_point sample_delay now w = Some (now', wr) -> dev wr = dev w.
Proof.
  unfold reading_point. destruct (dev w) as [dv |] eqn:Hd; [| discriminate].
  destruct (is_some (data_ready_sema dv)
            && (Mode (cfg dv) =? PIOS_HMC5983_MODE_CONTINUOUS)).
  - destruct (fst (semaphore_take _ _ _)); [| discriminate].
    intros H. inversion H. exact Hd.
  - intros H. inversion H. exact Hd.
Qed.

Lemma read_and_publish_total w dv :
  dev w = Some dv -> PIOS_HMC5983_Validate (Some dv) = 0 ->
  gain_enumerated (Gain (cfg dv)) ->
  exists w', read_and_publish w = Ret tt w' /\ dev w' = dev w.
Proof.
  intros Hd Hv Hg. rewrite (read_and_publish_run w dv Hd Hv). cbv zeta.
  destruct (negb _); [eexists; split; reflexivity |].
  pose proof (gain_table_positive _ _ (gain_enumerated_table _ Hg)) as Hpos.
  destruct (convert_burst_ok (sensitivity_of_gain (Gain (cfg dv)))
              (orientation dv) (burst_buffer w dv None)
              (burst_buffer_uint8 w dv None) ltac:(lia)) as [s ->].
  eexists; split; reflexivity.
Qed.

Lemma task_step_sampling_total w dv sample_delay now :
  dev w = Some dv -> PIOS_HMC5983_Validate (Some dv) = 0 ->
  gain_enumerated (Gain (cfg dv)) ->
  exists now' w',
    task_step (SAMPLING sample_delay now) w = Ret (SAMPLING sample_delay now') w'
    /\ dev w' = dev w.
Proof.
  intros Hd Hv Hg. rewrite (task_step_sampling w dv _ _ Hd).
  destruct (reading_point sample_delay now w) as [[now' wr] |] eqn:Hrp.
  - pose proof (reading_point_dev _ _ _ _ _ Hrp) as Hdr.
    destruct (read_and_publish_total wr dv) as (w' & -> & Hd');
      [congruence | exact Hv | exact Hg |].
    exists now', w'. split; [reflexivity | congruence].
  - eexists. eexists. split; reflexivity.
Qed.

Lemma task_sampling_forever n : forall w dv sample_delay now,
  dev w = Some dv -> PIOS_HMC5983_Validate (Some dv) = 0 ->
  gain_enumerated (Gain (cfg dv)) ->
  exists now' w',
    PIOS_HMC5983_Task n (SAMPLING sample_delay now) w
      = Ret (SAMPLING sample_delay now') w'
    /\ dev w' = dev w.
Proof.
  induction n as [| n IH]; intros w dv sd now Hd Hv Hg.
  - exists now, w. split; reflexivity.
  - destruct (task_step_sampling_total w dv sd now Hd Hv Hg)
      as (now1 & w1 & Hstep & Hd1).
    destruct (IH w1 dv sd now1) as (now' & w' & Hrun & Hd');
      [congruence | exact Hv | exact Hg |].
    exists now', w'. split; [| congruence].
    cbn [PIOS_HMC5983_Task]. unfold bind. rewrite Hstep. exact Hrun.
Qed.

(** C3 (as amended).  For every output data rate of the table except
    220 Hz, that is for 0.75, 1.5, 3, 7.5, 15, 30 and 75 Hz, the sample
    delay the task computes when it enters its sampling loop is
    [ceil(1000 / odr_hz)] milliseconds, 67 ms for 15 Hz.  Every other
    code, the one of 220 Hz among them, takes the [default] branch and
    gets the delay of 75 Hz, 14 ms. *)
Theorem C3_sample_delay w dv hz :
  dev w = Some dv -> PIOS_HMC5983_Validate (Some dv) = 0 ->
  In (M_ODR (cfg dv), hz) odr_table ->
  M_ODR (cfg dv) <> PIOS_HMC5983_ODR_220 ->
  sample_delay_of_odr (M_ODR (cfg dv)) = Ok (ceil_period_ms hz) /\
  task_step WAIT_INIT w
    = Ret (SAMPLING (ceil_period_ms hz) (thread_systime (env w))) w /\
  sample_delay_of_odr PIOS_HMC5983_ODR_15 = Ok 67 /\
  ceil_period_ms (15 # 1) = 67 /\
  (forall odr,
     ~ In odr [ PIOS_HMC5983_ODR_0_75; PIOS_HMC5983_ODR_1_5;
                PIOS_HMC5983_ODR_3; PIOS_HMC5983_ODR_7_5;
                PIOS_HMC5983_ODR_15; PIOS_HMC5983_ODR_30 ] ->
     sample_delay_of_odr odr = Ok 14).
Proof.
  intros Hd Hv Hin Hne.
  pose proof (sample_delay_table _ _ Hin Hne) as Hsd.
  split; [exact Hsd |]. split.
  - unfold task_step, bind, get_dev, deref_dev.
    rewrite Hd, (guard_valid _ Hv), Hd, Hsd. reflexivity.
  - split; [vm_compute; reflexivity |]. split; [vm_compute; reflexivity |].
    exact sample_delay_default.
Qed.

Lemma queue_sends_wait e rest :
  is_wait e -> queue_sends (e :: rest) = queue_sends rest.
Proof. destruct e; cbn; intros H; (reflexivity || contradiction). Qed.

(** The wait that precedes the read is one call, and it leaves the
    queue alone. *)
Lemma reading_point_wait w sample_delay now now' wr :
  reading_point sample_delay now w = Some (now', wr) ->
  exists wait,
    is_wait wait /\ trace wr = trace w ++ [wait] /\
    queue_items wr = queue_items w.
Proof.
  unfold reading_point. destruct (dev w) as [dv |]; [| discriminate].
  destruct (is_some (data_ready_sema dv)
            && (Mode (cfg dv) =? PIOS_HMC5983_MODE_CONTINUOUS)).
  - destruct (fst (semaphore_take _ _ _)); [| discriminate].
    intros H. inversion H. eexists. split; [| split; reflexivity]. exact I.
  - intros H. inversion H. eexists. split; [| split; reflexivity]. exact I.
Qed.

(** C8 (the acquisition loop absorbs bus failures).  In an iteration of
    the sampling loop that reaches the read (it slept until the next
    period, or obtained the semaphore): when the combined transfer
    fails, [PIOS_HMC5983_ReadMag] returns -1 and leaves the sample
    record as it was, the iteration calls no send and leaves the queue
    as it found it, and it ends in the sampling state; when the
    transfer succeeds (the gain being one of the table), the iteration
    sends the converted sample to the queue, once, and ends in the
    sampling state too.  Whatever the bus answers, any number of
    iterations leaves the task in its sampling loop. *)
Theorem C8_bus_failure_absorbed w dv :
  dev w = Some dv -> PIOS_HMC5983_Validate (Some dv) = 0 ->
  let id := i2c_id dv in
  let l := burst_txn_list w dv None in
  let w1 := after_transfer w id l in
  (transfer_status w id l <> 0 ->
   (forall md, PIOS_HMC5983_ReadMag md None w = Ret (-1, md, None) w1) /\
   read_and_publish w = Ret tt w1 /\
   queue_items w1 = queue_items w /\
   queue_sends (new_events w w1) = []) /\
  (transfer_status w id l = 0 -> gain_enumerated (Gain (cfg dv)) ->
   exists s,
     convert_burst (sensitivity_of_gain (Gain (cfg dv))) (orientation dv)
       (burst_buffer w dv None) = Ok s /\
     (forall md, PIOS_HMC5983_ReadMag md None w = Ret (0, s, None) w1) /\
     read_and_publish w = Ret tt (after_send (queue dv) s w1) /\
     queue_sends (new_events w (after_send (queue dv) s w1)) = [s] /\
     (queue_items w = [] ->
      queue_items (after_send (queue dv) s w1) = [s])) /\
  (forall sample_delay now now' wr,
     reading_point sample_delay now w = Some (now', wr) ->
     transfer_status wr id (burst_txn_list wr dv None) <> 0 ->
     task_step (SAMPLING sample_delay now) w
       = Ret (SAMPLING sample_delay now')
             (after_transfer wr id (burst_txn_list wr dv None)) /\
     queue_sends
       (new_events w (after_transfer wr id (burst_txn_list wr dv None))) = [] /\
     queue_items (after_transfer wr id (burst_txn_list wr dv None))
       = queue_items w) /\
  (forall sample_delay now now' wr,
     reading_point sample_delay now w = Some (now', wr) ->
     transfer_status wr id (burst_txn_list wr dv None) = 0 ->
     gain_enumerated (Gain (cfg dv)) ->
     exists s w',
       convert_burst (sensitivity_of_gain (Gain (cfg dv))) (orientation dv)
         (burst_buffer wr dv None) = Ok s /\
       w' = after_send (queue dv) s
              (after_transfer wr id (burst_txn_list wr dv None)) /\
       task_step (SAMPLING sample_delay now) w
         = Ret (SAMPLING sample_delay now') w' /\
       queue_sends (new_events w w') = [s] /\
       (queue_items w = [] -> queue_items w' = [s])) /\
  (gain_enumerated (Gain (cfg dv)) ->
   forall n sample_delay now,
   exists now' w',
     PIOS_HMC5983_Task n (SAMPLING sample_delay now) w
       = Ret (SAMPLING sample_delay now') w'
     /\ dev w' = dev w).
Proof.
  intros Hd Hv. cbv zeta.
  split; [| split; [| split; [| split]]].
  - intros Hf.
    assert (Hg : negb (transfer_status w (i2c_id dv) (burst_txn_list w dv None) =? 0)
                 = true).
    { destruct (Z.eqb_spec (transfer_status w (i2c_id dv)
                              (burst_txn_list w dv None)) 0);
        [contradiction | reflexivity]. }
    split; [| split; [| split]].
    + intros md. rewrite (readmag_run w dv md None Hd Hv). cbv zeta.
      rewrite Hg. reflexivity.
    + rewrite (read_and_publish_run w dv Hd Hv). cbv zeta.
      rewrite Hg. reflexivity.
    + reflexivity.
    + rewrite (new_events_app w _ [EvI2CTransfer (i2c_id dv)
                                     (burst_txn_list w dv None)]);
        reflexivity.
  - intros Hok Hg.
    pose proof (gain_table_positive _ _ (gain_enumerated_table _ Hg)) as Hpos.
    destruct (convert_burst_ok (sensitivity_of_gain (Gain (cfg dv)))
                (orientation dv) (burst_buffer w dv None)
                (burst_buffer_uint8 w dv None) ltac:(lia)) as [s Hs].
    exists s. split; [exact Hs |].
    split; [| split; [| split]].
    + intros md. rewrite (readmag_run w dv md None Hd Hv). cbv zeta.
      rewrite Hok, Hs. reflexivity.
    + rewrite (read_and_publish_run w dv Hd Hv). cbv zeta.
      rewrite Hok, Hs. reflexivity.
    + rewrite (new_events_app w _
                 [EvI2CTransfer (i2c_id dv) (burst_txn_list w dv None);
                  EvQueueSend (queue dv) s 0]).
      * reflexivity.
      * cbn. rewrite <- app_assoc. reflexivity.
    + intros Hq. cbn. rewrite Hq. reflexivity.
  - intros sd now now' wr Hrp Hf.
    pose proof (reading_point_dev _ _ _ _ _ Hrp) as Hdr.
    destruct (reading_point_wait _ _ _ _ _ Hrp) as (wait & Hwait & Htr & Hqi).
    split; [| split].
    + rewrite (task_step_sampling w dv sd now Hd), Hrp.
      rewrite (read_and_publish_run wr dv) by (congruence || exact Hv).
      cbv zeta.
      destruct (Z.eqb_spec (transfer_status wr (i2c_id dv)
                              (burst_txn_list wr dv None)) 0);
        [contradiction | reflexivity].
    + rewrite (new_events_app w _
                 [wait; EvI2CTransfer (i2c_id dv) (burst_txn_list wr dv None)]).
      * rewrite (queue_sends_wait _ _ Hwait). reflexivity.
      * cbn [after_transfer trace]. rewrite Htr, <- app_assoc. reflexivity.
    + cbn [after_transfer queue_items]. exact Hqi.
  - intros sd now now' wr Hrp Hok Hg.
    pose proof (reading_point_dev _ _ _ _ _ Hrp) as Hdr.
    destruct (reading_point_wait _ _ _ _ _ Hrp) as (wait & Hwait & Htr & Hqi).
    pose proof (gain_table_positive _ _ (gain_enumerated_table _ Hg)) as Hpos.
    destruct (convert_burst_ok (sensitivity_of_gain (Gain (cfg dv)))
                (orientation dv) (burst_buffer wr dv None)
                (burst_buffer_uint8 wr dv None) ltac:(lia)) as [s Hs].
    exists s. eexists. split; [exact Hs |]. split; [reflexivity |].
    split; [| split].
    + rewrite (task_step_sampling w dv sd now Hd), Hrp.
      rewrite (read_and_publish_run wr dv) by (congruence || exact Hv).
      cbv zeta. rewrite Hok, Hs. reflexivity.
    + rewrite (new_events_app w _
                 [wait; EvI2CTransfer (i2c_id dv) (burst_txn_list wr dv None);
                  EvQueueSend (queue dv) s 0]).
      * rewrite (queue_sends_wait _ _ Hwait). reflexivity.
      * cbn [after_send after_transfer trace].
        rewrite Htr, <- !app_assoc. reflexivity.
    + intros Hq. cbn [after_send after_transfer queue_items].
      rewrite Hqi, Hq. reflexivity.
  - intros Hg n sd now. apply (task_sampling_forever n w dv); assumption.
Qed.

End DriverProperties.

(** ** Concrete runs on the scripted environment *)

(** The identification scenario, the conversion scenario (gain 1.3 Ga,
    bytes 01 00 FF 00 00 80, TOP_0) and the period scenario. *)
Example scenario_id_check :
  PIOS_HMC5983_Test (mock_world (Some (mock_dev default_cfg)) [(0, [72; 52; 51])])
    = Ret 0 (after_transfer (mock_world (Some (mock_dev default_cfg))
                               [(0, [72; 52; 51])]) 1
               (id_txn_list (mock_world (Some (mock_dev default_cfg))
                               [(0, [72; 52; 51])]))).
Proof. reflexivity. Qed.

Example scenario_conversion :
  convert_burst (sensitivity_of_gain PIOS_HMC5983_GAIN_1_3)
    PIOS_HMC5983_TOP_0DEG [0x01; 0x00; 0xFF; 0x00; 0x00; 0x80]
    = Ok {| x := -234; y := 117; z := 234 |}.
Proof. reflexivity. Qed.

Example scenario_temperature :
  temperature_of 0x40 0x00 = f32_of_int 153.
Proof. vm_compute. reflexivity. Qed.

Example scenario_period :
  task_step WAIT_INIT (mock_world (Some (mock_dev default_cfg)) [])
    = Ret (SAMPLING 67 0) (mock_world (Some (mock_dev default_cfg)) []).
Proof. vm_compute. reflexivity. Qed.

Example scenario_init_writes :
  match PIOS_HMC5983_Init 1 0 default_cfg (mock_world None [(0, []); (0, []); (0, [])]) with
  | Ret r w' => r = 0 /\ register_writes (trace w') = [(0, 0x90); (1, 0x20); (2, 0x01)]
  | Fault _ => False
  end.
Proof. vm_compute. split; reflexivity. Qed.

Example scenario_init_config_failure :
  match PIOS_HMC5983_Init 1 0 default_cfg (mock_world None [(0, []); (-1, [])]) with
  | Ret r w' => r = -2 /\ register_writes (trace w') = [(0, 0x90); (1, 0x20)]
  | Fault _ => False
  end.
Proof. vm_compute. split; reflexivity. Qed.

(** C3, as first stated, fails for 220 Hz: the switch has no case for
    its code, the default branch gives the 75 Hz delay of 14 ms, and
    [ceil(1000 / 220)] is 5. *)
Lemma C3_counterexample_220Hz :
  In (PIOS_HMC5983_ODR_220, 220 # 1) odr_table /\
  ceil_period_ms (220 # 1) = 5 /\
  sample_delay_of_odr PIOS_HMC5983_ODR_220 = Ok 14 /\
  task_step WAIT_INIT
    (mock_world
       (Some (mock_dev (mock_cfg PIOS_HMC5983_ODR_220 PIOS_HMC5983_GAIN_1_3
                          PIOS_HMC5983_TOP_0DEG))) [])
    = Ret (SAMPLING 14 0)
        (mock_world
           (Some (mock_dev (mock_cfg PIOS_HMC5983_ODR_220 PIOS_HMC5983_GAIN_1_3
                              PIOS_HMC5983_TOP_0DEG))) []) /\
  ~ (forall odr hz, In (odr, hz) odr_table ->
       sample_delay_of_odr odr = Ok (ceil_period_ms hz)).
Proof.
  assert (Hin : In (PIOS_HMC5983_ODR_220, 220 # 1) odr_table)
    by (cbn; tauto).
  split; [exact Hin |].
  split; [vm_compute; reflexivity |].
  split; [vm_compute; reflexivity |].
  split; [vm_compute; reflexivity |].
  intros H. specialize (H _ _ Hin). vm_compute in H. discriminate H.
Qed.

(** ** Instances of the theorems *)

Lemma C1_axis_value_witness :
  mag_convert 256 (sensitivity_of_gain PIOS_HMC5983_GAIN_1_3) = Ok 234.
Proof.
  assert (Hin : In (PIOS_HMC5983_GAIN_1_3, 1090) gain_table)
    by (right; left; reflexivity).
  assert (Hr : is_int16 256)
    by int16_range.
  destruct (C1_axis_value_milligauss PIOS_HMC5983_GAIN_1_3 1090 256 Hin Hr)
    as (_ & _ & _ & _ & H).
  apply H. vm_compute. split; discriminate.
Defined.

Lemma C5_raw_axis_witness : raw_axis 0xFF 0x00 = big_endian_int16 0xFF 0x00.
Proof.
  apply C5_raw_axis_big_endian; byte_range.
Defined.

Lemma C6_orientation_witness :
  abs_triple
    (sample_as_int16
       (orientation_transform PIOS_HMC5983_BOTTOM_90DEG (-32768) 5 7))
    = (5, 32768, 7).
Proof.
  assert (H1 : is_int16 (-32768)) by int16_range.
  assert (H2 : is_int16 5) by int16_range.
  assert (H3 : is_int16 7) by int16_range.
  destruct (C6_orientation_involution_family PIOS_HMC5983_BOTTOM_90DEG
              (-32768) 5 7) as (_ & _ & _ & H).
  destruct (H H1 H2 H3) as ([Habs | Habs] & _ & _).
  - vm_compute in Habs. discriminate Habs.
  - exact Habs.
Defined.

Lemma C2_configure_witness :
  exists r w',
    PIOS_HMC5983_Config default_cfg
      (mock_world (Some (mock_dev default_cfg)) [(0, []); (0, []); (0, [])])
      = Ret r w' /\
    r = 0 /\
    register_writes
      (new_events
         (mock_world (Some (mock_dev default_cfg)) [(0, []); (0, []); (0, [])])
         w')
      = [(0x00, 0x90); (0x01, 0x20); (0x02, 0x01)].
Proof.
  destruct (proj2 (C2_configure_register_writes (svc := mock_services)
                     (mock_world (Some (mock_dev default_cfg))
                        [(0, []); (0, []); (0, [])])
                     default_cfg)
              (mock_dev default_cfg) eq_refl eq_refl
              ltac:(byte_range) ltac:(byte_range)
              ltac:(byte_range) ltac:(byte_range))
    as (r & w' & Hrun & Hiff & _ & Hok & _).
  assert (Hr : r = 0) by (apply Hiff; repeat split; reflexivity).
  exists r, w'. split; [exact Hrun |]. split; [exact Hr |].
  apply (proj2 (Hok Hr)).
Defined.

Lemma C3_sample_delay_witness :
  task_step WAIT_INIT (mock_world (Some (mock_dev default_cfg)) [])
    = Ret (SAMPLING (ceil_period_ms (15 # 1)) 0)
          (mock_world (Some (mock_dev default_cfg)) []).
Proof.
  assert (Hin : In (M_ODR (cfg (mock_dev default_cfg)), 15 # 1) odr_table)
    by (do 4 right; left; reflexivity).
  assert (Hne : M_ODR (cfg (mock_dev default_cfg)) <> PIOS_HMC5983_ODR_220)
    by (vm_compute; discriminate).
  exact (proj1 (proj2 (C3_sample_delay (svc := mock_services)
                         (mock_world (Some (mock_dev default_cfg)) [])
                         (mock_dev default_cfg) (15 # 1)
                         eq_refl eq_refl Hin Hne))).
Defined.

(** The self test on a sensor that does not answer: the transfer fails
    and delivers nothing, the stack slot of [id] still holds
    'H','4','3', and the self test reports success.  With the sensor
    answering, 'H','4','3' gives 0 and 'H','4','2' gives -1. *)
Lemma C7_self_test_witness :
  (transfer_status (svc := mock_services_on_stack [72; 52; 51])
     (mock_world (Some (mock_dev default_cfg)) [(-1, [])]) 1
     (id_txn_list (svc := mock_services_on_stack [72; 52; 51])
        (mock_world (Some (mock_dev default_cfg)) [(-1, [])])) = -1 /\
   exists w',
     PIOS_HMC5983_Test (svc := mock_services_on_stack [72; 52; 51])
       (mock_world (Some (mock_dev default_cfg)) [(-1, [])]) = Ret 0 w' /\
     List.length (bus_transfers (trace w')) = 1%nat) /\
  (exists w',
     PIOS_HMC5983_Test
       (mock_world (Some (mock_dev default_cfg)) [(0, [72; 52; 51])])
       = Ret 0 w') /\
  (exists w',
     PIOS_HMC5983_Test
       (mock_world (Some (mock_dev default_cfg)) [(0, [72; 52; 50])])
       = Ret (-1) w').
Proof.
  split; [| split].
  - split; [reflexivity |].
    destruct (C7_self_test_identification
                (svc := mock_services_on_stack [72; 52; 51])
                (mock_world (Some (mock_dev default_cfg)) [(-1, [])])
                (mock_dev default_cfg) eq_refl eq_refl)
      as (r & Hrun & _ & _ & _ & _ & _ & Hstale).
    assert (Hr : r = 0)
      by (apply Hstale; [vm_compute; discriminate | reflexivity | reflexivity]).
    subst r. eexists. split; [exact Hrun | reflexivity].
  - destruct (C7_self_test_identification (svc := mock_services)
                (mock_world (Some (mock_dev default_cfg)) [(0, [72; 52; 51])])
                (mock_dev default_cfg) eq_refl eq_refl)
      as (r & Hrun & _ & _ & _ & Hread & _).
    destruct (Hread 72 52 51 [] ltac:(vm_compute; reflexivity)
                ltac:(byte_range) ltac:(byte_range) ltac:(byte_range))
      as (_ & H43 & _).
    assert (Hr : r = 0) by (apply H43; reflexivity).
    subst r. eexists. exact Hrun.
  - destruct (C7_self_test_identification (svc := mock_services)
                (mock_world (Some (mock_dev default_cfg)) [(0, [72; 52; 50])])
                (mock_dev default_cfg) eq_refl eq_refl)
      as (r & Hrun & _ & _ & _ & Hread & _).
    destruct (Hread 72 52 50 [] ltac:(vm_compute; reflexivity)
                ltac:(byte_range) ltac:(byte_range) ltac:(byte_range))
      as (_ & _ & H42).
    assert (Hr : r = -1) by (apply H42; reflexivity).
    subst r. eexists. exact Hrun.
Defined.

Lemma C9_irq_handler_witness :
  PIOS_HMC5983_IRQHandler (mock_world None []) = Ret false (mock_world None []) /\
  exists w',
    PIOS_HMC5983_IRQHandler (mock_world (Some (mock_dev default_cfg)) [])
      = Ret true w' /\
    semaphore_gives
      (new_events (mock_world (Some (mock_dev default_cfg)) []) w') = [None].
Proof.
  split.
  - apply (proj1 (C9_irq_handler (svc := mock_services) (mock_world None []))). left. reflexivity.
  - destruct (proj2 (proj2 (C9_irq_handler (svc := mock_services)
                              (mock_world (Some (mock_dev default_cfg)) [])))
                (mock_dev default_cfg) eq_refl eq_refl)
      as (w' & Hrun & _ & Hgives & _).
    exists w'. split; [exact Hrun | exact Hgives].
Defined.

Lemma C10_sensitivity_witness :
  (exists s t',
     PIOS_HMC5983_ReadMag {| x := 0; y := 0; z := 0 |} None
       (mock_world (Some (mock_dev default_cfg)) [(0, [1; 0; 255; 0; 0; 128])])
       = Ret (0, s, t')
           (after_transfer
              (mock_world (Some (mock_dev default_cfg))
                 [(0, [1; 0; 255; 0; 0; 128])]) 1
              (burst_txn_list
                 (mock_world (Some (mock_dev default_cfg))
                    [(0, [1; 0; 255; 0; 0; 128])])
                 (mock_dev default_cfg) None))) /\
  PIOS_HMC5983_ReadMag {| x := 0; y := 0; z := 0 |} None
    (mock_world
       (Some (mock_dev (mock_cfg PIOS_HMC5983_ODR_15 5 PIOS_HMC5983_TOP_0DEG)))
       [(0, [1; 0; 255; 0; 0; 128])])
    = Fault DivisionByZero.
Proof.
  split.
  - assert (Hg : gain_enumerated (Gain (cfg (mock_dev default_cfg))))
      by (right; left; reflexivity).
    destruct (C10_sensitivity_divisor (svc := mock_services)
                (mock_world (Some (mock_dev default_cfg))
                   [(0, [1; 0; 255; 0; 0; 128])])
                (mock_dev default_cfg) {| x := 0; y := 0; z := 0 |} None
                eq_refl eq_refl ltac:(vm_compute; reflexivity)) as (_ & Hen & _).
    destruct (Hen Hg) as (_ & _ & _ & Hrun). exact Hrun.
  - assert (Hg : ~ gain_enumerated
                     (Gain (cfg (mock_dev
                                   (mock_cfg PIOS_HMC5983_ODR_15 5
                                      PIOS_HMC5983_TOP_0DEG))))).
    { unfold gain_enumerated. cbn. intros H.
      repeat (destruct H as [H | H]; [discriminate H |]). exact H. }
    destruct (C10_sensitivity_divisor (svc := mock_services)
                (mock_world
                   (Some (mock_dev (mock_cfg PIOS_HMC5983_ODR_15 5
                                      PIOS_HMC5983_TOP_0DEG)))
                   [(0, [1; 0; 255; 0; 0; 128])])
                (mock_dev (mock_cfg PIOS_HMC5983_ODR_15 5 PIOS_HMC5983_TOP_0DEG))
                {| x := 0; y := 0; z := 0 |} None
                eq_refl eq_refl ltac:(vm_compute; reflexivity)) as (_ & _ & Hne).
    exact (proj2 (proj2 (Hne Hg))).
Defined.

Lemma C8_bus_failure_witness :
  (exists w',
     task_step (SAMPLING 67 0)
       (mock_world (Some (mock_dev default_cfg)) [(-1, [])])
       = Ret (SAMPLING 67 67) w' /\
     queue_sends
       (new_events (mock_world (Some (mock_dev default_cfg)) [(-1, [])]) w')
       = [] /\
     queue_items w' = []) /\
  (exists w',
     task_step (SAMPLING 67 0)
       (mock_world (Some (mock_dev default_cfg)) [(0, [1; 0; 255; 0; 0; 128])])
       = Ret (SAMPLING 67 67) w' /\
     queue_sends
       (new_events
          (mock_world (Some (mock_dev default_cfg))
             [(0, [1; 0; 255; 0; 0; 128])]) w')
       = [ {| x := -234; y := 117; z := 234 |} ] /\
     queue_items w' = [ {| x := -234; y := 117; z := 234 |} ]) /\
  exists now' w',
    PIOS_HMC5983_Task 3 (SAMPLING 67 0)
      (mock_world (Some (mock_dev default_cfg))
         [(-1, []); (0, [1; 0; 255; 0; 0; 128])])
      = Ret (SAMPLING 67 now') w'.
Proof.
  assert (Hg : gain_enumerated (Gain (cfg (mock_dev default_cfg))))
    by (right; left; reflexivity).
  split; [| split].
  - destruct (C8_bus_failure_absorbed (svc := mock_services)
                (mock_world (Some (mock_dev default_cfg)) [(-1, [])])
                (mock_dev default_cfg) eq_refl eq_refl)
      as (_ & _ & Hfail & _).
    destruct (Hfail 67 0 67
                (after_call (fun e => thread_sleep_until e 0 67)
                   (EvThreadSleepUntil 0 67)
                   (mock_world (Some (mock_dev default_cfg)) [(-1, [])]))
                eq_refl ltac:(vm_compute; discriminate))
      as (Hstep & Hsends & Hitems).
    eexists. split; [exact Hstep |]. split; [exact Hsends | exact Hitems].
  - destruct (C8_bus_failure_absorbed (svc := mock_services)
                (mock_world (Some (mock_dev default_cfg))
                   [(0, [1; 0; 255; 0; 0; 128])])
                (mock_dev default_cfg) eq_refl eq_refl)
      as (_ & _ & _ & Hgood & _).
    destruct (Hgood 67 0 67
                (after_call (fun e => thread_sleep_until e 0 67)
                   (EvThreadSleepUntil 0 67)
                   (mock_world (Some (mock_dev default_cfg))
                      [(0, [1; 0; 255; 0; 0; 128])]))
                eq_refl ltac:(vm_compute; reflexivity) Hg)
      as (s & w' & Hs & _ & Hstep & Hsends & Hitems).
    assert (Es : s = {| x := -234; y := 117; z := 234 |})
      by (vm_compute in Hs; congruence).
    subst s. exists w'. split; [exact Hstep |].
    split; [exact Hsends | apply Hitems; reflexivity].
  - destruct (C8_bus_failure_absorbed (svc := mock_services)
                (mock_world (Some (mock_dev default_cfg))
                   [(-1, []); (0, [1; 0; 255; 0; 0; 128])])
                (mock_dev default_cfg) eq_refl eq_refl)
      as (_ & _ & _ & _ & Hloop).
    destruct (Hloop Hg 3%nat 67 0) as (now' & w' & Hrun & _).
    exists now', w'. exact Hrun.
Defined.

(** Three iterations on a bus that fails once and then answers: the
    failed iteration sends nothing, the next one sends the sample, and
    the third finds the one-slot queue full. *)
Example scenario_failure_then_success :
  match PIOS_HMC5983_Task 3 (SAMPLING 67 0)
          (mock_world (Some (mock_dev default_cfg))
             [(-1, []); (0, [1; 0; 255; 0; 0; 128]); (0, [0; 1; 0; 2; 0; 3])])
  with
  | Ret s w' =>
      s = SAMPLING 67 201 /\
      queue_sends (trace w')
        = [ {| x := -234; y := 117; z := 234 |};
            {| x := 0; y := 2; z := -1 |} ] /\
      queue_items w' = [ {| x := -234; y := 117; z := 234 |} ]
  | Fault _ => False
  end.
Proof. vm_compute. repeat split; reflexivity. Qed.

(** * Further properties of the driver *)

(** ** Byte pairs and counts *)

(** The reconstruction of a raw count from its byte pair is a bijection
    between byte pairs and the 16-bit signed counts: splitting a count
    into its big-endian bytes and reconstructing gives the count back,
    and two byte pairs with the same count are the same pair. *)
Theorem raw_axis_bijection raw m1 l1 m2 l2 :
  is_int16 raw ->
  is_uint8 m1 -> is_uint8 l1 -> is_uint8 m2 -> is_uint8 l2 ->
  (is_uint8 (to_uint16 raw / 256) /\ is_uint8 (to_uint16 raw mod 256) /\
   raw_axis (to_uint16 raw / 256) (to_uint16 raw mod 256) = raw) /\
  (raw_axis m1 l1 = raw_axis m2 l2 -> m1 = m2 /\ l1 = l2).
Proof.
  intros Hr H1 H2 H3 H4. split.
  - unfold is_int16, INT16_MIN, INT16_MAX in Hr. unfold to_uint16.
    set (u := raw mod 65536).
    assert (Hu : 0 <= u < 65536) by (apply Z.mod_pos_bound; lia).
    assert (Hcase : (0 <= raw /\ u = raw) \/ (raw < 0 /\ u = raw + 65536)).
    { destruct (Z_lt_le_dec raw 0).
      - right. split; [lia |]. subst u.
        replace raw with (raw + 65536 + (-1) * 65536) at 1 by lia.
        rewrite Z.mod_add by lia. apply Z.mod_small. lia.
      - left. split; [lia |]. subst u. apply Z.mod_small. lia. }
    pose proof (Z.div_mod u 256 ltac:(lia)) as Hdm.
    pose proof (Z.mod_pos_bound u 256 ltac:(lia)) as Hm.
    assert (Hq : 0 <= u / 256 < 256).
    { split; [apply Z.div_pos; lia | apply Z.div_lt_upper_bound; lia]. }
    split; [exact Hq |]. split; [exact Hm |].
    rewrite raw_axis_value by assumption.
    destruct (Z.ltb_spec (u / 256) 128); lia.
  - rewrite !raw_axis_value by assumption. unfold is_uint8 in *.
    destruct (Z.ltb_spec m1 128), (Z.ltb_spec m2 128); lia.
Qed.

Lemma raw_axis_bijection_witness :
  raw_axis (to_uint16 (-256) / 256) (to_uint16 (-256) mod 256) = -256.
Proof.
  apply (proj1 (raw_axis_bijection (-256) 0 0 0 0 ltac:(int16_range)
                  ltac:(byte_range) ltac:(byte_range)
                  ltac:(byte_range) ltac:(byte_range))).
Defined.

(** ** Conversion to milligauss *)

Lemma symmetric_range_quot raw S :
  Z.abs raw <= 2048 -> 230 <= S -> is_int16 (Z.quot (raw * 1000) S).
Proof.
  intros Hr HS. unfold is_int16, INT16_MIN, INT16_MAX.
  assert (Hq : Z.abs (Z.quot (raw * 1000) S) <= 8905).
  { rewrite <- (Z.abs_eq S) at 1 by lia.
    rewrite <- Z.quot_abs by lia. rewrite (Z.abs_eq S) by lia.
    rewrite Z.quot_div_nonneg by lia.
    apply Z.div_le_upper_bound; lia. }
  lia.
Qed.

Lemma mag_convert_symmetric_range raw S :
  Z.abs raw <= 2048 -> 230 <= S ->
  mag_convert raw S = Ok (Z.quot (raw * 1000) S).
Proof.
  intros Hr HS. rewrite mag_convert_int16.
  - rewrite to_int16_id; [reflexivity | apply symmetric_range_quot; assumption].
  - unfold is_int16, INT16_MIN, INT16_MAX. lia.
  - lia.
Qed.

(** Over the symmetric range of the device, -2048..2048, and for every
    gain of the table, the conversion to milligauss is odd (a negated
    count gives the negated value, the division truncating toward zero
    on both sides), monotone, sends 0 to 0 and never grows the sign of a
    count: its result has the sign of the count or is 0. *)
Theorem mag_convert_odd_monotone g S r1 r2 :
  In (g, S) gain_table -> -2048 <= r1 -> r1 <= r2 -> r2 <= 2048 ->
  exists q1 q2,
    mag_convert r1 (sensitivity_of_gain g) = Ok q1 /\
    mag_convert r2 (sensitivity_of_gain g) = Ok q2 /\
    q1 <= q2 /\
    mag_convert (- r1) (sensitivity_of_gain g) = Ok (- q1) /\
    (r1 = 0 -> q1 = 0) /\
    (0 <= r1 -> 0 <= q1) /\ (r1 <= 0 -> q1 <= 0) /\
    Z.abs q1 * S <= Z.abs r1 * 1000.
Proof.
  intros Hg H1 H12 H2.
  rewrite (sensitivity_of_gain_table g S Hg).
  pose proof (gain_table_positive g S Hg) as HS.
  exists (Z.quot (r1 * 1000) S), (Z.quot (r2 * 1000) S).
  split; [apply mag_convert_symmetric_range; lia |].
  split; [apply mag_convert_symmetric_range; lia |].
  split; [apply Z.quot_le_mono; lia |].
  split.
  { rewrite mag_convert_symmetric_range by lia.
    rewrite Z.mul_opp_l, Z.quot_opp_l by lia. reflexivity. }
  split; [intros ->; reflexivity |].
  split; [intros H; apply Z.quot_pos; lia |].
  split.
  { intros H. replace (r1 * 1000) with (- (- r1 * 1000)) by lia.
    rewrite Z.quot_opp_l by lia.
    assert (0 <= Z.quot (- r1 * 1000) S) by (apply Z.quot_pos; lia). lia. }
  destruct (Z_le_gt_dec 0 r1) as [Hpos | Hneg].
  - pose proof (Z.mul_quot_le (r1 * 1000) S ltac:(lia) ltac:(lia)).
    assert (0 <= Z.quot (r1 * 1000) S) by (apply Z.quot_pos; lia). lia.
  - pose proof (Z.mul_quot_ge (r1 * 1000) S ltac:(lia) ltac:(lia)). lia.
Qed.

Lemma mag_convert_odd_monotone_witness :
  exists q1 q2,
    mag_convert (-256) (sensitivity_of_gain PIOS_HMC5983_GAIN_1_3) = Ok q1 /\
    mag_convert 256 (sensitivity_of_gain PIOS_HMC5983_GAIN_1_3) = Ok q2 /\
    q1 <= q2 /\
    mag_convert (- -256) (sensitivity_of_gain PIOS_HMC5983_GAIN_1_3) = Ok (- q1).
Proof.
  assert (Hin : In (PIOS_HMC5983_GAIN_1_3, 1090) gain_table)
    by (right; left; reflexivity).
  destruct (mag_convert_odd_monotone PIOS_HMC5983_GAIN_1_3 1090 (-256) 256 Hin
              ltac:(vm_compute; discriminate) ltac:(vm_compute; discriminate)
              ltac:(vm_compute; discriminate))
    as (q1 & q2 & Ha & Hb & Hle & Hodd & _).
  exists q1, q2. repeat split; assumption.
Defined.

(** ** Sample period *)

(** Whatever the value of the M_ODR field, the sample delay is one of
    the seven delays of the switch: the conversion of the [float]
    expression to [uint32_t] is always in range, and the delay is never
    below 14 ms nor above 1334 ms. *)
Theorem sample_delay_total odr :
  exists d,
    sample_delay_of_odr odr = Ok d /\
    In d [1334; 667; 334; 134; 67; 34; 14] /\ 14 <= d <= 1334.
Proof.
  unfold sample_delay_of_odr.
  repeat match goal with
         | |- context [?a =? ?b] => destruct (a =? b)
         end;
    eexists; (split; [vm_compute; reflexivity |]); cbn; split; (tauto || lia).
Qed.

(** ** The driver on an arbitrary environment, continued *)

Section DriverCoverage.

Context {Env : Type} {svc : Services Env}.

Implicit Types (w : world Env) (dv : hmc5983_dev).

(** *** The device record is written by two operations only *)

Lemma preserves_ret {A} (a : A) : preserves_dev (@ret Env A a).
Proof. intros w. reflexivity. Qed.

Lemma preserves_fail {A} f : preserves_dev (@fail Env A f).
Proof. intros w. exact I. Qed.

Lemma preserves_bind {A B} (c : M Env A) (k : A -> M Env B) :
  preserves_dev c -> (forall a, preserves_dev (k a)) -> preserves_dev (bind c k).
Proof.
  intros Hc Hk w. unfold bind. specialize (Hc w).
  destruct (c w) as [a w1 | f]; [| exact I].
  specialize (Hk a w1). destruct (k a w1) as [b w2 | f]; [| exact I].
  congruence.
Qed.

Lemma preserves_get_dev : preserves_dev (@get_dev Env).
Proof. intros w. reflexivity. Qed.

Lemma preserves_deref_dev : preserves_dev (@deref_dev Env).
Proof.
  intros w. unfold deref_dev. destruct (dev w) eqn:E; [cbn; congruence | exact I].
Qed.

Lemma preserves_call {A} (f : Env -> A * Env) e : preserves_dev (call f e).
Proof. intros w. unfold call. destruct (f (env w)). reflexivity. Qed.

Lemma preserves_peek {A} (f : Env -> A) : preserves_dev (peek f).
Proof. intros w. reflexivity. Qed.

Lemma preserves_lift {A} (r : result A) : preserves_dev (@lift Env A r).
Proof. destruct r; [apply preserves_ret | apply preserves_fail]. Qed.

Lemma preserves_queue_send q item t :
  preserves_dev (@PIOS_Queue_Send Env q item t).
Proof.
  intros w. unfold PIOS_Queue_Send.
  destruct (List.length (queue_items w) <? PIOS_HMC5983_MAX_DOWNSAMPLE)%nat;
    reflexivity.
Qed.

Ltac preserve :=
  repeat first
    [ apply preserves_ret
    | apply preserves_fail
    | apply preserves_get_dev
    | apply preserves_deref_dev
    | apply preserves_call
    | apply preserves_peek
    | apply preserves_lift
    | apply preserves_queue_send
    | apply preserves_bind; [| intros ? ]
    | match goal with
      | |- preserves_dev (if ?b then _ else _) => destruct b
      | |- preserves_dev (match ?x with _ => _ end) => destruct x
      end ].

Lemma preserves_write a v : preserves_dev (PIOS_HMC5983_Write a v).
Proof. unfold PIOS_HMC5983_Write, PIOS_I2C_Transfer. preserve. Qed.

Lemma preserves_read a buffer n : preserves_dev (PIOS_HMC5983_Read a buffer n).
Proof. unfold PIOS_HMC5983_Read, PIOS_I2C_Transfer. preserve. Qed.

Lemma preserves_config c : preserves_dev (PIOS_HMC5983_Config c).
Proof.
  unfold PIOS_HMC5983_Config.
  repeat first [ apply preserves_write | apply preserves_ret
               | apply preserves_bind; [| intros ? ]
               | match goal with
                 | |- preserves_dev (if ?b then _ else _) => destruct b
                 end ].
Qed.

Lemma preserves_readmag md t : preserves_dev (PIOS_HMC5983_ReadMag md t).
Proof.
  unfold PIOS_HMC5983_ReadMag, PIOS_HMC5983_Config_GetSensitivity,
    PIOS_I2C_Transfer, automatic_bytes.
  preserve.
Qed.

Lemma preserves_test : preserves_dev PIOS_HMC5983_Test.
Proof.
  unfold PIOS_HMC5983_Test, PIOS_HMC5983_ReadID, automatic_bytes.
  repeat first [ apply preserves_read | apply preserves_ret | apply preserves_peek
               | apply preserves_bind; [| intros ? ]
               | match goal with
                 | |- preserves_dev (if ?b then _ else _) => destruct b
                 end ].
Qed.

Lemma preserves_irq : preserves_dev PIOS_HMC5983_IRQHandler.
Proof.
  unfold PIOS_HMC5983_IRQHandler, PIOS_Semaphore_Give_FromISR. preserve.
Qed.

Lemma preserves_task_step s : preserves_dev (task_step s).
Proof.
  destruct s as [| sd now]; unfold task_step, task_iteration, read_and_publish,
    PIOS_Thread_Sleep, PIOS_Thread_Sleep_Until, PIOS_Thread_Systime,
    PIOS_Semaphore_Take.
  - preserve.
  - repeat first
      [ apply preserves_readmag | apply preserves_ret | apply preserves_call
      | apply preserves_peek | apply preserves_deref_dev
      | apply preserves_queue_send
      | apply preserves_bind; [| intros ? ]
      | match goal with
        | |- preserves_dev (if ?b then _ else _) => destruct b
        end ].
Qed.

Lemma preserves_task n : forall s, preserves_dev (PIOS_HMC5983_Task n s).
Proof.
  induction n as [| n IH]; intros s; cbn [PIOS_HMC5983_Task].
  - apply preserves_ret.
  - apply preserves_bind; [apply preserves_task_step | exact IH].
Qed.

(** Apart from [PIOS_HMC5983_Init] and [PIOS_HMC5983_SetOrientation], no
    operation of the driver writes the global device pointer or the
    record behind it: whenever a register write or read, a configure, a
    sample read, the self test, the interrupt handler or any number of
    loop bodies of the task return, the device is as it was, so a valid
    device stays valid. *)
Theorem device_record_untouched :
  (forall a v, preserves_dev (PIOS_HMC5983_Write a v)) /\
  (forall a buffer n, preserves_dev (PIOS_HMC5983_Read a buffer n)) /\
  (forall c, preserves_dev (PIOS_HMC5983_Config c)) /\
  (forall md t, preserves_dev (PIOS_HMC5983_ReadMag md t)) /\
  preserves_dev PIOS_HMC5983_Test /\
  preserves_dev PIOS_HMC5983_IRQHandler /\
  (forall n s, preserves_dev (PIOS_HMC5983_Task n s)) /\
  (forall n s w r w',
     PIOS_HMC5983_Task n s w = Ret r w' ->
     PIOS_HMC5983_Validate (dev w') = PIOS_HMC5983_Validate (dev w)).
Proof.
  repeat split.
  - exact preserves_write.
  - exact preserves_read.
  - exact preserves_config.
  - exact preserves_readmag.
  - exact preserves_test.
  - exact preserves_irq.
  - intros n s. apply preserves_task.
  - intros n s w r w' H. pose proof (preserves_task n s w) as Hp.
    rewrite H in Hp. rewrite Hp. reflexivity.
Qed.

(** *** Use before initialisation *)

Lemma read_invalid w a buffer n :
  PIOS_HMC5983_Validate (dev w) <> 0 ->
  PIOS_HMC5983_Read a buffer n w = Ret (-1, buffer) w.
Proof.
  intros H. unfold PIOS_HMC5983_Read, bind, get_dev.
  rewrite (guard_invalid _ H). reflexivity.
Qed.

Lemma set_orientation_invalid w o :
  PIOS_HMC5983_Validate (dev w) <> 0 ->
  PIOS_HMC5983_SetOrientation o w = Ret (-1) w.
Proof.
  intros H. unfold PIOS_HMC5983_SetOrientation, bind, get_dev.
  rewrite (guard_invalid _ H). reflexivity.
Qed.

(** While the device is not valid (null pointer, wrong magic or bus
    handle 0), every entry that talks to the bus or changes the record
    gives up before doing anything: register write and read, configure,
    sample read and orientation update return their failure value and
    make no service call; the caller's buffer, sample record and
    temperature are handed back as they were. *)
Theorem invalid_device_rejected w :
  PIOS_HMC5983_Validate (dev w) <> 0 ->
  (forall a v, PIOS_HMC5983_Write a v w = Ret (-1) w) /\
  (forall a buffer n, PIOS_HMC5983_Read a buffer n w = Ret (-1, buffer) w) /\
  (forall c, PIOS_HMC5983_Config c w = Ret (-1) w) /\
  (forall md t, PIOS_HMC5983_ReadMag md t w = Ret (-1, md, t) w) /\
  (forall o, PIOS_HMC5983_SetOrientation o w = Ret (-1) w).
Proof.
  intros H.
  split; [intros; apply write_invalid; exact H |].
  split; [intros; apply read_invalid; exact H |].
  split; [intros; apply config_invalid; exact H |].
  split; [intros; apply readmag_invalid; exact H |].
  intros; apply set_orientation_invalid; exact H.
Qed.

(** On an invalid device the self test reads nothing, and its answer is
    decided by what the automatic array [id] happened to contain: it is
    0 exactly when those bytes are 'H', '4', '3', and -1 otherwise. *)
Theorem self_test_without_device w :
  PIOS_HMC5983_Validate (dev w) <> 0 ->
  exists r,
    PIOS_HMC5983_Test w = Ret r w /\
    (r = 0 \/ r = -1) /\
    (r = 0 <->
     firstn 3 (automatic (env w) 4)
       = map char_code ["H"; "4"; "3"]%char).
Proof.
  intros H.
  unfold PIOS_HMC5983_Test, PIOS_HMC5983_ReadID, bind, automatic_bytes, peek.
  rewrite (read_invalid _ _ _ _ H). unfold ret. cbn [fst snd].
  unfold automatic. cbn [seq map set_nth nth firstn].
  change (char_code "H") with 72. change (char_code "4") with 52.
  change (char_code "3") with 51.
  set (a0 := to_uint8 (indeterminate_byte (env w) 0)).
  set (a1 := to_uint8 (indeterminate_byte (env w) 1)).
  set (a2 := to_uint8 (indeterminate_byte (env w) 2)).
  destruct (Z.eqb_spec a0 72) as [E0 | E0]; cbn [negb orb];
    [| exists (-1); split; [reflexivity |]; split; [auto |];
       split; [discriminate | intros E; inversion E; contradiction]].
  destruct (Z.eqb_spec a1 52) as [E1 | E1]; cbn [negb orb];
    [| exists (-1); split; [reflexivity |]; split; [auto |];
       split; [discriminate | intros E; inversion E; contradiction]].
  destruct (Z.eqb_spec a2 51) as [E2 | E2]; cbn [negb orb];
    [| exists (-1); split; [reflexivity |]; split; [auto |];
       split; [discriminate | intros E; inversion E; contradiction]].
  exists 0. split; [reflexivity |]. split; [auto |].
  split; [intros _; rewrite E0, E1, E2; reflexivity | reflexivity].
Qed.

(** *** Identification string *)

Lemma store_bytes_length n : forall rx old,
  List.length (store_bytes n rx old) = List.length old.
Proof.
  induction n as [| n IH]; intros rx old; [reflexivity |].
  destruct rx as [| r rx]; [reflexivity |].
  destruct old as [| o old]; [reflexivity |].
  cbn. rewrite IH. reflexivity.
Qed.

Lemma set_nth_length i v : forall a,
  List.length (set_nth i v a) = List.length a.
Proof.
  induction i as [| i IH]; intros [| h a]; cbn; try reflexivity.
  rewrite IH. reflexivity.
Qed.

Lemma nth_set_nth i v d : forall a,
  (i < List.length a)%nat -> nth i (set_nth i v a) d = v.
Proof.
  induction i as [| i IH]; intros [| h a] H; cbn in *; try lia.
  apply IH. lia.
Qed.

(** [PIOS_HMC5983_ReadID] always terminates the 4-byte output with a
    NUL and keeps its length, whether or not anything was read.  Its
    status is the status of the read narrowed to a byte: it is never
    negative, a rejected device gives 255 rather than -1, and a bus
    status is reported as 0 whenever it is a multiple of 256. *)
Theorem read_id_terminator_and_status w out :
  List.length out = 4%nat ->
  exists r out' w',
    PIOS_HMC5983_ReadID out w = Ret (r, out') w' /\
    List.length out' = 4%nat /\ nth 3 out' 1 = 0 /\
    is_uint8 r /\
    (PIOS_HMC5983_Validate (dev w) <> 0 ->
     r = 255 /\ w' = w /\ firstn 3 out' = firstn 3 out) /\
    (forall dv,
       dev w = Some dv -> PIOS_HMC5983_Validate (Some dv) = 0 ->
       let l := read_txn_list PIOS_HMC5983_DATAOUT_IDA_REG out 3 in
       w' = after_transfer w (i2c_id dv) l /\
       r = transfer_status w (i2c_id dv) l mod 256 /\
       (r = 0 <-> (256 | transfer_status w (i2c_id dv) l))).
Proof.
  intros Hlen.
  destruct (Z.eq_dec (PIOS_HMC5983_Validate (dev w)) 0) as [Hv | Hv].
  - destruct (validate_zero _ Hv) as (dv & Hd & _).
    rewrite Hd in Hv.
    unfold PIOS_HMC5983_ReadID, bind.
    rewrite (read_valid w dv _ _ _ Hd Hv). unfold ret. cbn [fst snd].
    eexists. eexists. eexists. split; [reflexivity |].
    split; [rewrite set_nth_length, store_bytes_length; exact Hlen |].
    split; [apply nth_set_nth; rewrite store_bytes_length, Hlen; lia |].
    split; [apply to_uint8_range |].
    split; [intros Hn; rewrite Hd in Hn; contradiction |].
    intros dv' Hd' _. assert (dv' = dv) by congruence. subst dv'. cbv zeta.
    split; [reflexivity |]. split; [reflexivity |].
    unfold to_uint8. rewrite Z.mod_divide by lia. reflexivity.
  - unfold PIOS_HMC5983_ReadID, bind.
    rewrite (read_invalid _ _ _ _ Hv). unfold ret. cbn [fst snd].
    eexists. eexists. eexists. split; [reflexivity |].
    split; [rewrite set_nth_length; exact Hlen |].
    split; [apply nth_set_nth; rewrite Hlen; lia |].
    split; [apply to_uint8_range |].
    split.
    + intros _. split; [reflexivity |]. split; [reflexivity |].
      destruct out as [| a [| b [| c [| d [| e out]]]]]; try discriminate Hlen.
      reflexivity.
    + intros dv Hd Hv'. rewrite Hd in Hv. contradiction.
Qed.

(** *** Orientation update *)

Lemma convert_burst_axes S buffer :
  Forall is_uint8 buffer -> 0 < S ->
  exists mag_x mag_y mag_z,
    is_int16 mag_x /\ is_int16 mag_y /\ is_int16 mag_z /\
    forall o,
      convert_burst S o buffer = Ok (orientation_transform o mag_x mag_y mag_z).
Proof.
  intros Hb HS. unfold convert_burst.
  rewrite !axis_mG_bytes by (try apply nth_uint8; assumption).
  eexists. eexists. eexists.
  split; [apply to_int16_range |]. split; [apply to_int16_range |].
  split; [apply to_int16_range |]. intros o. reflexivity.
Qed.

(** On a valid device [PIOS_HMC5983_SetOrientation] returns 0, makes no
    service call and changes the orientation field only, so the device
    stays valid; the last update wins.  The next sample read uses the
    new orientation: for one burst, the samples read under the eight
    orientations are the eight transforms of the same three axis
    values. *)
Theorem set_orientation_effect w dv o :
  dev w = Some dv -> PIOS_HMC5983_Validate (Some dv) = 0 ->
  PIOS_HMC5983_SetOrientation o w
    = Ret 0 (with_dev (Some (with_orientation dv o)) w) /\
  PIOS_HMC5983_Validate (Some (with_orientation dv o)) = 0 /\
  (forall o',
     bind (PIOS_HMC5983_SetOrientation o)
          (fun _ => PIOS_HMC5983_SetOrientation o') w
     = PIOS_HMC5983_SetOrientation o' w) /\
  (transfer_status w (i2c_id dv) (burst_txn_list w dv None) = 0 ->
   gain_enumerated (Gain (cfg dv)) ->
   exists mag_x mag_y mag_z w',
     forall o' md,
       bind (PIOS_HMC5983_SetOrientation o')
            (fun _ => PIOS_HMC5983_ReadMag md None) w
       = Ret (0, orientation_transform o' mag_x mag_y mag_z, None)
             (with_dev (Some (with_orientation dv o')) w')).
Proof.
  intros Hd Hv.
  assert (Hset : forall o1,
            PIOS_HMC5983_SetOrientation o1 w
              = Ret 0 (with_dev (Some (with_orientation dv o1)) w)).
  { intros o1.
    unfold PIOS_HMC5983_SetOrientation, bind, get_dev, deref_dev, set_dev.
    rewrite Hd, (guard_valid _ Hv), Hd. reflexivity. }
  assert (Hval : forall o1,
            PIOS_HMC5983_Validate (Some (with_orientation dv o1)) = 0)
    by (intros o1; exact Hv).
  split; [apply Hset |]. split; [apply Hval |]. split.
  - intros o'. unfold bind at 1. rewrite Hset.
    unfold PIOS_HMC5983_SetOrientation, bind, get_dev, deref_dev, set_dev.
    cbn [dev with_dev]. rewrite (guard_valid _ (Hval o)), Hd, (guard_valid _ Hv).
    rewrite Hd. reflexivity.
  - intros Hok Hg.
    pose proof (gain_table_positive _ _ (gain_enumerated_table _ Hg)) as Hpos.
    destruct (convert_burst_axes (sensitivity_of_gain (Gain (cfg dv)))
                (burst_buffer w dv None) (burst_buffer_uint8 w dv None)
                ltac:(lia)) as (mx & my & mz & _ & _ & _ & Hconv).
    exists mx, my, mz, (after_transfer w (i2c_id dv) (burst_txn_list w dv None)).
    intros o' md. unfold bind at 1. rewrite Hset.
    rewrite (readmag_run (with_dev (Some (with_orientation dv o')) w)
               (with_orientation dv o') md None eq_refl (Hval o')).
    cbv zeta.
    change (transfer_status (with_dev (Some (with_orientation dv o')) w)
              (i2c_id (with_orientation dv o'))
              (burst_txn_list (with_dev (Some (with_orientation dv o')) w)
                 (with_orientation dv o') None))
      with (transfer_status w (i2c_id dv) (burst_txn_list w dv None)).
    rewrite Hok. cbn [Z.eqb negb].
    change (burst_buffer (with_dev (Some (with_orientation dv o')) w)
              (with_orientation dv o') None)
      with (burst_buffer w dv None).
    change (cfg (with_orientation dv o')) with (cfg dv).
    change (orientation (with_orientation dv o')) with o'.
    rewrite Hconv. reflexivity.
Qed.

(** *** Initialisation *)

(** What [PIOS_HMC5983_Init] does after the record is allocated and
    filled in: configure, then register the queue and create the
    worker. *)
Lemma init_after_alloc w2 d2 c :
  dev w2 = Some d2 -> magic d2 = PIOS_HMC5983_DEV_MAGIC ->
  let id := i2c_id d2 in
  let tA := write_txn_list PIOS_HMC5983_CONFIG_REG_A
              (Z.lor (Z.lor 0x80 (M_ODR c)) (Meas_Conf c)) in
  let tB := write_txn_list PIOS_HMC5983_CONFIG_REG_B (Gain c) in
  let tM := write_txn_list PIOS_HMC5983_MODE_REG (Mode c) in
  match
    bind (PIOS_HMC5983_Config c)
      (fun r =>
         if negb (r =? 0) then ret (-2)
         else
           bind (PIOS_SENSORS_Register (queue d2))
             (fun _ =>
                bind (PIOS_Thread_Create "pios_hmc5983")
                  (fun t =>
                     bind (set_dev
                             (Some {| i2c_id := i2c_id d2; cfg := cfg d2;
                                      queue := queue d2; task := t;
                                      data_ready_sema := data_ready_sema d2;
                                      magic := magic d2;
                                      orientation := orientation d2 |}))
                       (fun _ => bind (PIOS_Assert (is_some t))
                                   (fun _ => ret 0))))) w2
  with
  | Fault f => f = AssertFailed
  | Ret r w' =>
      queue_items w' = queue_items w2 /\
      exists ts tail tk,
        trace w' = trace w2 ++ map (EvI2CTransfer id) ts ++ tail /\
        dev w' = Some {| i2c_id := i2c_id d2; cfg := cfg d2;
                         queue := queue d2; task := tk;
                         data_ready_sema := data_ready_sema d2;
                         magic := magic d2; orientation := orientation d2 |} /\
        ((r = -2 /\ tail = [] /\ tk = task d2 /\
          ((id = 0 /\ ts = []) \/
           (id <> 0 /\ (ts = [tA] \/ ts = [tA; tB] \/ ts = [tA; tB; tM])))) \/
         (r = 0 /\ id <> 0 /\ ts = [tA; tB; tM] /\
          (exists t, tk = Some t) /\
          tail = [EvSensorsRegister (queue d2); EvThreadCreate "pios_hmc5983"]))
  end.
Proof.
  intros Hd Hm. cbv zeta.
  assert (Hrec : Some d2 = Some {| i2c_id := i2c_id d2; cfg := cfg d2;
                                   queue := queue d2; task := task d2;
                                   data_ready_sema := data_ready_sema d2;
                                   magic := magic d2;
                                   orientation := orientation d2 |})
    by (destruct d2; reflexivity).
  unfold bind at 1.
  destruct (Z.eq_dec (i2c_id d2) 0) as [Hid | Hid].
  - assert (Hinv : PIOS_HMC5983_Validate (dev w2) <> 0).
    { rewrite Hd. cbn. rewrite Hm, Hid. cbn. lia. }
    rewrite (config_invalid w2 c Hinv). cbn [Z.eqb negb]. unfold ret.
    split; [reflexivity |]. exists [], [], (task d2).
    split; [cbn; rewrite app_nil_r; reflexivity |].
    split; [rewrite Hd; exact Hrec |].
    left. repeat split; auto.
  - assert (Hv : PIOS_HMC5983_Validate (Some d2) = 0).
    { cbn. rewrite Hm. cbn. destruct (Z.eqb_spec (i2c_id d2) 0); [lia | reflexivity]. }
    rewrite (config_valid w2 d2 c Hd Hv). cbv zeta.
    set (tA := write_txn_list PIOS_HMC5983_CONFIG_REG_A _).
    set (tB := write_txn_list PIOS_HMC5983_CONFIG_REG_B _).
    set (tM := write_txn_list PIOS_HMC5983_MODE_REG _).
    destruct (negb (transfer_status w2 (i2c_id d2) tA =? 0)).
    { cbn [Z.eqb negb]. unfold ret. split; [reflexivity |].
      exists [tA], [], (task d2).
      split; [cbn; reflexivity |]. split; [cbn; rewrite Hd; exact Hrec |].
      left. repeat split; auto. }
    destruct (negb (transfer_status _ (i2c_id d2) tB =? 0)).
    { cbn [Z.eqb negb]. unfold ret. split; [reflexivity |].
      exists [tA; tB], [], (task d2).
      split; [cbn; rewrite <- app_assoc; reflexivity |].
      split; [cbn; rewrite Hd; exact Hrec |].
      left. repeat split; auto. }
    destruct (negb (transfer_status _ (i2c_id d2) tM =? 0)).
    { cbn [Z.eqb negb]. unfold ret. split; [reflexivity |].
      exists [tA; tB; tM], [], (task d2).
      split; [cbn; rewrite <- !app_assoc; reflexivity |].
      split; [cbn; rewrite Hd; exact Hrec |].
      left. repeat split; auto. }
    cbn [Z.eqb negb].
    unfold bind, PIOS_SENSORS_Register, PIOS_Thread_Create, call, set_dev,
      PIOS_Assert.
    cbn [env after_transfer].
    destruct (thread_create _) as [[t |] e']; cbn [is_some]; unfold ret, fail.
    + split; [reflexivity |].
      exists [tA; tB; tM],
        [EvSensorsRegister (queue d2); EvThreadCreate "pios_hmc5983"], (Some t).
      split; [cbn; rewrite <- !app_assoc; reflexivity |].
      split; [reflexivity |].
      right. repeat split; auto. exists t. reflexivity.
    + reflexivity.
Qed.

(** Brings in [init_after_alloc] for the world and record the goal has
    reached, and splits on the outcome of the rest of the function. *)
Ltac init_tail c :=
  match goal with
  | |- match @bind _ _ _ _ _ ?w2 with _ => _ end =>
      let dd := eval cbn [dev] in (dev w2) in
      match dd with
      | Some ?d2 =>
          let H := fresh "Htail" in
          pose proof (init_after_alloc w2 d2 c eq_refl eq_refl) as H;
          cbv zeta in H;
          match type of H with
          | match ?X with _ => _ end =>
              match goal with
              | |- match ?T with _ => _ end => change T with X
              end;
              revert H; destruct X as [? ? | ?]; [| intros H; exact H]
          end
      end
  end.

Lemma call_run {A} (f : Env -> A * Env) e w :
  call f e w = Ret (fst (f (env w))) (after_call f e w).
Proof. unfold call, after_call. destruct (f (env w)). reflexivity. Qed.

Lemma queue_create_run capacity w :
  PIOS_Queue_Create capacity w
    = Ret (fst (queue_create (env w)))
          (Build_world (dev w) (snd (queue_create (env w)))
             (match fst (queue_create (env w)) with
              | Some _ => []
              | None => queue_items w
              end)
             (trace w ++ [EvQueueCreate capacity])).
Proof.
  unfold PIOS_Queue_Create. destruct (queue_create (env w)). reflexivity.
Qed.

Lemma alloc_run w :
  exists a w1,
    PIOS_HMC5983_alloc w = Ret a w1 /\
    dev w1 = dev w /\
    ((a = None /\ queue_items w1 = queue_items w /\
      (trace w1 = trace w ++ [EvMalloc] \/
       trace w1
         = trace w ++ [EvMalloc; EvQueueCreate PIOS_HMC5983_MAX_DOWNSAMPLE;
                       EvFree])) \/
     (exists q blank,
        a = Some {| i2c_id := i2c_id blank; cfg := cfg blank; queue := q;
                    task := task blank;
                    data_ready_sema := data_ready_sema blank;
                    magic := PIOS_HMC5983_DEV_MAGIC;
                    orientation := orientation blank |} /\
        queue_items w1 = [] /\
        trace w1
          = trace w ++ [EvMalloc; EvQueueCreate PIOS_HMC5983_MAX_DOWNSAMPLE])).
Proof.
  unfold PIOS_HMC5983_alloc, bind. rewrite call_run.
  destruct (fst (malloc_dev (env w))); cbn [negb].
  - unfold peek. rewrite queue_create_run.
    destruct (fst (queue_create _)) as [q |].
    + eexists. eexists. split; [reflexivity |].
      split; [reflexivity |].
      right. eexists. eexists. split; [reflexivity |].
      split; [reflexivity |].
      cbn. rewrite <- app_assoc. reflexivity.
    + rewrite call_run. eexists. eexists. split; [reflexivity |].
      split; [reflexivity |].
      left. split; [reflexivity |]. split; [reflexivity |]. right.
      cbn. rewrite <- !app_assoc. reflexivity.
  - eexists. eexists. split; [reflexivity |].
    split; [reflexivity |].
    left. split; [reflexivity |]. split; [reflexivity |]. left. reflexivity.
Qed.

Lemma init_cases id sn c w :
  let tA := write_txn_list PIOS_HMC5983_CONFIG_REG_A
              (Z.lor (Z.lor 0x80 (M_ODR c)) (Meas_Conf c)) in
  let tB := write_txn_list PIOS_HMC5983_CONFIG_REG_B (Gain c) in
  let tM := write_txn_list PIOS_HMC5983_MODE_REG (Mode c) in
  match PIOS_HMC5983_Init id sn c w with
  | Fault f => f = AssertFailed
  | Ret r w' =>
      queue_items w'
        = match dev w' with Some _ => [] | None => queue_items w end /\
      ((r = -1 /\ dev w' = None /\
        (trace w' = trace w ++ [EvMalloc] \/
         trace w'
           = trace w ++ [EvMalloc; EvQueueCreate PIOS_HMC5983_MAX_DOWNSAMPLE;
                         EvFree])) \/
       (exists q sema tk pre ts tail,
          dev w' = Some {| i2c_id := id; cfg := c; queue := q; task := tk;
                           data_ready_sema := sema;
                           magic := PIOS_HMC5983_DEV_MAGIC;
                           orientation := Orientation c |} /\
          trace w' = trace w ++ pre ++ map (EvI2CTransfer id) ts ++ tail /\
          ((pre = [EvMalloc; EvQueueCreate PIOS_HMC5983_MAX_DOWNSAMPLE] /\
            sema = None /\
            (PIOS_HMC5983_HAS_GPIOS = false \/ exti_cfg c = None)) \/
           (exists x s,
              pre = [EvMalloc; EvQueueCreate PIOS_HMC5983_MAX_DOWNSAMPLE;
                     EvExtiInit x; EvSemaphoreCreate] /\
              sema = Some s /\ exti_cfg c = Some x /\
              PIOS_HMC5983_HAS_GPIOS = true)) /\
          ((r = -2 /\ tail = [] /\
            ((id = 0 /\ ts = []) \/
             (id <> 0 /\ (ts = [tA] \/ ts = [tA; tB] \/ ts = [tA; tB; tM])))) \/
           (r = 0 /\ id <> 0 /\ ts = [tA; tB; tM] /\
            (exists t, tk = Some t) /\
            tail = [EvSensorsRegister q; EvThreadCreate "pios_hmc5983"]))))
  end.
Proof.
  cbv zeta. unfold PIOS_HMC5983_Init. unfold bind at 1.
  destruct (alloc_run w) as (a & w1 & -> & Hd1 & Ha).
  unfold bind at 1. unfold set_dev at 1.
  destruct Ha as [(-> & Hq1 & Htr) | (q & blank & -> & Hq1 & Htr)].
  - unfold ret. split; [exact Hq1 |]. left.
    split; [reflexivity |]. split; [reflexivity |]. exact Htr.
  - unfold bind at 1. unfold set_dev at 1. unfold bind at 1.
    cbn [queue task data_ready_sema magic env queue_items trace dev].
    destruct PIOS_HMC5983_HAS_GPIOS eqn:Hgpio;
      [destruct (exti_cfg c) as [x |] eqn:Hexti |].
    + (* interrupt line wired: EXTI, then the semaphore *)
      unfold bind at 1. unfold PIOS_EXTI_Init. rewrite call_run.
      unfold bind at 1. unfold PIOS_Semaphore_Create. rewrite call_run.
      cbn [env after_call snd].
      destruct (fst (semaphore_create _)) as [s |]; cbn [is_some PIOS_Assert];
        [| reflexivity].
      unfold bind at 1. unfold ret at 1. unfold ret at 1.
      unfold bind at 1. unfold set_dev at 1.
      cbn [queue task data_ready_sema magic env queue_items trace dev
           after_call].
      init_tail c.
      intros (Hq & ts & tail & tk & Htr' & Hdev & Hcases).
      cbn [queue_items trace i2c_id cfg queue task data_ready_sema magic
           orientation] in *.
      split; [rewrite Hdev; congruence |]. right.
      exists q, (Some s), tk,
        [EvMalloc; EvQueueCreate PIOS_HMC5983_MAX_DOWNSAMPLE; EvExtiInit x;
         EvSemaphoreCreate], ts, tail.
      split; [exact Hdev |].
      split; [rewrite Htr', Htr, <- !app_assoc; reflexivity |].
      split; [right; exists x, s; auto |].
      destruct Hcases as [(Hr & Ht & _ & Hts) | Hok];
        [left; auto | right; exact Hok].
    + unfold ret at 1. unfold bind at 1. unfold set_dev at 1.
      cbn [queue task data_ready_sema magic env queue_items trace dev].
      init_tail c.
      intros (Hq & ts & tail & tk & Htr' & Hdev & Hcases).
      cbn [queue_items trace i2c_id cfg queue task data_ready_sema magic
           orientation] in *.
      split; [rewrite Hdev; congruence |]. right.
      exists q, None, tk,
        [EvMalloc; EvQueueCreate PIOS_HMC5983_MAX_DOWNSAMPLE], ts, tail.
      split; [exact Hdev |].
      split; [rewrite Htr', Htr, <- !app_assoc; reflexivity |].
      split; [left; auto |].
      destruct Hcases as [(Hr & Ht & _ & Hts) | Hok];
        [left; auto | right; exact Hok].
    + unfold ret at 1. unfold bind at 1. unfold set_dev at 1.
      cbn [queue task data_ready_sema magic env queue_items trace dev].
      init_tail c.
      intros (Hq & ts & tail & tk & Htr' & Hdev & Hcases).
      cbn [queue_items trace i2c_id cfg queue task data_ready_sema magic
           orientation] in *.
      split; [rewrite Hdev; congruence |]. right.
      exists q, None, tk,
        [EvMalloc; EvQueueCreate PIOS_HMC5983_MAX_DOWNSAMPLE], ts, tail.
      split; [exact Hdev |].
      split; [rewrite Htr', Htr, <- !app_assoc; reflexivity |].
      split; [left; auto |].
      destruct Hcases as [(Hr & Ht & _ & Hts) | Hok];
        [left; auto | right; exact Hok].
Qed.

Lemma bus_transfers_app a : forall b,
  bus_transfers (a ++ b) = bus_transfers a ++ bus_transfers b.
Proof.
  induction a as [| e a IH]; intros b; [reflexivity |].
  destruct e; cbn; rewrite ?IH; reflexivity.
Qed.

Lemma thread_creates_app a : forall b,
  thread_creates (a ++ b) = thread_creates a ++ thread_creates b.
Proof.
  induction a as [| e a IH]; intros b; [reflexivity |].
  destruct e; cbn; rewrite ?IH; reflexivity.
Qed.

Lemma sensor_registrations_app a : forall b,
  sensor_registrations (a ++ b)
    = sensor_registrations a ++ sensor_registrations b.
Proof.
  induction a as [| e a IH]; intros b; [reflexivity |].
  destruct e; cbn; rewrite ?IH; reflexivity.
Qed.

Lemma queue_sends_app a : forall b,
  queue_sends (a ++ b) = queue_sends a ++ queue_sends b.
Proof.
  induction a as [| e a IH]; intros b; [reflexivity |].
  destruct e; cbn; rewrite ?IH; reflexivity.
Qed.

Lemma bus_transfers_map id ts :
  bus_transfers (map (EvI2CTransfer id) ts) = map (fun l => (id, l)) ts.
Proof. induction ts as [| l ts IH]; cbn; [| rewrite IH]; reflexivity. Qed.

Lemma thread_creates_map id ts :
  thread_creates (map (EvI2CTransfer id) ts) = [].
Proof. induction ts as [| l ts IH]; cbn; [reflexivity | exact IH]. Qed.

Lemma sensor_registrations_map id ts :
  sensor_registrations (map (EvI2CTransfer id) ts) = [].
Proof. induction ts as [| l ts IH]; cbn; [reflexivity | exact IH]. Qed.

Lemma queue_sends_map id ts :
  queue_sends (map (EvI2CTransfer id) ts) = [].
Proof. induction ts as [| l ts IH]; cbn; [reflexivity | exact IH]. Qed.

(** [PIOS_HMC5983_Init] returns 0, -1 or -2 and nothing else, unless it
    stops in a failed assertion (no other fault is possible).  It
    returns -1 exactly when it leaves the global device pointer null,
    and none of the calls it makes is a send to a queue. *)
Theorem init_return_codes id sn c w :
  match PIOS_HMC5983_Init id sn c w with
  | Fault f => f = AssertFailed
  | Ret r w' =>
      (r = 0 \/ r = -1 \/ r = -2) /\
      (r = -1 <-> dev w' = None) /\
      queue_sends (new_events w w') = []
  end.
Proof.
  pose proof (init_cases id sn c w) as H. cbv zeta in H.
  destruct (PIOS_HMC5983_Init id sn c w) as [r w' | f]; [| exact H].
  destruct H as (_ & [(Hr & Hd & Htr) |
                      (q & sema & tk & pre & ts & tail & Hd & Htr & Hpre & Hc)]).
  - split; [auto |]. split; [tauto |].
    destruct Htr as [Htr | Htr]; rewrite (new_events_app _ _ _ Htr);
      reflexivity.
  - split; [destruct Hc as [(-> & _) | (-> & _)]; auto |].
    split.
    + split; [| rewrite Hd; discriminate].
      destruct Hc as [(-> & _) | (-> & _)]; discriminate.
    + rewrite (new_events_app _ _ _ Htr).
      rewrite !queue_sends_app, queue_sends_map.
      assert (Hp : queue_sends pre = [])
        by (destruct Hpre as [(-> & _) | (x & s & -> & _)]; reflexivity).
      assert (Ht : queue_sends tail = [])
        by (destruct Hc as [(_ & -> & _) | (_ & _ & _ & _ & ->)]; reflexivity).
      rewrite Hp, Ht. reflexivity.
Qed.

(** When the heap has no room for the device record, or the queue
    cannot be created, [PIOS_HMC5983_Init] returns -1 without touching
    the bus; in the second case the record is given back to the heap.
    Either way the global device pointer is null afterwards, whatever
    it was before. *)
Theorem init_allocation_failure id sn c w :
  (fst (malloc_dev (env w)) = false ->
   exists w',
     PIOS_HMC5983_Init id sn c w = Ret (-1) w' /\ dev w' = None /\
     new_events w w' = [EvMalloc]) /\
  (fst (malloc_dev (env w)) = true ->
   fst (queue_create (snd (malloc_dev (env w)))) = None ->
   exists w',
     PIOS_HMC5983_Init id sn c w = Ret (-1) w' /\ dev w' = None /\
     new_events w w'
       = [EvMalloc; EvQueueCreate PIOS_HMC5983_MAX_DOWNSAMPLE; EvFree]).
Proof.
  split.
  - intros Hm.
    unfold PIOS_HMC5983_Init, PIOS_HMC5983_alloc, bind.
    rewrite call_run, Hm. cbn [negb]. unfold ret, set_dev.
    eexists. split; [reflexivity |]. split; [reflexivity |].
    apply new_events_app. reflexivity.
  - intros Hm Hq.
    unfold PIOS_HMC5983_Init, PIOS_HMC5983_alloc, bind.
    rewrite call_run, Hm. cbn [negb]. unfold peek. rewrite queue_create_run.
    cbn [env after_call]. rewrite Hq. rewrite call_run.
    unfold ret, set_dev.
    eexists. split; [reflexivity |]. split; [reflexivity |].
    apply new_events_app. cbn. rewrite <- !app_assoc. reflexivity.
Qed.

(** With bus handle 0 [PIOS_HMC5983_Init] cannot succeed: the record it
    has just filled in fails validation inside the first register
    write, so no transfer reaches the bus, no worker is created and the
    result is not 0. *)
Theorem init_zero_bus_handle sn c w :
  match PIOS_HMC5983_Init 0 sn c w with
  | Fault f => f = AssertFailed
  | Ret r w' =>
      (r = -1 \/ r = -2) /\
      bus_transfers (new_events w w') = [] /\
      thread_creates (new_events w w') = [] /\
      sensor_registrations (new_events w w') = []
  end.
Proof.
  pose proof (init_cases 0 sn c w) as H. cbv zeta in H.
  destruct (PIOS_HMC5983_Init 0 sn c w) as [r w' | f]; [| exact H].
  destruct H as (Hq & [(Hr & Hd & Htr) |
                       (q & sema & tk & pre & ts & tail & Hd & Htr & Hpre & Hc)]).
  - split; [auto |].
    destruct Htr as [Htr | Htr]; rewrite (new_events_app _ _ _ Htr);
      repeat split; reflexivity.
  - destruct Hc as [(-> & -> & [(_ & ->) | (Hne & _)]) | (_ & Hne & _)];
      try contradiction.
    split; [auto |]. rewrite (new_events_app _ _ _ Htr).
    destruct Hpre as [(-> & _) | (x & s & -> & _)]; repeat split; reflexivity.
Qed.

(** When [PIOS_HMC5983_Init] returns -2 the configuration failed, but
    the device record stays installed behind the global pointer with
    the bus handle, configuration and orientation it was given: with a
    bus handle other than 0 it passes validation.  What did not happen
    is the registration of the queue and the creation of the worker. *)
Theorem init_config_failure_keeps_device id sn c w :
  match PIOS_HMC5983_Init id sn c w with
  | Fault f => f = AssertFailed
  | Ret r w' =>
      r = -2 ->
      (exists d,
         dev w' = Some d /\ i2c_id d = id /\ cfg d = c /\
         orientation d = Orientation c /\ magic d = PIOS_HMC5983_DEV_MAGIC) /\
      (id <> 0 -> PIOS_HMC5983_Validate (dev w') = 0) /\
      thread_creates (new_events w w') = [] /\
      sensor_registrations (new_events w w') = [] /\
      (List.length (bus_transfers (new_events w w')) <= 3)%nat
  end.
Proof.
  pose proof (init_cases id sn c w) as H. cbv zeta in H.
  destruct (PIOS_HMC5983_Init id sn c w) as [r w' | f]; [| exact H].
  intros Hr.
  destruct H as (Hq & [(Hr' & _) |
                       (q & sema & tk & pre & ts & tail & Hd & Htr & Hpre & Hc)]);
    [lia |].
  destruct Hc as [(_ & -> & Hts) | (Hr0 & _)]; [| lia].
  split; [eexists; split; [exact Hd |]; repeat split; reflexivity |].
  split.
  { intros Hid. rewrite Hd. cbn.
    destruct (Z.eqb_spec id 0); [contradiction | reflexivity]. }
  rewrite (new_events_app _ _ _ Htr).
  rewrite !thread_creates_app, !sensor_registrations_app, !bus_transfers_app.
  rewrite thread_creates_map, sensor_registrations_map, bus_transfers_map.
  assert (Hlen : (List.length ts <= 3)%nat).
  { destruct Hts as [(_ & ->) | (_ & [-> | [-> | ->]])]; cbn; lia. }
  destruct Hpre as [(-> & _) | (x & s & -> & _)]; cbn;
    rewrite ?app_nil_r, ?length_map; repeat split; try reflexivity; lia.
Qed.

(** When [PIOS_HMC5983_Init] returns 0 the device is valid and holds the
    bus handle, the configuration and the orientation of the
    configuration; the calls it made end with the three register writes
    A, B, Mode, then the registration of the queue, then the creation of
    the worker, in this order, so the sensor is configured before the
    worker exists.  The calls before them are the allocation calls and
    no others: the allocation of the record and the creation of the
    queue, followed, when the configuration names an interrupt line (and
    the build has them), by the set-up of the line and the creation of
    the semaphore. *)
Theorem init_success_order id sn c w :
  match PIOS_HMC5983_Init id sn c w with
  | Fault f => f = AssertFailed
  | Ret r w' =>
      r = 0 ->
      PIOS_HMC5983_Validate (dev w') = 0 /\
      exists d pre,
        dev w' = Some d /\ i2c_id d = id /\ cfg d = c /\
        orientation d = Orientation c /\ task d <> None /\
        new_events w w'
          = pre ++
            [ EvI2CTransfer id
                (write_txn_list PIOS_HMC5983_CONFIG_REG_A
                   (Z.lor (Z.lor 0x80 (M_ODR c)) (Meas_Conf c)));
              EvI2CTransfer id
                (write_txn_list PIOS_HMC5983_CONFIG_REG_B (Gain c));
              EvI2CTransfer id
                (write_txn_list PIOS_HMC5983_MODE_REG (Mode c));
              EvSensorsRegister (queue d);
              EvThreadCreate "pios_hmc5983" ] /\
        pre = EvMalloc :: EvQueueCreate PIOS_HMC5983_MAX_DOWNSAMPLE ::
                (if PIOS_HMC5983_HAS_GPIOS
                 then match exti_cfg c with
                      | Some exti => [EvExtiInit exti; EvSemaphoreCreate]
                      | None => []
                      end
                 else []) /\
        bus_transfers pre = [] /\ thread_creates pre = [] /\
        (data_ready_sema d <> None -> exti_cfg c <> None)
  end.
Proof.
  pose proof (init_cases id sn c w) as H. cbv zeta in H.
  destruct (PIOS_HMC5983_Init id sn c w) as [r w' | f]; [| exact H].
  intros Hr.
  destruct H as (Hq & [(Hr' & _) |
                       (q & sema & tk & pre & ts & tail & Hd & Htr & Hpre & Hc)]);
    [lia |].
  destruct Hc as [(Hr2 & _) | (_ & Hid & -> & (t & ->) & ->)]; [lia |].
  split.
  { rewrite Hd. cbn. destruct (Z.eqb_spec id 0); [contradiction | reflexivity]. }
  eexists. exists pre. split; [exact Hd |]. cbn [i2c_id cfg orientation task queue].
  split; [reflexivity |]. split; [reflexivity |]. split; [reflexivity |].
  split; [discriminate |].
  split; [apply new_events_app; rewrite Htr; reflexivity |].
  destruct Hpre as [(-> & -> & Hno) | (x & s & -> & -> & Hx & Hg)];
    cbn [data_ready_sema].
  - split.
    + destruct Hno as [-> | ->]; [reflexivity |].
      destruct PIOS_HMC5983_HAS_GPIOS; reflexivity.
    + repeat split; try reflexivity. intros Hn; contradiction.
  - split; [rewrite Hg, Hx; reflexivity |].
    repeat split; try reflexivity. intros _. rewrite Hx. discriminate.
Qed.

(** *** The task, call by call *)

(** One loop body of the sampling loop on a valid, sanely configured
    device: what it returns, and which calls it made. *)
Lemma task_step_calls w dv sample_delay now :
  dev w = Some dv -> PIOS_HMC5983_Validate (Some dv) = 0 ->
  gain_enumerated (Gain (cfg dv)) ->
  let interrupt :=
    is_some (data_ready_sema dv)
    && (Mode (cfg dv) =? PIOS_HMC5983_MODE_CONTINUOUS) in
  let taken :=
    fst (semaphore_take (env w) (data_ready_sema dv)
           PIOS_SEMAPHORE_TIMEOUT_MAX) in
  let take :=
    EvSemaphoreTake (data_ready_sema dv) PIOS_SEMAPHORE_TIMEOUT_MAX in
  exists now' w' l,
    task_step (SAMPLING sample_delay now) w
      = Ret (SAMPLING sample_delay now') w' /\
    dev w' = dev w /\ trace w' = trace w ++ l /\
    ((interrupt = true /\ taken = false /\ now' = now /\
      l = [take; EvThreadSleep 100] /\ queue_items w' = queue_items w) \/
     (exists wait burst rest,
        l = wait :: burst :: rest /\ is_burst dv burst /\
        ((rest = [] /\ queue_items w' = queue_items w) \/
         (exists s, rest = [EvQueueSend (queue dv) s 0])) /\
        ((interrupt = true /\ taken = true /\ wait = take /\ now' = now) \/
         (interrupt = false /\
          wait = EvThreadSleepUntil now sample_delay /\
          now' = fst (thread_sleep_until (env w) now sample_delay))))).
Proof.
  intros Hd Hv Hg. cbv zeta.
  pose proof (gain_table_positive _ _ (gain_enumerated_table _ Hg)) as Hpos.
  assert (Hread : forall wr wait,
            dev wr = Some dv -> trace wr = trace w ++ [wait] ->
            queue_items wr = queue_items w ->
            exists w' burst rest,
              read_and_publish wr = Ret tt w' /\ dev w' = dev w /\
              trace w' = trace w ++ wait :: burst :: rest /\
              is_burst dv burst /\
              ((rest = [] /\ queue_items w' = queue_items w) \/
               (exists s, rest = [EvQueueSend (queue dv) s 0]))).
  { intros wr wait Hdr Htr Hqr.
    rewrite (read_and_publish_run wr dv Hdr Hv). cbv zeta.
    assert (Hb : is_burst dv
                   (EvI2CTransfer (i2c_id dv) (burst_txn_list wr dv None)))
      by (eexists; reflexivity).
    destruct (negb _).
    - eexists. eexists. exists []. split; [reflexivity |].
      split; [cbn; congruence |].
      split; [cbn; rewrite Htr, <- app_assoc; reflexivity |].
      split; [exact Hb |]. left. split; [reflexivity | exact Hqr].
    - destruct (convert_burst_ok (sensitivity_of_gain (Gain (cfg dv)))
                  (orientation dv) (burst_buffer wr dv None)
                  (burst_buffer_uint8 wr dv None) ltac:(lia)) as [s ->].
      eexists. eexists. eexists. split; [reflexivity |].
      split; [cbn; congruence |].
      split; [cbn; rewrite Htr, <- !app_assoc; reflexivity |].
      split; [exact Hb |]. right. exists s. reflexivity. }
  rewrite (task_step_sampling w dv _ _ Hd). unfold reading_point. rewrite Hd.
  destruct (is_some (data_ready_sema dv)
            && (Mode (cfg dv) =? PIOS_HMC5983_MODE_CONTINUOUS)).
  - destruct (fst (semaphore_take (env w) (data_ready_sema dv)
                     PIOS_SEMAPHORE_TIMEOUT_MAX)) eqn:Htake.
    + destruct (Hread (after_call
                         (fun e => semaphore_take e (data_ready_sema dv)
                                     PIOS_SEMAPHORE_TIMEOUT_MAX)
                         (EvSemaphoreTake (data_ready_sema dv)
                            PIOS_SEMAPHORE_TIMEOUT_MAX) w)
                  (EvSemaphoreTake (data_ready_sema dv)
                     PIOS_SEMAPHORE_TIMEOUT_MAX) Hd eq_refl eq_refl)
        as (w' & burst & rest & -> & Hd' & Htr' & Hb & Hrest).
      exists now, w', (EvSemaphoreTake (data_ready_sema dv)
                         PIOS_SEMAPHORE_TIMEOUT_MAX :: burst :: rest).
      split; [reflexivity |]. split; [congruence |]. split; [exact Htr' |].
      right. exists (EvSemaphoreTake (data_ready_sema dv)
                       PIOS_SEMAPHORE_TIMEOUT_MAX), burst, rest.
      split; [reflexivity |]. split; [exact Hb |]. split; [exact Hrest |].
      left. auto.
    + eexists. eexists. eexists. split; [reflexivity |].
      split; [exact Hd |].
      split; [cbn; rewrite <- app_assoc; reflexivity |].
      left. repeat split; reflexivity.
  - destruct (Hread (after_call
                       (fun e => thread_sleep_until e now sample_delay)
                       (EvThreadSleepUntil now sample_delay) w)
                (EvThreadSleepUntil now sample_delay) Hd eq_refl eq_refl)
      as (w' & burst & rest & -> & Hd' & Htr' & Hb & Hrest).
    eexists. exists w', (EvThreadSleepUntil now sample_delay :: burst :: rest).
    split; [reflexivity |]. split; [congruence |]. split; [exact Htr' |].
    right. exists (EvThreadSleepUntil now sample_delay), burst, rest.
    split; [reflexivity |]. split; [exact Hb |]. split; [exact Hrest |].
    right. auto.
Qed.

(** How the task waits.  With a data-ready semaphore and the continuous
    mode, an iteration takes the semaphore: when the take fails it
    sleeps 100 ms and reads nothing; when it succeeds it reads at once.
    In every other configuration (no semaphore, or a semaphore with
    another mode) it sleeps until the next period first, and the time
    base becomes what that call left.  An iteration that reads makes
    one combined transfer, followed by at most one send to the queue;
    the interrupt-driven loop never changes the time base. *)
Theorem task_iteration_calls w dv sample_delay now :
  dev w = Some dv -> PIOS_HMC5983_Validate (Some dv) = 0 ->
  gain_enumerated (Gain (cfg dv)) ->
  let interrupt :=
    is_some (data_ready_sema dv)
    && (Mode (cfg dv) =? PIOS_HMC5983_MODE_CONTINUOUS) in
  let taken :=
    fst (semaphore_take (env w) (data_ready_sema dv)
           PIOS_SEMAPHORE_TIMEOUT_MAX) in
  let take :=
    EvSemaphoreTake (data_ready_sema dv) PIOS_SEMAPHORE_TIMEOUT_MAX in
  exists now' w',
    task_step (SAMPLING sample_delay now) w
      = Ret (SAMPLING sample_delay now') w' /\
    (interrupt = true -> taken = false ->
     now' = now /\ new_events w w' = [take; EvThreadSleep 100] /\
     queue_items w' = queue_items w) /\
    (interrupt = true -> taken = true ->
     now' = now /\
     exists burst rest,
       is_burst dv burst /\ new_events w w' = take :: burst :: rest /\
       (rest = [] \/ exists s, rest = [EvQueueSend (queue dv) s 0])) /\
    (interrupt = false ->
     now' = fst (thread_sleep_until (env w) now sample_delay) /\
     exists burst rest,
       is_burst dv burst /\
       new_events w w' = EvThreadSleepUntil now sample_delay :: burst :: rest /\
       (rest = [] \/ exists s, rest = [EvQueueSend (queue dv) s 0])).
Proof.
  intros Hd Hv Hg. cbv zeta.
  destruct (task_step_calls w dv sample_delay now Hd Hv Hg)
    as (now' & w' & l & Hstep & _ & Htr & Hl).
  cbv zeta in Hl. exists now', w'. split; [exact Hstep |].
  rewrite (new_events_app _ _ _ Htr).
  destruct Hl as [(Hi & Ht & Hn & -> & Hq) |
                  (wait & burst & rest & -> & Hb & Hrest & Hmode)].
  - split; [auto |]. split; [intros _ Ht'; congruence |].
    intros Hi'; congruence.
  - assert (Hrest' : rest = [] \/ exists s, rest = [EvQueueSend (queue dv) s 0])
      by (destruct Hrest as [(-> & _) | Hs]; auto).
    destruct Hmode as [(Hi & Ht & -> & ->) | (Hi & -> & ->)].
    + split; [intros _ Ht'; congruence |].
      split; [intros _ _; split; [reflexivity |]; eauto |].
      intros Hi'; congruence.
    + split; [intros Hi'; congruence |].
      split; [intros Hi'; congruence |].
      intros _. split; [reflexivity |]. eauto.
Qed.

Lemma task_calls_bounded n : forall w dv sample_delay now,
  dev w = Some dv -> PIOS_HMC5983_Validate (Some dv) = 0 ->
  gain_enumerated (Gain (cfg dv)) ->
  exists now' w' l,
    PIOS_HMC5983_Task n (SAMPLING sample_delay now) w
      = Ret (SAMPLING sample_delay now') w' /\
    trace w' = trace w ++ l /\
    (List.length (bus_transfers l) <= n)%nat /\
    (List.length (queue_sends l) <= List.length (bus_transfers l))%nat /\
    Forall (fun p => exists buffer,
              p = (i2c_id dv,
                   readmag_txn_list (Mode (cfg dv)) buffer (8 - 2)))
           (bus_transfers l) /\
    thread_creates l = [] /\ semaphore_gives l = [].
Proof.
  induction n as [| n IH]; intros w dv sd now Hd Hv Hg.
  - exists now, w, []. split; [reflexivity |].
    split; [rewrite app_nil_r; reflexivity |]. cbn.
    repeat split; try lia; constructor.
  - destruct (task_step_calls w dv sd now Hd Hv Hg)
      as (now1 & w1 & l1 & Hstep & Hd1 & Htr1 & Hl1).
    cbv zeta in Hl1.
    destruct (IH w1 dv sd now1) as (now' & w' & l & Hrun & Htr & Hn & Hs & Hf & Ht & Hgv);
      [congruence | exact Hv | exact Hg |].
    exists now', w', (l1 ++ l).
    split; [cbn [PIOS_HMC5983_Task]; unfold bind; rewrite Hstep; exact Hrun |].
    split; [rewrite Htr, Htr1, <- app_assoc; reflexivity |].
    assert (Hsg : forall a b, semaphore_gives (a ++ b)
                              = semaphore_gives a ++ semaphore_gives b).
    { induction a as [| e a IHa]; intros b; [reflexivity |].
      destruct e; cbn; rewrite ?IHa; reflexivity. }
    rewrite bus_transfers_app, queue_sends_app, thread_creates_app, Hsg.
    rewrite !length_app, Ht, Hgv.
    destruct Hl1 as [(_ & _ & _ & -> & _) |
                     (wait & burst & rest & -> & (buffer & ->) & Hrest & Hmode)].
    + cbn. repeat split; try lia; assumption.
    + assert (Hwait : bus_transfers [wait] = [] /\ queue_sends [wait] = [] /\
                      thread_creates [wait] = [] /\ semaphore_gives [wait] = []).
      { destruct Hmode as [(_ & _ & -> & _) | (_ & -> & _)];
          repeat split; reflexivity. }
      destruct Hwait as (Hw1 & Hw2 & Hw3 & Hw4).
      change (wait :: ?x) with ([wait] ++ x).
      rewrite bus_transfers_app, queue_sends_app, thread_creates_app, Hsg.
      rewrite Hw1, Hw2, Hw3, Hw4. cbn [app].
      destruct Hrest as [(-> & _) | (s & ->)]; cbn;
        (repeat split; try lia; try reflexivity;
         constructor; [eexists; reflexivity | assumption]).
Qed.

(** Over any number of loop bodies of the sampling loop, on a valid and
    sanely configured device and whatever the bus and the semaphore
    answer: the task makes at most one bus transfer per iteration, every
    transfer is the combined read-and-rearm burst of 6 data bytes on the
    device's bus, a sample is sent to the queue at most once per
    transfer, and the task neither creates threads nor gives the
    semaphore. *)
Theorem task_bus_discipline n w dv sample_delay now :
  dev w = Some dv -> PIOS_HMC5983_Validate (Some dv) = 0 ->
  gain_enumerated (Gain (cfg dv)) ->
  exists now' w',
    PIOS_HMC5983_Task n (SAMPLING sample_delay now) w
      = Ret (SAMPLING sample_delay now') w' /\
    (List.length (bus_transfers (new_events w w')) <= n)%nat /\
    (List.length (queue_sends (new_events w w'))
     <= List.length (bus_transfers (new_events w w')))%nat /\
    Forall (fun p => exists buffer,
              p = (i2c_id dv,
                   readmag_txn_list (Mode (cfg dv)) buffer (8 - 2)))
           (bus_transfers (new_events w w')) /\
    thread_creates (new_events w w') = [] /\
    semaphore_gives (new_events w w') = [].
Proof.
  intros Hd Hv Hg.
  destruct (task_calls_bounded n w dv sample_delay now Hd Hv Hg)
    as (now' & w' & l & Hrun & Htr & H).
  exists now', w'. split; [exact Hrun |].
  rewrite (new_events_app _ _ _ Htr). exact H.
Qed.

(** Before the device is valid the task does nothing but sleep: [n]
    loop bodies of its first loop make [n] sleeps of 100 ms and no other
    call, and leave it in that loop.  Once the device is valid, one more
    loop body enters the sampling loop without any call, with the time
    base read from the system time and a sample delay between 14 and
    1334 ms whatever the M_ODR field holds. *)
Theorem task_waits_for_device n w :
  (PIOS_HMC5983_Validate (dev w) <> 0 ->
   exists w',
     PIOS_HMC5983_Task n WAIT_INIT w = Ret WAIT_INIT w' /\
     new_events w w' = repeat (EvThreadSleep 100) n /\
     dev w' = dev w /\ queue_items w' = queue_items w) /\
  (PIOS_HMC5983_Validate (dev w) = 0 ->
   exists sample_delay,
     task_step WAIT_INIT w
       = Ret (SAMPLING sample_delay (thread_systime (env w))) w /\
     14 <= sample_delay <= 1334).
Proof.
  split.
  - intros Hinv.
    assert (H : exists w',
              PIOS_HMC5983_Task n WAIT_INIT w = Ret WAIT_INIT w' /\
              trace w' = trace w ++ repeat (EvThreadSleep 100) n /\
              dev w' = dev w /\ queue_items w' = queue_items w).
    { revert w Hinv. induction n as [| n IH]; intros w Hinv.
      - exists w. split; [reflexivity |].
        split; [cbn; rewrite app_nil_r; reflexivity | auto].
      - set (w1 := after_call (fun e => (tt, thread_sleep e 100))
                     (EvThreadSleep 100) w).
        assert (Hstep : task_step WAIT_INIT w = Ret WAIT_INIT w1).
        { unfold task_step, bind, get_dev. rewrite (guard_invalid _ Hinv).
          unfold PIOS_Thread_Sleep. rewrite call_run. reflexivity. }
        destruct (IH w1 Hinv) as (w' & Hrun & Htr & Hd & Hq).
        exists w'. split.
        { cbn [PIOS_HMC5983_Task]. unfold bind. rewrite Hstep. exact Hrun. }
        split; [rewrite Htr; cbn; rewrite <- app_assoc; reflexivity |].
        split; [rewrite Hd | rewrite Hq]; reflexivity. }
    destruct H as (w' & Hrun & Htr & Hd & Hq).
    exists w'. split; [exact Hrun |].
    split; [apply new_events_app; exact Htr | auto].
  - intros Hv. destruct (validate_zero _ Hv) as (dv & Hd & _).
    destruct (sample_delay_total (M_ODR (cfg dv))) as (d & Hsd & _ & Hrange).
    exists d. split; [| exact Hrange].
    unfold task_step, bind, get_dev, deref_dev.
    rewrite (guard_valid _ Hv), Hd, Hsd. reflexivity.
Qed.

(** The byte [PIOS_HMC5983_Config] writes to Control-Register-A can be
    decoded again: for an output-rate code in bits 4:2 and a measurement
    mode in bits 1:0, the first register write of a configure carries a
    byte whose bit 7 (temperature compensation) is set, whose averaging
    bits 6:5 are clear, and whose rate and measurement fields are the
    configured ones. *)
Theorem config_reg_a_fields w dv c d m :
  dev w = Some dv -> PIOS_HMC5983_Validate (Some dv) = 0 ->
  0 <= d < 8 -> 0 <= m < 4 ->
  M_ODR c = odr_code d -> Meas_Conf c = m ->
  let v := Z.lor (Z.lor 0x80 (M_ODR c)) (Meas_Conf c) in
  exists r w' rest,
    PIOS_HMC5983_Config c w = Ret r w' /\
    new_events w w'
      = EvI2CTransfer (i2c_id dv)
          (write_txn_list PIOS_HMC5983_CONFIG_REG_A v) :: rest /\
    map buf (write_txn_list PIOS_HMC5983_CONFIG_REG_A v) = [[0x00; v]] /\
    Z.testbit v 7 = true /\ Z.land (Z.shiftr v 5) 3 = 0 /\
    Z.land (Z.shiftr v 2) 7 = d /\ Z.land v 3 = m.
Proof.
  intros Hd Hv Hdr Hmr Hodr Hmc. cbv zeta.
  assert (Hbits :
    let v := Z.lor (Z.lor 0x80 (odr_code d)) m in
    0 <= v < 256 /\ Z.testbit v 7 = true /\ Z.land (Z.shiftr v 5) 3 = 0 /\
    Z.land (Z.shiftr v 2) 7 = d /\ Z.land v 3 = m).
  { clear Hodr Hmc.
    assert (Hdc : d = 0 \/ d = 1 \/ d = 2 \/ d = 3 \/
                  d = 4 \/ d = 5 \/ d = 6 \/ d = 7) by lia.
    assert (Hmcs : m = 0 \/ m = 1 \/ m = 2 \/ m = 3) by lia.
    repeat (destruct Hdc as [-> | Hdc]);
      repeat (destruct Hmcs as [-> | Hmcs]); subst;
      cbv zeta; cbn; repeat split; (reflexivity || lia). }
  cbv zeta in Hbits. rewrite Hodr, Hmc.
  destruct Hbits as (Hbyte & Hb7 & Hb65 & Hbd & Hbm).
  rewrite (config_valid w dv c Hd Hv). cbv zeta. rewrite Hodr, Hmc.
  set (tA := write_txn_list PIOS_HMC5983_CONFIG_REG_A _).
  assert (Hbuf : map buf tA = [[0x00; Z.lor (Z.lor 0x80 (odr_code d)) m]]).
  { subst tA. unfold write_txn_list. cbn [map buf].
    rewrite (to_uint8_id (Z.lor _ _)) by exact Hbyte. reflexivity. }
  destruct (negb (transfer_status w (i2c_id dv) tA =? 0)).
  { eexists. eexists. exists []. split; [reflexivity |].
    split; [apply new_events_app; reflexivity |]. auto. }
  destruct (negb (transfer_status _ (i2c_id dv) _ =? 0)).
  { eexists. eexists. eexists. split; [reflexivity |].
    split; [apply new_events_app; cbn; rewrite <- app_assoc; reflexivity |].
    auto. }
  destruct (negb (transfer_status _ (i2c_id dv) _ =? 0)).
  { eexists. eexists. eexists. split; [reflexivity |].
    split; [apply new_events_app; cbn; rewrite <- !app_assoc; reflexivity |].
    auto. }
  eexists. eexists. eexists. split; [reflexivity |].
  split; [apply new_events_app; cbn; rewrite <- !app_assoc; reflexivity |].
  auto.
Qed.

End DriverCoverage.

(** ** Instances of the further properties *)

Lemma device_record_untouched_witness :
  exists r w',
    PIOS_HMC5983_Task 2 (SAMPLING 67 0)
      (mock_world (Some (mock_dev default_cfg)) [(0, [1; 0; 255; 0; 0; 128])])
      = Ret r w' /\
    PIOS_HMC5983_Validate (dev w') = 0.
Proof.
  destruct (PIOS_HMC5983_Task 2 (SAMPLING 67 0)
              (mock_world (Some (mock_dev default_cfg))
                 [(0, [1; 0; 255; 0; 0; 128])])) as [r w' | f] eqn:E.
  - exists r, w'. split; [reflexivity |].
    destruct (device_record_untouched (svc := mock_services))
      as (_ & _ & _ & _ & _ & _ & _ & H).
    rewrite (H _ _ _ _ _ E). reflexivity.
  - vm_compute in E. discriminate E.
Defined.

Lemma invalid_device_rejected_witness :
  PIOS_HMC5983_Config default_cfg (mock_world None [(0, [])])
    = Ret (-1) (mock_world None [(0, [])]) /\
  PIOS_HMC5983_SetOrientation PIOS_HMC5983_TOP_90DEG (mock_world None [])
    = Ret (-1) (mock_world None []).
Proof.
  split.
  - apply (invalid_device_rejected (svc := mock_services)
             (mock_world None [(0, [])]) ltac:(vm_compute; discriminate)).
  - apply (invalid_device_rejected (svc := mock_services)
             (mock_world None []) ltac:(vm_compute; discriminate)).
Defined.

Lemma self_test_without_device_witness :
  exists r,
    PIOS_HMC5983_Test (mock_world None [(0, [72; 52; 51])])
      = Ret r (mock_world None [(0, [72; 52; 51])]) /\
    (r = 0 \/ r = -1).
Proof.
  destruct (self_test_without_device (svc := mock_services)
              (mock_world None [(0, [72; 52; 51])])
              ltac:(vm_compute; discriminate)) as (r & Hrun & Hr & _).
  exists r. split; assumption.
Defined.

Lemma read_id_witness :
  exists r out' w',
    PIOS_HMC5983_ReadID [1; 2; 3; 4] (mock_world None [])
      = Ret (r, out') w' /\
    nth 3 out' 1 = 0 /\ r = 255.
Proof.
  destruct (read_id_terminator_and_status (svc := mock_services)
              (mock_world None []) [1; 2; 3; 4] eq_refl)
    as (r & out' & w' & Hrun & _ & Hnul & _ & Hinv & _).
  exists r, out', w'. split; [exact Hrun |]. split; [exact Hnul |].
  apply Hinv. vm_compute. discriminate.
Defined.

Lemma set_orientation_witness :
  PIOS_HMC5983_SetOrientation PIOS_HMC5983_BOTTOM_180DEG
    (mock_world (Some (mock_dev default_cfg)) [])
    = Ret 0 (with_dev
               (Some (with_orientation (mock_dev default_cfg)
                        PIOS_HMC5983_BOTTOM_180DEG))
               (mock_world (Some (mock_dev default_cfg)) [])).
Proof.
  apply (set_orientation_effect (svc := mock_services)
           (mock_world (Some (mock_dev default_cfg)) [])
           (mock_dev default_cfg) PIOS_HMC5983_BOTTOM_180DEG eq_refl eq_refl).
Defined.

Lemma init_allocation_failure_witness :
  (exists w',
     @PIOS_HMC5983_Init mock_env (mock_services_with false true) 1 0
       default_cfg (mock_world (Some (mock_dev default_cfg)) [])
       = Ret (-1) w' /\ dev w' = None) /\
  (exists w',
     @PIOS_HMC5983_Init mock_env (mock_services_with true false) 1 0
       default_cfg (mock_world (Some (mock_dev default_cfg)) [])
       = Ret (-1) w' /\ dev w' = None).
Proof.
  split.
  - destruct (proj1 (init_allocation_failure
                       (svc := mock_services_with false true) 1 0 default_cfg
                       (mock_world (Some (mock_dev default_cfg)) []))
                eq_refl) as (w' & Hrun & Hd & _).
    exists w'. split; assumption.
  - destruct (proj2 (init_allocation_failure
                       (svc := mock_services_with true false) 1 0 default_cfg
                       (mock_world (Some (mock_dev default_cfg)) []))
                eq_refl eq_refl) as (w' & Hrun & Hd & _).
    exists w'. split; assumption.
Defined.

Lemma init_config_failure_witness :
  exists w',
    PIOS_HMC5983_Init 1 0 default_cfg (mock_world None [(0, []); (-1, [])])
      = Ret (-2) w' /\
    PIOS_HMC5983_Validate (dev w') = 0 /\
    thread_creates
      (new_events (mock_world None [(0, []); (-1, [])]) w') = [].
Proof.
  pose proof (init_config_failure_keeps_device (svc := mock_services) 1 0
                default_cfg (mock_world None [(0, []); (-1, [])])) as H.
  destruct (PIOS_HMC5983_Init 1 0 default_cfg
              (mock_world None [(0, []); (-1, [])])) as [r w' | f] eqn:E.
  - assert (Hr : r = -2) by (vm_compute in E; congruence).
    destruct (H Hr) as (_ & Hv & Ht & _).
    exists w'. subst r. split; [reflexivity |].
    split; [apply Hv; discriminate | exact Ht].
  - vm_compute in E. discriminate E.
Defined.

Lemma init_success_witness :
  exists w',
    PIOS_HMC5983_Init 1 0 default_cfg
      (mock_world None [(0, []); (0, []); (0, [])]) = Ret 0 w' /\
    PIOS_HMC5983_Validate (dev w') = 0 /\
    firstn 2 (new_events (mock_world None [(0, []); (0, []); (0, [])]) w')
      = [EvMalloc; EvQueueCreate PIOS_HMC5983_MAX_DOWNSAMPLE] /\
    List.length (new_events (mock_world None [(0, []); (0, []); (0, [])]) w')
      = 7%nat.
Proof.
  pose proof (init_success_order (svc := mock_services) 1 0
                default_cfg (mock_world None [(0, []); (0, []); (0, [])])) as H.
  destruct (PIOS_HMC5983_Init 1 0 default_cfg
              (mock_world None [(0, []); (0, []); (0, [])]))
    as [r w' | f] eqn:E.
  - assert (Hr : r = 0) by (vm_compute in E; congruence).
    destruct (H Hr) as (Hv & d & pre & _ & _ & _ & _ & _ & Hev & Hpre & _).
    exists w'. subst r. split; [reflexivity |]. split; [exact Hv |].
    rewrite Hev, Hpre. split; reflexivity.
  - vm_compute in E. discriminate E.
Defined.

Lemma task_iteration_calls_witness :
  (exists now' w',
     task_step (SAMPLING 67 0)
       (mock_world (Some (mock_dev default_cfg)) [(0, [1; 0; 255; 0; 0; 128])])
       = Ret (SAMPLING 67 now') w' /\ now' = 67) /\
  (exists now' w',
     task_step (SAMPLING 14 5) (mock_world (Some interrupt_dev) [])
       = Ret (SAMPLING 14 now') w' /\ now' = 5 /\
     new_events (mock_world (Some interrupt_dev) []) w'
       = [EvSemaphoreTake (Some 2) 0xFFFF; EvThreadSleep 100]).
Proof.
  assert (Hg : gain_enumerated PIOS_HMC5983_GAIN_1_3)
    by (right; left; reflexivity).
  split.
  - destruct (task_iteration_calls (svc := mock_services)
                (mock_world (Some (mock_dev default_cfg))
                   [(0, [1; 0; 255; 0; 0; 128])])
                (mock_dev default_cfg) 67 0 eq_refl eq_refl Hg)
      as (now' & w' & Hstep & _ & _ & Hpoll).
    exists now', w'. split; [exact Hstep |].
    destruct (Hpoll eq_refl) as (-> & _). reflexivity.
  - destruct (task_iteration_calls (svc := mock_services)
                (mock_world (Some interrupt_dev) [])
                interrupt_dev 14 5 eq_refl eq_refl Hg)
      as (now' & w' & Hstep & Hmiss & _).
    exists now', w'. split; [exact Hstep |].
    destruct (Hmiss eq_refl eq_refl) as (-> & Hev & _).
    split; [reflexivity | exact Hev].
Defined.

Lemma task_bus_discipline_witness :
  exists now' w',
    PIOS_HMC5983_Task 3 (SAMPLING 67 0)
      (mock_world (Some (mock_dev default_cfg))
         [(-1, []); (0, [1; 0; 255; 0; 0; 128])])
      = Ret (SAMPLING 67 now') w' /\
    Nat.le
      (List.length
         (bus_transfers
            (new_events
               (mock_world (Some (mock_dev default_cfg))
                  [(-1, []); (0, [1; 0; 255; 0; 0; 128])]) w'))) 3.
Proof.
  assert (Hg : gain_enumerated PIOS_HMC5983_GAIN_1_3)
    by (right; left; reflexivity).
  destruct (task_bus_discipline (svc := mock_services) 3
              (mock_world (Some (mock_dev default_cfg))
                 [(-1, []); (0, [1; 0; 255; 0; 0; 128])])
              (mock_dev default_cfg) 67 0 eq_refl eq_refl Hg)
    as (now' & w' & Hrun & Hn & _).
  exists now', w'. split; assumption.
Defined.

Lemma task_waits_for_device_witness :
  (exists w',
     PIOS_HMC5983_Task 3 WAIT_INIT (mock_world None []) = Ret WAIT_INIT w' /\
     new_events (mock_world None []) w'
       = [EvThreadSleep 100; EvThreadSleep 100; EvThreadSleep 100]) /\
  (exists sample_delay,
     task_step WAIT_INIT (mock_world (Some interrupt_dev) [])
       = Ret (SAMPLING sample_delay 0) (mock_world (Some interrupt_dev) [])).
Proof.
  split.
  - destruct (proj1 (task_waits_for_device (svc := mock_services) 3
                       (mock_world None []))
                ltac:(vm_compute; discriminate)) as (w' & Hrun & Hev & _).
    exists w'. split; [exact Hrun | exact Hev].
  - destruct (proj2 (task_waits_for_device (svc := mock_services) 0
                       (mock_world (Some interrupt_dev) []))
                eq_refl) as (sd & Hstep & _).
    exists sd. exact Hstep.
Defined.

Lemma config_reg_a_fields_witness :
  Z.land (Z.shiftr (Z.lor (Z.lor 0x80 (M_ODR default_cfg))
                      (Meas_Conf default_cfg)) 2) 7 = 4.
Proof.
  destruct (config_reg_a_fields (svc := mock_services)
              (mock_world (Some (mock_dev default_cfg)) [])
              (mock_dev default_cfg) default_cfg 4 0 eq_refl eq_refl
              ltac:(vm_compute; split; [discriminate | reflexivity])
              ltac:(vm_compute; split; [discriminate | reflexivity])
              eq_refl eq_refl)
    as (r & w' & rest & _ & _ & _ & _ & _ & Hodr & _).
  exact Hodr.
Defined.
